(** * otel-lgtm: the telemetry provider of app/otel.go

    A shallow embedding of the second revision of [app/otel.go] (the one with
    the extended resource detection): the environment-driven [getXxx]
    helpers, [generateInstanceID], [createResource], the three
    [setupXxxProvider] functions, [NewTelemetryProvider] and [Shutdown].

    Conventions.
    - A Go [string] is a byte string: [String.string], one [ascii] per byte.
    - A Go [error] is represented by its message.
    - A run-time panic (slice bounds out of range, index out of range) is the
      [Panic] outcome of the [result] type.
    - The process environment, the file system and the Go runtime constants
      are the fields of a [Platform]; the OpenTelemetry SDK is a record of
      state transformers over an abstract world [W]. *)

From Stdlib Require Import String Ascii List Bool Arith Lia BinNums PrimFloat.
Import ListNotations.
Open Scope string_scope.

Set Implicit Arguments.
#[local] Set Warnings "-inexact-float".

(** ** Outcomes of Go code that may panic *)

Inductive result (A : Type) : Type :=
| Ok (a : A)
| Panic.
Arguments Ok {A} a.
Arguments Panic {A}.

Definition rbind {A B : Type} (r : result A) (k : A -> result B) : result B :=
  match r with
  | Ok a => k a
  | Panic => Panic
  end.

Declare Scope go_scope.
Delimit Scope go_scope with go.
Notation "x <- r ;; k" := (rbind r (fun x => k))
  (at level 61, r at next level, right associativity) : go_scope.
Open Scope go_scope.

Definition error : Type := string.

(** ** The parts of Go's [strings], [fmt] and slice syntax the file uses *)

Module GoStrings.

(** [s] is not the empty string. *)
Definition nonempty (s : string) : bool :=
  match s with
  | EmptyString => false
  | String _ _ => true
  end.

(** [s[:n]]: panics when [n > len(s)]. *)
Definition slice_to (s : string) (n : nat) : result string :=
  if Nat.leb n (String.length s) then Ok (substring 0 n s) else Panic.

(** [xs[i]] on a slice: panics when [i >= len(xs)]. *)
Definition index {A : Type} (xs : list A) (i : nat) : result A :=
  match nth_error xs i with
  | Some x => Ok x
  | None => Panic
  end.

(** [strings.Contains(s, substr)] *)
Fixpoint Contains (s substr : string) : bool :=
  prefix substr s ||
  match s with
  | EmptyString => false
  | String _ s' => Contains s' substr
  end.

(** [strings.Split(s, sep)] for a non-empty [sep], as at every call site
    of the file: the pieces between the non-overlapping occurrences of
    [sep], found left to right.  [skip] counts the bytes of a separator
    that are still to be dropped, [cur] is the piece being read. *)
Fixpoint split_go (sep : string) (skip : nat) (cur : string) (s : string)
  : list string :=
  match s with
  | EmptyString => [cur]
  | String c s' =>
      match skip with
      | S k => split_go sep k cur s'
      | O =>
          if prefix sep s
          then cur :: split_go sep (String.length sep - 1) EmptyString s'
          else split_go sep 0 (cur ++ String c EmptyString) s'
      end
  end.

Definition Split (s sep : string) : list string :=
  split_go sep 0 EmptyString s.

(** [%x] of one byte: two lower-case hexadecimal digits. *)
Definition hex_digit (n : nat) : ascii :=
  nth n (list_ascii_of_string "0123456789abcdef") "0"%char.

Definition hex_byte (b : ascii) : string :=
  let n := nat_of_ascii b in
  String (hex_digit (n / 16)) (String (hex_digit (n mod 16)) EmptyString).

(** [fmt.Sprintf("%x", b)] of a byte slice. *)
Fixpoint hex (b : list ascii) : string :=
  match b with
  | [] => EmptyString
  | c :: b' => hex_byte c ++ hex b'
  end.

(** [b[lo:hi]] on the 16-byte buffer of [generateUUID] (always in bounds
    there). *)
Definition sub {A : Type} (b : list A) (lo hi : nat) : list A :=
  firstn (hi - lo) (skipn lo b).

End GoStrings.
Import GoStrings.

(** ** Configuration and resource attributes *)

(** [type Config struct]; [SampleRate] is a [float64]. *)
Record Config : Type := {
  ServiceName : string;
  ServiceVersion : string;
  ServiceNamespace : string;
  Environment : string;
  TraceEndpoint : string;
  MetricsEndpoint : string;
  LogsEndpoint : string;
  EnablePrometheus : bool;
  SampleRate : float;
  InsecureMode : bool;
  ServiceInstanceID : string;
  ServiceTeam : string;
  ServiceOwner : string;
  BuildTime : string;
  GitCommit : string;
  GitBranch : string
}.

(** [attribute.Value]: a typed value; the file only builds string values.
    The float and slice kinds of the SDK are not needed and left out. *)
Inductive Value : Type :=
| INVALID
| BOOL (b : bool)
| INT64 (n : Z)
| STRING (s : string).

(** [Value.AsString]: the string of a [STRING] value, empty otherwise. *)
Definition AsString (v : Value) : string :=
  match v with
  | STRING s => s
  | _ => EmptyString
  end.

(** [attribute.KeyValue] *)
Record KeyValue : Type := { Key : string; Val : Value }.

(** [attribute.String(k, v)] *)
Definition attribute_String (k v : string) : KeyValue :=
  {| Key := k; Val := STRING v |}.

(** The [semconv] (v1.27.0) constructors the file calls. *)
Module semconv.
Definition ServiceName := attribute_String "service.name".
Definition ServiceVersion := attribute_String "service.version".
Definition ServiceInstanceID := attribute_String "service.instance.id".
Definition DeploymentEnvironmentName :=
  attribute_String "deployment.environment.name".
Definition TelemetrySDKName := attribute_String "telemetry.sdk.name".
Definition TelemetrySDKVersion := attribute_String "telemetry.sdk.version".
End semconv.

(** ** The process environment *)

(** What the resolution helpers read from outside the program: [os.Getenv]
    (the empty string for an unset variable), [os.Hostname], [os.ReadFile],
    the [runtime] constants, [otel.Version()], the bytes [crypto/rand]
    delivers to [rand.Read], and [strings.TrimSpace] (Unicode-aware in Go,
    taken as given here). *)
Record Platform : Type := {
  Getenv : string -> string;
  Hostname : string * option error;
  ReadFile : string -> string * option error;
  runtime_Compiler : string;
  runtime_Version : string;
  runtime_GOOS : string;
  runtime_GOARCH : string;
  otel_Version : string;
  rand_bytes : list ascii;
  TrimSpace : string -> string
}.

Definition newline : string := String "010"%char EmptyString.

Module Resolve.
Section WithPlatform.

Variable os : Platform.

(** The recurring shape
    [if v := os.Getenv(k)] is not empty then [return v] over a list of variable
    names, ending in [return dflt]. *)
Fixpoint firstEnv (keys : list string) (dflt : string) : string :=
  match keys with
  | [] => dflt
  | k :: keys' =>
      if nonempty (Getenv os k) then Getenv os k else firstEnv keys' dflt
  end.

Definition getServiceName : string :=
  firstEnv ["SERVICE_NAME"; "OTEL_SERVICE_NAME"] "otel-lgtm-api".

Definition getServiceNamespace : string :=
  firstEnv ["SERVICE_NAMESPACE"; "OTEL_SERVICE_NAMESPACE"] EmptyString.

Definition getServiceInstanceID : string :=
  firstEnv ["SERVICE_INSTANCE_ID"; "OTEL_SERVICE_INSTANCE_ID"] EmptyString.

Definition getVersion : string :=
  firstEnv ["SERVICE_VERSION"; "OTEL_SERVICE_VERSION"] "dev".

Definition getEnvironment : string :=
  firstEnv ["ENVIRONMENT"; "DEPLOYMENT_ENVIRONMENT";
            "OTEL_DEPLOYMENT_ENVIRONMENT"] "development".

Definition getBuildTime : string :=
  firstEnv ["BUILD_TIME"; "SOURCE_DATE_EPOCH"] EmptyString.

Definition getGitCommit : string :=
  firstEnv ["GIT_COMMIT"; "BUILD_COMMIT"; "VCS_REF"] EmptyString.

Definition getGitBranch : string :=
  firstEnv ["GIT_BRANCH"; "BUILD_BRANCH"] EmptyString.

(** [fmt.Sprintf("%s %s %s/%s", ...)] *)
Definition getRuntimeDescription : string :=
  runtime_Compiler os ++ " " ++ runtime_Version os ++ " "
    ++ runtime_GOOS os ++ "/" ++ runtime_GOARCH os.

(** The [for _, line := range lines] loop of [getContainerID]; falling out
    of the loop reaches the final return of the empty string. *)
Fixpoint cgroupContainerID (lines : list string) : result string :=
  match lines with
  | [] => Ok EmptyString
  | line :: rest =>
      if Contains line "/docker/" then
        match Split line "/docker/" with
        | _ :: p1 :: _ => slice_to p1 12
        | _ => cgroupContainerID rest
        end
      else cgroupContainerID rest
  end.

Definition getContainerID : result string :=
  if nonempty (Getenv os "CONTAINER_ID") then Ok (Getenv os "CONTAINER_ID")
  else
    match ReadFile os "/proc/self/cgroup" with
    | (data, None) => cgroupContainerID (Split data newline)
    | (_, Some _) => Ok EmptyString
    end.

Definition getContainerName : string :=
  firstEnv ["CONTAINER_NAME"; "HOSTNAME"] EmptyString.

Definition getContainerImageName : result string :=
  if nonempty (Getenv os "CONTAINER_IMAGE")
  then index (Split (Getenv os "CONTAINER_IMAGE") ":") 0
  else if nonempty (Getenv os "IMAGE_NAME")
  then index (Split (Getenv os "IMAGE_NAME") ":") 0
  else Ok EmptyString.

Definition getContainerImageTag : string :=
  let fallback := firstEnv ["IMAGE_TAG"] EmptyString in
  if nonempty (Getenv os "CONTAINER_IMAGE") then
    match Split (Getenv os "CONTAINER_IMAGE") ":" with
    | _ :: p1 :: _ => p1
    | _ => fallback
    end
  else fallback.

Definition getK8sPodName : string :=
  firstEnv ["K8S_POD_NAME"; "POD_NAME"]
    (if nonempty (Getenv os "HOSTNAME") && Contains (Getenv os "HOSTNAME") "-"
     then Getenv os "HOSTNAME" else EmptyString).

Definition getK8sPodUID : string :=
  firstEnv ["K8S_POD_UID"; "POD_UID"] EmptyString.

Definition getK8sNamespace : string :=
  firstEnv ["K8S_NAMESPACE"; "POD_NAMESPACE"]
    (match ReadFile os "/var/run/secrets/kubernetes.io/serviceaccount/namespace" with
     | (data, None) => TrimSpace os data
     | (_, Some _) => EmptyString
     end).

Definition getK8sNodeName : string :=
  firstEnv ["K8S_NODE_NAME"; "NODE_NAME"] EmptyString.

Definition getK8sDeployment : string :=
  firstEnv ["K8S_DEPLOYMENT_NAME"; "DEPLOYMENT_NAME"] EmptyString.

Definition getCloudProvider : string :=
  firstEnv ["CLOUD_PROVIDER"]
    (if nonempty (Getenv os "AWS_REGION")
        || nonempty (Getenv os "AWS_DEFAULT_REGION") then "aws"
     else if nonempty (Getenv os "GOOGLE_CLOUD_PROJECT")
             || nonempty (Getenv os "GCP_PROJECT") then "gcp"
     else if nonempty (Getenv os "AZURE_SUBSCRIPTION_ID") then "azure"
     else EmptyString).

Definition getCloudPlatform : string :=
  firstEnv ["CLOUD_PLATFORM"]
    (if nonempty (Getenv os "AWS_LAMBDA_FUNCTION_NAME") then "aws_lambda"
     else if nonempty (Getenv os "K_SERVICE") then "gcp_cloud_run"
     else if nonempty (Getenv os "WEBSITE_SITE_NAME") then "azure_app_service"
     else EmptyString).

Definition getCloudRegion : string :=
  firstEnv ["CLOUD_REGION"; "AWS_REGION"; "AWS_DEFAULT_REGION";
            "GOOGLE_CLOUD_REGION"] EmptyString.

Definition getCloudAZ : string :=
  firstEnv ["CLOUD_AVAILABILITY_ZONE"; "AWS_AVAILABILITY_ZONE"] EmptyString.

Definition getCloudAccountID : string :=
  firstEnv ["CLOUD_ACCOUNT_ID"; "AWS_ACCOUNT_ID"; "GOOGLE_CLOUD_PROJECT";
            "AZURE_SUBSCRIPTION_ID"] EmptyString.

Definition getServiceTeam : string :=
  firstEnv ["SERVICE_TEAM"; "TEAM"] EmptyString.

Definition getServiceOwner : string :=
  firstEnv ["SERVICE_OWNER"; "OWNER"] EmptyString.

(** [generateUUID]: [rand.Read] fills the 16-byte buffer (its error is
    ignored; bytes that were not delivered stay zero). *)
Definition generateUUID : string :=
  let b := firstn 16 (rand_bytes os ++ repeat Ascii.zero 16) in
  hex (sub b 0 4) ++ "-" ++ hex (sub b 4 6) ++ "-" ++ hex (sub b 6 8)
    ++ "-" ++ hex (sub b 8 10) ++ "-" ++ hex (sub b 10 16).

Definition generateInstanceID : result string :=
  if nonempty (Getenv os "SERVICE_INSTANCE_ID")
  then Ok (Getenv os "SERVICE_INSTANCE_ID")
  else
    containerID <- getContainerID ;;
    if nonempty containerID then slice_to containerID 12
    else if nonempty getK8sPodUID then Ok getK8sPodUID
    else
      match Hostname os with
      | (hostname, None) => Ok hostname
      | (_, Some _) => Ok generateUUID
      end.

(** [DefaultConfig] *)
Definition DefaultConfig : Config := {|
  ServiceName := getServiceName;
  ServiceVersion := getVersion;
  ServiceNamespace := getServiceNamespace;
  Environment := getEnvironment;
  TraceEndpoint := "http://localhost:4318/v1/traces";
  MetricsEndpoint := "http://localhost:4318/v1/metrics";
  LogsEndpoint := "http://localhost:4318/v1/logs";
  EnablePrometheus := true;
  SampleRate := 1%float;
  InsecureMode := true;
  ServiceInstanceID := getServiceInstanceID;
  ServiceTeam := getServiceTeam;
  ServiceOwner := getServiceOwner;
  BuildTime := getBuildTime;
  GitCommit := getGitCommit;
  GitBranch := getGitBranch
|}.

(** [if config == nil { config = DefaultConfig() }]; [None] is [nil]. *)
Definition orDefault (config : option Config) : Config :=
  match config with
  | None => DefaultConfig
  | Some c => c
  end.

(** [v := cfg.F], replaced by [fallback] when empty. *)
Definition orElse (v fallback : string) : string :=
  if nonempty v then v else fallback.

(** The [instanceID] local of [createResource]. *)
Definition instanceIDOf (cfg : Config) : result string :=
  if nonempty (ServiceInstanceID cfg) then Ok (ServiceInstanceID cfg)
  else generateInstanceID.

(** The slice literal [resourceAttributes] of [createResource], with the
    locals computed before it. *)
Definition resourceAttributes (cfg : Config) : result (list KeyValue) :=
  instanceID <- instanceIDOf cfg ;;
  let buildTime := orElse (BuildTime cfg) getBuildTime in
  let gitCommit := orElse (GitCommit cfg) getGitCommit in
  let gitBranch := orElse (GitBranch cfg) getGitBranch in
  let serviceTeam := orElse (ServiceTeam cfg) getServiceTeam in
  let serviceOwner := orElse (ServiceOwner cfg) getServiceOwner in
  containerID <- getContainerID ;;
  containerImageName <- getContainerImageName ;;
  Ok [ semconv.ServiceName (ServiceName cfg);
       semconv.ServiceVersion (ServiceVersion cfg);
       semconv.ServiceInstanceID instanceID;
       attribute_String "service.namespace" (ServiceNamespace cfg);
       semconv.DeploymentEnvironmentName (Environment cfg);
       semconv.TelemetrySDKName "opentelemetry";
       attribute_String "telemetry.sdk.language" "go";
       semconv.TelemetrySDKVersion (otel_Version os);
       attribute_String "service.build.time" buildTime;
       attribute_String "service.build.commit" gitCommit;
       attribute_String "service.build.branch" gitBranch;
       attribute_String "process.runtime.name" (runtime_Compiler os);
       attribute_String "process.runtime.version" (runtime_Version os);
       attribute_String "process.runtime.description" getRuntimeDescription;
       attribute_String "container.id" containerID;
       attribute_String "container.name" getContainerName;
       attribute_String "container.image.name" containerImageName;
       attribute_String "container.image.tag" getContainerImageTag;
       attribute_String "k8s.pod.name" getK8sPodName;
       attribute_String "k8s.pod.uid" getK8sPodUID;
       attribute_String "k8s.namespace.name" getK8sNamespace;
       attribute_String "k8s.node.name" getK8sNodeName;
       attribute_String "k8s.deployment.name" getK8sDeployment;
       attribute_String "cloud.provider" getCloudProvider;
       attribute_String "cloud.platform" getCloudPlatform;
       attribute_String "cloud.region" getCloudRegion;
       attribute_String "cloud.availability_zone" getCloudAZ;
       attribute_String "cloud.account.id" getCloudAccountID;
       attribute_String "service.team" serviceTeam;
       attribute_String "service.owner" serviceOwner ].

(** The filter loop:
    an attribute whose [Value.AsString()] is not empty is appended. *)
Fixpoint filterEmpty (attrs : list KeyValue) : list KeyValue :=
  match attrs with
  | [] => []
  | attr :: rest =>
      if nonempty (AsString (Val attr)) then attr :: filterEmpty rest
      else filterEmpty rest
  end.

(** The [validAttributes] that [createResource] hands to
    [resource.WithAttributes]. *)
Definition validAttributes (cfg : Config) : result (list KeyValue) :=
  attrs <- resourceAttributes cfg ;;
  Ok (filterEmpty attrs).

End WithPlatform.
End Resolve.

(** [attrs] read as a resource: the value stored under key [k], if any
    (keys are unique in the list [createResource] builds). *)
Fixpoint attr_lookup (k : string) (attrs : list KeyValue) : option Value :=
  match attrs with
  | [] => None
  | attr :: rest =>
      if String.eqb (Key attr) k then Some (Val attr) else attr_lookup k rest
  end.

(** ** The SDK objects the file configures *)

(** [TraceIDRatioBased]'s decision is the SDK's own; the embedding keeps it
    as the parameter [ratio] of [ShouldSample]. *)
Module sdktrace.

(** The parent span context found in [SamplingParameters.ParentContext]. *)
Record SpanContext : Type := {
  IsValid : bool;
  IsRemote : bool;
  IsSampled : bool
}.

Record SamplingParameters : Type := {
  ParentContext : SpanContext;
  TraceID : list ascii
}.

Inductive Sampler : Type :=
| AlwaysSample
| NeverSample
| TraceIDRatioBased (fraction : float)
| parentBased (root remoteParentSampled remoteParentNotSampled
               localParentSampled localParentNotSampled : Sampler).

Inductive ParentBasedSamplerOption : Type :=
| WithRemoteParentSampled (s : Sampler)
| WithRemoteParentNotSampled (s : Sampler)
| WithLocalParentSampled (s : Sampler)
| WithLocalParentNotSampled (s : Sampler).

Record samplerConfig : Type := {
  remoteParentSampled : Sampler;
  remoteParentNotSampled : Sampler;
  localParentSampled : Sampler;
  localParentNotSampled : Sampler
}.

Definition applyOption (c : samplerConfig) (o : ParentBasedSamplerOption)
  : samplerConfig :=
  match o with
  | WithRemoteParentSampled s =>
      {| remoteParentSampled := s;
         remoteParentNotSampled := remoteParentNotSampled c;
         localParentSampled := localParentSampled c;
         localParentNotSampled := localParentNotSampled c |}
  | WithRemoteParentNotSampled s =>
      {| remoteParentSampled := remoteParentSampled c;
         remoteParentNotSampled := s;
         localParentSampled := localParentSampled c;
         localParentNotSampled := localParentNotSampled c |}
  | WithLocalParentSampled s =>
      {| remoteParentSampled := remoteParentSampled c;
         remoteParentNotSampled := remoteParentNotSampled c;
         localParentSampled := s;
         localParentNotSampled := localParentNotSampled c |}
  | WithLocalParentNotSampled s =>
      {| remoteParentSampled := remoteParentSampled c;
         remoteParentNotSampled := remoteParentNotSampled c;
         localParentSampled := localParentSampled c;
         localParentNotSampled := s |}
  end.

(** Modelled from the spec: the SDK's [ParentBased] sampler is not part of
    the repository.  It starts from the defaults (sampled parents: always
    sample, unsampled parents: never sample) and applies the options in
    order. *)
Definition ParentBased (root : Sampler)
    (opts : list ParentBasedSamplerOption) : Sampler :=
  let c := fold_left applyOption opts
             {| remoteParentSampled := AlwaysSample;
                remoteParentNotSampled := NeverSample;
                localParentSampled := AlwaysSample;
                localParentNotSampled := NeverSample |} in
  parentBased root (remoteParentSampled c) (remoteParentNotSampled c)
    (localParentSampled c) (localParentNotSampled c).

(** Modelled from the spec: the SDK's [ShouldSample] is not part of the
    repository.  A parent-based sampler delegates to the sampler
    configured for the kind of parent (remote or local, sampled or not)
    and to [root] when there is no valid parent; [true] stands for the
    decision to record and sample, [false] for the decision to drop. *)
Fixpoint ShouldSample (ratio : float -> SamplingParameters -> bool)
    (s : Sampler) (p : SamplingParameters) : bool :=
  match s with
  | AlwaysSample => true
  | NeverSample => false
  | TraceIDRatioBased fraction => ratio fraction p
  | parentBased root rps rpns lps lpns =>
      let psc := ParentContext p in
      if IsValid psc then
        if IsRemote psc then
          if IsSampled psc then ShouldSample ratio rps p
          else ShouldSample ratio rpns p
        else
          if IsSampled psc then ShouldSample ratio lps p
          else ShouldSample ratio lpns p
      else ShouldSample ratio root p
  end.

(** Options of an OTLP/HTTP exporter, as passed to [otlptracehttp.New]
    (and to the metric and log exporters). *)
Record ExporterOptions : Type := {
  WithEndpoint : string;
  WithInsecure : bool;
  WithHeaders : list (string * string);
  WithGzipCompression : bool
}.

(** [NewBatchSpanProcessor] options; durations in seconds. *)
Record BatchSpanProcessor : Type := {
  bsp_exporter : ExporterOptions;
  WithBatchTimeout : nat;
  WithExportTimeout : nat;
  WithMaxExportBatchSize : nat;
  WithMaxQueueSize : nat
}.

Record SpanLimits : Type := {
  AttributeValueLengthLimit : nat;
  AttributeCountLimit : nat;
  EventCountLimit : nat;
  LinkCountLimit : nat;
  AttributePerEventCountLimit : nat;
  AttributePerLinkCountLimit : nat
}.

Record TracerProvider : Type := {
  WithResource : list KeyValue;
  WithSpanProcessor : BatchSpanProcessor;
  WithSampler : Sampler;
  WithRawSpanLimits : SpanLimits
}.

End sdktrace.

Module sdkmetric.

Inductive Reader : Type :=
| PrometheusExporter (withoutUnits withoutScopeInfo : bool)
| PeriodicReader (exporter : sdktrace.ExporterOptions)
                 (WithInterval WithTimeout : nat).

(** The view that rebinds the histogram buckets of one instrument. *)
Record View : Type := {
  InstrumentName : string;
  Boundaries : list float
}.

Inductive Option : Type :=
| WithResource (r : list KeyValue)
| WithView (v : View)
| WithReader (r : Reader).

Record MeterProvider : Type := { options : list Option }.

End sdkmetric.

Module sdklog.

Record BatchProcessor : Type := {
  bp_exporter : sdktrace.ExporterOptions;
  WithExportInterval : nat;
  WithExportTimeout : nat;
  WithExportMaxBatchSize : nat;
  WithMaxQueueSize : nat
}.

Record LoggerProvider : Type := {
  WithResource : list KeyValue;
  WithProcessor : BatchProcessor
}.

End sdklog.

(** The exporter options common to the three [otlpXxxhttp.New] calls. *)
Definition otlpOptions (endpoint : string) : sdktrace.ExporterOptions :=
  {| sdktrace.WithEndpoint := endpoint;
     sdktrace.WithInsecure := true;
     sdktrace.WithHeaders := [("Content-Type", "application/x-protobuf")];
     sdktrace.WithGzipCompression := true |}.

(** The [sampler] local of [setupTraceProvider]. *)
Definition traceSampler (cfg : Config) : sdktrace.Sampler :=
  sdktrace.ParentBased
    (sdktrace.TraceIDRatioBased (SampleRate cfg))
    [ sdktrace.WithRemoteParentSampled sdktrace.AlwaysSample;
      sdktrace.WithRemoteParentNotSampled sdktrace.NeverSample;
      sdktrace.WithLocalParentSampled sdktrace.AlwaysSample;
      sdktrace.WithLocalParentNotSampled
        (sdktrace.TraceIDRatioBased (SampleRate cfg)) ].

(** ** The resource the SDK builds *)

Module resource.

(** [strings.Cut(s, sep)]: the text before and after the first [sep], and
    whether [sep] was found. *)
Definition Cut (s sep : string) : string * string * bool :=
  match Split s sep with
  | before :: a :: more => (before, String.concat sep (a :: more), true)
  | _ => (s, EmptyString, false)
  end.

(** Modelled from the spec: the SDK's [resource.WithFromEnv] detector is
    not part of the repository; the source names it as the support for the
    [OTEL_RESOURCE_ATTRIBUTES] variable.  The variable holds [key=value]
    pairs separated by commas, and the detector gives one string attribute
    per pair; a pair without [=] is left out.  The trimming of blanks, the
    percent-decoding of values and the [OTEL_SERVICE_NAME] variable are not
    modelled. *)
Definition fromEnv (os : Platform) : list KeyValue :=
  let s := Getenv os "OTEL_RESOURCE_ATTRIBUTES" in
  if nonempty s then
    flat_map
      (fun p =>
         match Cut p "=" with
         | (k, v, true) => [attribute_String k v]
         | (_, _, false) => []
         end)
      (Split s ",")
  else [].

(** Modelled from the spec: the SDK's [resource.Merge(a, b)] is not part
    of the repository.  The result holds the attributes of both, with the
    value of [b] under a key that both have. *)
Definition Merge (a b : list KeyValue) : list KeyValue :=
  (filter
     (fun kv => forallb (fun kv' => negb (String.eqb (Key kv') (Key kv))) b)
     a
   ++ b)%list.

(** Modelled from the spec: the SDK's [resource.New] is not part of the
    repository.  Of the options [createResource] passes, the model keeps
    [WithAttributes(attrs...)] and [WithFromEnv()], merged in this order;
    the detectors for the telemetry SDK, the process, the operating
    system, the container and the host add attributes under keys of their
    own and are left out. *)
Definition New (os : Platform) (attrs : list KeyValue) : list KeyValue :=
  Merge attrs (fromEnv os).

End resource.

(** ** The provider life cycle *)

Inductive Signal : Type := Trace | Metric | Log.

Definition Signal_eqb (a b : Signal) : bool :=
  match a, b with
  | Trace, Trace | Metric, Metric | Log, Log => true
  | _, _ => false
  end.

(** What the run leaves in the log: a provider of a signal was constructed
    (its batch processor or periodic reader starts its background task), or
    the shutdown function registered for a signal was called. *)
Inductive Call : Type :=
| Started (s : Signal)
| HookInvoked (s : Signal) (r : option error).

Definition isHook (s : Signal) (c : Call) : bool :=
  match c with
  | HookInvoked s' _ => Signal_eqb s s'
  | Started _ => false
  end.

(** How often the shutdown function of signal [s] was called. *)
Definition hookCount (s : Signal) (calls : list Call) : nat :=
  List.length (filter (isHook s) calls).

(** The signals whose shutdown function was called, in call order. *)
Fixpoint hooksInvoked (calls : list Call) : list Signal :=
  match calls with
  | [] => []
  | HookInvoked s _ :: rest => s :: hooksInvoked rest
  | Started _ :: rest => hooksInvoked rest
  end.

(** [fmt.Sprintf("%v", errors)] of an [[]error]: the messages between
    brackets, separated by one space. *)
Definition fmt_errors (errors : list error) : string :=
  "[" ++ String.concat " " errors ++ "]".

Module Lifecycle.
Section WithSDK.

(** The state of everything outside the program that the SDK calls act
    on: exporters, background tasks, the global providers, the network. *)
Variable W : Type.

(** An element of [shutdownFuncs]: a [func(context.Context) error].
    [owner] names the provider whose [Shutdown] method value it is. *)
Record ShutdownFunc : Type := {
  owner : Signal;
  call : W -> W * option error
}.

(** The SDK and exporter packages, as state transformers.  A constructor
    that can fail returns its error ([None] for [err == nil]). *)
Record SDK : Type := {
  resource_New : list KeyValue -> W -> W * (list KeyValue * option error);
  otlptracehttp_New : sdktrace.ExporterOptions -> W -> W * option error;
  NewTracerProvider : sdktrace.TracerProvider -> W -> W;
  otel_SetTracerProvider : sdktrace.TracerProvider -> W -> W;
  TracerProvider_Shutdown : sdktrace.TracerProvider -> W -> W * option error;
  prometheus_New : W -> W * option error;
  otlpmetrichttp_New : sdktrace.ExporterOptions -> W -> W * option error;
  NewMeterProvider : sdkmetric.MeterProvider -> W -> W;
  otel_SetMeterProvider : sdkmetric.MeterProvider -> W -> W;
  MeterProvider_Shutdown : sdkmetric.MeterProvider -> W -> W * option error;
  otlploghttp_New : sdktrace.ExporterOptions -> W -> W * option error;
  NewLoggerProvider : sdklog.LoggerProvider -> W -> W;
  global_SetLoggerProvider : sdklog.LoggerProvider -> W -> W;
  LoggerProvider_Shutdown : sdklog.LoggerProvider -> W -> W * option error;
  otel_SetTextMapPropagator : W -> W
}.

Variable sdk : SDK.
Variable os : Platform.

(** [type TelemetryProvider struct]; a [nil] pointer field is [None]. *)
Record TelemetryProvider : Type := {
  TracerProvider : option sdktrace.TracerProvider;
  MeterProvider : option sdkmetric.MeterProvider;
  LoggerProvider : option sdklog.LoggerProvider;
  Resource : option (list KeyValue);
  Config_ : Config;
  shutdownFuncs : list ShutdownFunc
}.

(** The world together with the log of the run. *)
Record State : Type := { world : W; calls : list Call }.

(** Code that acts on the state and may panic. *)
Definition M (A : Type) : Type := State -> result (A * State).

Definition ret {A : Type} (a : A) : M A := fun st => Ok (a, st).

Definition bind {A B : Type} (m : M A) (k : A -> M B) : M B :=
  fun st =>
    match m st with
    | Ok (a, st') => k a st'
    | Panic => Panic
    end.

Definition lift {A : Type} (r : result A) : M A :=
  fun st =>
    match r with
    | Ok a => Ok (a, st)
    | Panic => Panic
    end.

(** A call into the SDK: it acts on the world and leaves the log alone. *)
Definition sdk_call {A : Type} (f : W -> W * A) : M A :=
  fun st =>
    let (w', a) := f (world st) in
    Ok (a, {| world := w'; calls := calls st |}).

Definition sdk_do (f : W -> W) : M unit :=
  fun st => Ok (tt, {| world := f (world st); calls := calls st |}).

Definition log (c : Call) : M unit :=
  fun st => Ok (tt, {| world := world st; calls := calls st ++ [c] |}).

Declare Scope lifecycle_scope.
Delimit Scope lifecycle_scope with M.
Notation "x <~ m ;; k" := (bind m (fun x => k))
  (at level 61, m at next level, right associativity) : lifecycle_scope.
Notation "m ;;; k" := (bind m (fun _ => k))
  (at level 61, right associativity) : lifecycle_scope.
Open Scope lifecycle_scope.

(** [f(ctx)] for an element [f] of [shutdownFuncs]. *)
Definition invoke (f : ShutdownFunc) : M (option error) :=
  err <~ sdk_call (call f) ;;
  log (HookInvoked (owner f) err) ;;;
  ret err.

(** [createResource]: the attribute list, the filter, [resource.New]. *)
Definition createResource (tp : TelemetryProvider)
  : M (list KeyValue * option error) :=
  validAttributes <~ lift (Resolve.validAttributes os (Config_ tp)) ;;
  sdk_call (resource_New sdk validAttributes).

Definition resourceOf (tp : TelemetryProvider) : list KeyValue :=
  match Resource tp with
  | Some r => r
  | None => []
  end.

(** [tp.shutdownFuncs = append(tp.shutdownFuncs, f)] and the provider
    field assignments, on the receiver [tp]. *)
Definition appendShutdown (tp : TelemetryProvider) (f : ShutdownFunc)
  : TelemetryProvider :=
  {| TracerProvider := TracerProvider tp;
     MeterProvider := MeterProvider tp;
     LoggerProvider := LoggerProvider tp;
     Resource := Resource tp;
     Config_ := Config_ tp;
     shutdownFuncs := shutdownFuncs tp ++ [f] |}.

Definition setTracerProvider (tp : TelemetryProvider)
    (p : sdktrace.TracerProvider) : TelemetryProvider :=
  {| TracerProvider := Some p;
     MeterProvider := MeterProvider tp;
     LoggerProvider := LoggerProvider tp;
     Resource := Resource tp;
     Config_ := Config_ tp;
     shutdownFuncs := shutdownFuncs tp |}.

Definition setMeterProvider (tp : TelemetryProvider)
    (p : sdkmetric.MeterProvider) : TelemetryProvider :=
  {| TracerProvider := TracerProvider tp;
     MeterProvider := Some p;
     LoggerProvider := LoggerProvider tp;
     Resource := Resource tp;
     Config_ := Config_ tp;
     shutdownFuncs := shutdownFuncs tp |}.

Definition setLoggerProvider (tp : TelemetryProvider)
    (p : sdklog.LoggerProvider) : TelemetryProvider :=
  {| TracerProvider := TracerProvider tp;
     MeterProvider := MeterProvider tp;
     LoggerProvider := Some p;
     Resource := Resource tp;
     Config_ := Config_ tp;
     shutdownFuncs := shutdownFuncs tp |}.

Definition setResource (tp : TelemetryProvider) (r : list KeyValue)
  : TelemetryProvider :=
  {| TracerProvider := TracerProvider tp;
     MeterProvider := MeterProvider tp;
     LoggerProvider := LoggerProvider tp;
     Resource := Some r;
     Config_ := Config_ tp;
     shutdownFuncs := shutdownFuncs tp |}.

(** [setupTraceProvider]: the updated receiver and the returned error. *)
Definition setupTraceProvider (tp : TelemetryProvider)
  : M (TelemetryProvider * option error) :=
  let traceExporter := otlpOptions (TraceEndpoint (Config_ tp)) in
  err <~ sdk_call (otlptracehttp_New sdk traceExporter) ;;
  match err with
  | Some e => ret (tp, Some ("failed to create trace exporter: " ++ e))
  | None =>
      let batchProcessor :=
        {| sdktrace.bsp_exporter := traceExporter;
           sdktrace.WithBatchTimeout := 5;
           sdktrace.WithExportTimeout := 30;
           sdktrace.WithMaxExportBatchSize := 512;
           sdktrace.WithMaxQueueSize := 2048 |} in
      let p :=
        {| sdktrace.WithResource := resourceOf tp;
           sdktrace.WithSpanProcessor := batchProcessor;
           sdktrace.WithSampler := traceSampler (Config_ tp);
           sdktrace.WithRawSpanLimits :=
             {| sdktrace.AttributeValueLengthLimit := 4096;
                sdktrace.AttributeCountLimit := 128;
                sdktrace.EventCountLimit := 128;
                sdktrace.LinkCountLimit := 128;
                sdktrace.AttributePerEventCountLimit := 128;
                sdktrace.AttributePerLinkCountLimit := 128 |} |} in
      sdk_do (NewTracerProvider sdk p) ;;;
      log (Started Trace) ;;;
      sdk_do (otel_SetTracerProvider sdk p) ;;;
      ret (appendShutdown (setTracerProvider tp p)
             {| owner := Trace; call := TracerProvider_Shutdown sdk p |},
           None)
  end.

(** The remainder of [setupMetricsProvider] once [readers] holds the
    optional Prometheus reader. *)
Definition setupMetricsWith (tp : TelemetryProvider)
    (readers : list sdkmetric.Reader)
  : M (TelemetryProvider * option error) :=
  let otlpMetricsExporter := otlpOptions (MetricsEndpoint (Config_ tp)) in
  err <~ sdk_call (otlpmetrichttp_New sdk otlpMetricsExporter) ;;
  match err with
  | Some e => ret (tp, Some ("failed to create OTLP metrics exporter: " ++ e))
  | None =>
      let otlpReader := sdkmetric.PeriodicReader otlpMetricsExporter 30 30 in
      let readers := (readers ++ [otlpReader])%list in
      let options :=
        ([ sdkmetric.WithResource (resourceOf tp);
          sdkmetric.WithView
            {| sdkmetric.InstrumentName := "http.server.request.duration";
               sdkmetric.Boundaries :=
                 [0.005; 0.01; 0.025; 0.05; 0.1; 0.25; 0.5; 1; 2.5; 5; 10]%float |} ]
        ++ map sdkmetric.WithReader readers)%list in
      let p := {| sdkmetric.options := options |} in
      sdk_do (NewMeterProvider sdk p) ;;;
      log (Started Metric) ;;;
      sdk_do (otel_SetMeterProvider sdk p) ;;;
      ret (appendShutdown (setMeterProvider tp p)
             {| owner := Metric; call := MeterProvider_Shutdown sdk p |},
           None)
  end.

Definition setupMetricsProvider (tp : TelemetryProvider)
  : M (TelemetryProvider * option error) :=
  if EnablePrometheus (Config_ tp) then
    err <~ sdk_call (prometheus_New sdk) ;;
    match err with
    | Some e =>
        ret (tp, Some ("failed to create prometheus exporter: " ++ e))
    | None => setupMetricsWith tp [sdkmetric.PrometheusExporter true true]
    end
  else setupMetricsWith tp [].

Definition setupLoggingProvider (tp : TelemetryProvider)
  : M (TelemetryProvider * option error) :=
  let logExporter := otlpOptions (LogsEndpoint (Config_ tp)) in
  err <~ sdk_call (otlploghttp_New sdk logExporter) ;;
  match err with
  | Some e => ret (tp, Some ("failed to create log exporter: " ++ e))
  | None =>
      let batchProcessor :=
        {| sdklog.bp_exporter := logExporter;
           sdklog.WithExportInterval := 5;
           sdklog.WithExportTimeout := 30;
           sdklog.WithExportMaxBatchSize := 512;
           sdklog.WithMaxQueueSize := 2048 |} in
      let p :=
        {| sdklog.WithResource := resourceOf tp;
           sdklog.WithProcessor := batchProcessor |} in
      sdk_do (NewLoggerProvider sdk p) ;;;
      log (Started Log) ;;;
      sdk_do (global_SetLoggerProvider sdk p) ;;;
      ret (appendShutdown (setLoggerProvider tp p)
             {| owner := Log; call := LoggerProvider_Shutdown sdk p |},
           None)
  end.

(** The head of [NewTelemetryProvider]: the [nil] check on the [config]
    pointer ([None] for [nil]) and the [provider] literal. *)
Definition newProvider (config : option Config) : TelemetryProvider :=
  let config := Resolve.orDefault os config in
  {| TracerProvider := None;
     MeterProvider := None;
     LoggerProvider := None;
     Resource := None;
     Config_ := config;
     shutdownFuncs := [] |}.

(** [NewTelemetryProvider].  The result is [inl provider] for
    [(provider, nil)] and [inr err] for [(nil, err)]. *)
Definition NewTelemetryProvider (config : option Config)
  : M (TelemetryProvider + error) :=
  let provider := newProvider config in
  r <~ createResource provider ;;
  match r with
  | (_, Some err) => ret (inr ("failed to create resource: " ++ err))
  | (res, None) =>
      let provider := setResource provider res in
      r <~ setupTraceProvider provider ;;
      match r with
      | (_, Some err) =>
          ret (inr ("failed to setup trace provider: " ++ err))
      | (provider, None) =>
          r <~ setupMetricsProvider provider ;;
          match r with
          | (_, Some err) =>
              ret (inr ("failed to setup metrics provider: " ++ err))
          | (provider, None) =>
              r <~ setupLoggingProvider provider ;;
              match r with
              | (_, Some err) =>
                  ret (inr ("failed to setup logging provider: " ++ err))
              | (provider, None) =>
                  sdk_do (otel_SetTextMapPropagator sdk) ;;;
                  ret (inl provider)
              end
          end
      end
  end.

(** The loop of [Shutdown],
    [for i := len(tp.shutdownFuncs) - 1; i >= 0; i--], entered with
    [i + 1 = k] and the errors collected so far. *)
Fixpoint shutdownLoop (funcs : list ShutdownFunc) (k : nat)
    (errors : list error) : M (list error) :=
  match k with
  | O => ret errors
  | S i =>
      f <~ lift (index funcs i) ;;
      err <~ invoke f ;;
      shutdownLoop funcs i
        (match err with
         | Some e => errors ++ [e]
         | None => errors
         end)
  end.

(** [Shutdown].  The method never assigns to a field of its receiver, so
    the provider after the call is the provider before it. *)
Definition Shutdown (tp : TelemetryProvider) : M (option error) :=
  errors <~ shutdownLoop (shutdownFuncs tp)
              (List.length (shutdownFuncs tp)) [] ;;
  if Nat.ltb 0 (List.length errors)
  then ret (Some ("failed to shutdown telemetry providers: "
                    ++ fmt_errors errors))
  else ret None.

(** [SetupWithDefaults] and [SetupWithConfig] *)
Definition SetupWithDefaults : M (TelemetryProvider + error) :=
  NewTelemetryProvider (Some (Resolve.DefaultConfig os)).


End WithSDK.
End Lifecycle.

(** ** Closed forms used in the statements *)

Section Runs.

Variable W : Type.

(** The functions [hs] called one after the other, each on the world the
    previous one left: the owner and the returned error of every call. *)
Fixpoint runHooks (hs : list (Lifecycle.ShutdownFunc W)) (w : W)
  : W * list (Signal * option error) :=
  match hs with
  | [] => (w, [])
  | h :: hs' =>
      let (w1, err) := Lifecycle.call h w in
      let (w2, outs) := runHooks hs' w1 in
      (w2, (Lifecycle.owner h, err) :: outs)
  end.

End Runs.

(** The errors among the outcomes of a run, in call order. *)
Fixpoint failures (outs : list (Signal * option error)) : list error :=
  match outs with
  | [] => []
  | (_, Some e) :: rest => e :: failures rest
  | (_, None) :: rest => failures rest
  end.

(** The log entries of a run. *)
Definition invocations (outs : list (Signal * option error)) : list Call :=
  map (fun o => HookInvoked (fst o) (snd o)) outs.

(** The value [Shutdown] returns for the collected [errors]. *)
Definition combined (errors : list error) : option error :=
  match errors with
  | [] => None
  | _ :: _ =>
      Some ("failed to shutdown telemetry providers: " ++ fmt_errors errors)
  end.

(** The first non-empty string of [candidates], [last] when there is none. *)
Fixpoint firstNonEmpty (candidates : list string) (last : string) : string :=
  match candidates with
  | [] => last
  | c :: rest => if nonempty c then c else firstNonEmpty rest last
  end.

(** No attribute of [attrs] has the key [k]. *)
Definition keyAbsent (k : string) (attrs : list KeyValue) : bool :=
  forallb (fun kv => negb (String.eqb (Key kv) k)) attrs.

(** The value under [key] in the attributes that [createResource] hands to
    [resource.WithAttributes] when [NewTelemetryProvider] is called with
    [config]. *)
Definition resolvedAttr (os : Platform) (config : option Config)
    (key : string) : result (option Value) :=
  valid <- Resolve.validAttributes os (Resolve.orDefault os config) ;;
  Ok (attr_lookup key valid).



(** What a [setupXxxProvider] call for signal [s] does to the provider and
    to the log: on success the provider's shutdown function is appended and
    the pipeline is started, on failure nothing changes. *)
Definition setup_outcome (W : Type) (s : Signal)
    (tp : Lifecycle.TelemetryProvider W) (st : Lifecycle.State W)
    (tp' : Lifecycle.TelemetryProvider W) (err : option error)
    (st' : Lifecycle.State W) : Prop :=
  match err with
  | None =>
      map (@Lifecycle.owner W) (Lifecycle.shutdownFuncs tp')
      = (map (@Lifecycle.owner W) (Lifecycle.shutdownFuncs tp) ++ [s])%list
      /\ Lifecycle.calls st' = (Lifecycle.calls st ++ [Started s])%list
      /\ Lifecycle.Config_ tp' = Lifecycle.Config_ tp
  | Some _ =>
      tp' = tp /\ Lifecycle.calls st' = Lifecycle.calls st
  end.

(** ** Concrete platforms and a concrete SDK *)

Module Demo.

(** A machine with no relevant environment variable, no cgroup file and
    the host name [web-1]. *)
Definition bare : Platform := {|
  Getenv := fun _ => EmptyString;
  Hostname := ("web-1", None);
  ReadFile := fun _ => (EmptyString, Some "no such file or directory");
  runtime_Compiler := "gc";
  runtime_Version := "go1.23.6";
  runtime_GOOS := "linux";
  runtime_GOARCH := "amd64";
  otel_Version := "1.32.0";
  rand_bytes := [];
  TrimSpace := fun s => s
|}.

Fixpoint assoc (env : list (string * string)) (k : string) : string :=
  match env with
  | [] => EmptyString
  | (k', v) :: rest => if String.eqb k' k then v else assoc rest k
  end.

(** [p] with the environment variables [env]. *)
Definition withEnv (env : list (string * string)) (p : Platform) : Platform := {|
  Getenv := assoc env;
  Hostname := Hostname p;
  ReadFile := ReadFile p;
  runtime_Compiler := runtime_Compiler p;
  runtime_Version := runtime_Version p;
  runtime_GOOS := runtime_GOOS p;
  runtime_GOARCH := runtime_GOARCH p;
  otel_Version := otel_Version p;
  rand_bytes := rand_bytes p;
  TrimSpace := TrimSpace p
|}.


(** [SERVICE_NAME=checkout] *)
Definition checkoutEnv : Platform :=
  withEnv [("SERVICE_NAME", "checkout")] bare.

(** [SERVICE_NAME=checkout-env] *)
Definition checkoutEnv2 : Platform :=
  withEnv [("SERVICE_NAME", "checkout-env")] bare.

(** A container with a full-length [CONTAINER_ID]. *)
Definition dockerEnv : Platform :=
  withEnv [("CONTAINER_ID", "0123456789abcdef")] bare.

(** A container whose [CONTAINER_ID] is a short name. *)
Definition shortIDEnv : Platform :=
  withEnv [("CONTAINER_ID", "web")] bare.



(** The Go value [Config{}]. *)
Definition zeroConfig : Config := {|
  ServiceName := EmptyString;
  ServiceVersion := EmptyString;
  ServiceNamespace := EmptyString;
  Environment := EmptyString;
  TraceEndpoint := EmptyString;
  MetricsEndpoint := EmptyString;
  LogsEndpoint := EmptyString;
  EnablePrometheus := false;
  SampleRate := 0%float;
  InsecureMode := false;
  ServiceInstanceID := EmptyString;
  ServiceTeam := EmptyString;
  ServiceOwner := EmptyString;
  BuildTime := EmptyString;
  GitCommit := EmptyString;
  GitBranch := EmptyString
|}.

(** [Config{ServiceName: name}] *)
Definition named (name : string) : Config := {|
  ServiceName := name;
  ServiceVersion := EmptyString;
  ServiceNamespace := EmptyString;
  Environment := EmptyString;
  TraceEndpoint := EmptyString;
  MetricsEndpoint := EmptyString;
  LogsEndpoint := EmptyString;
  EnablePrometheus := false;
  SampleRate := 0%float;
  InsecureMode := false;
  ServiceInstanceID := EmptyString;
  ServiceTeam := EmptyString;
  ServiceOwner := EmptyString;
  BuildTime := EmptyString;
  GitCommit := EmptyString;
  GitBranch := EmptyString
|}.

(** A world that is fully described by what fails in it: the metric
    exporter constructor, and the shutdown of each provider. *)
Record World : Type := {
  metricExporterErr : option error;
  shutdownErr : Signal -> option error
}.

Definition sdk : Lifecycle.SDK World := {|
  Lifecycle.resource_New := fun attrs w => (w, (attrs, None));
  Lifecycle.otlptracehttp_New := fun _ w => (w, None);
  Lifecycle.NewTracerProvider := fun _ w => w;
  Lifecycle.otel_SetTracerProvider := fun _ w => w;
  Lifecycle.TracerProvider_Shutdown := fun _ w => (w, shutdownErr w Trace);
  Lifecycle.prometheus_New := fun w => (w, None);
  Lifecycle.otlpmetrichttp_New := fun _ w => (w, metricExporterErr w);
  Lifecycle.NewMeterProvider := fun _ w => w;
  Lifecycle.otel_SetMeterProvider := fun _ w => w;
  Lifecycle.MeterProvider_Shutdown := fun _ w => (w, shutdownErr w Metric);
  Lifecycle.otlploghttp_New := fun _ w => (w, None);
  Lifecycle.NewLoggerProvider := fun _ w => w;
  Lifecycle.global_SetLoggerProvider := fun _ w => w;
  Lifecycle.LoggerProvider_Shutdown := fun _ w => (w, shutdownErr w Log);
  Lifecycle.otel_SetTextMapPropagator := fun w => w
|}.

(** Nothing fails. *)
Definition healthy : Lifecycle.State World := {|
  Lifecycle.world :=
    {| metricExporterErr := None; shutdownErr := fun _ => None |};
  Lifecycle.calls := []
|}.

(** The metric exporter cannot be constructed. *)
Definition metricsDown : Lifecycle.State World := {|
  Lifecycle.world :=
    {| metricExporterErr := Some "invalid endpoint";
       shutdownErr := fun _ => None |};
  Lifecycle.calls := []
|}.

(** Only the shutdown of the metric provider fails. *)
Definition metricShutdownFails : Lifecycle.State World := {|
  Lifecycle.world :=
    {| metricExporterErr := None;
       shutdownErr := fun s =>
         match s with
         | Metric => Some "reader is shutdown"
         | _ => None
         end |};
  Lifecycle.calls := []
|}.

(** The bootstrap of [NewTelemetryProvider(ctx, nil)] on [bare]. *)
Definition boot (st : Lifecycle.State World)
  : result ((Lifecycle.TelemetryProvider World + error) * Lifecycle.State World) :=
  Lifecycle.NewTelemetryProvider sdk bare None st.

(** [OTEL_RESOURCE_ATTRIBUTES=service.team=]: the variable names the team
    attribute with an empty value. *)
Definition emptyTeamEnv : Platform :=
  withEnv [("OTEL_RESOURCE_ATTRIBUTES", "service.team=")] bare.

(** [sdk] with a [resource.New] that runs the [WithFromEnv] detector on the
    environment of [os]. *)
Definition sdkFromEnv (os : Platform) : Lifecycle.SDK World := {|
  Lifecycle.resource_New := fun attrs w => (w, (resource.New os attrs, None));
  Lifecycle.otlptracehttp_New := Lifecycle.otlptracehttp_New sdk;
  Lifecycle.NewTracerProvider := Lifecycle.NewTracerProvider sdk;
  Lifecycle.otel_SetTracerProvider := Lifecycle.otel_SetTracerProvider sdk;
  Lifecycle.TracerProvider_Shutdown := Lifecycle.TracerProvider_Shutdown sdk;
  Lifecycle.prometheus_New := Lifecycle.prometheus_New sdk;
  Lifecycle.otlpmetrichttp_New := Lifecycle.otlpmetrichttp_New sdk;
  Lifecycle.NewMeterProvider := Lifecycle.NewMeterProvider sdk;
  Lifecycle.otel_SetMeterProvider := Lifecycle.otel_SetMeterProvider sdk;
  Lifecycle.MeterProvider_Shutdown := Lifecycle.MeterProvider_Shutdown sdk;
  Lifecycle.otlploghttp_New := Lifecycle.otlploghttp_New sdk;
  Lifecycle.NewLoggerProvider := Lifecycle.NewLoggerProvider sdk;
  Lifecycle.global_SetLoggerProvider := Lifecycle.global_SetLoggerProvider sdk;
  Lifecycle.LoggerProvider_Shutdown := Lifecycle.LoggerProvider_Shutdown sdk;
  Lifecycle.otel_SetTextMapPropagator := Lifecycle.otel_SetTextMapPropagator sdk
|}.

End Demo.

Unset Implicit Arguments.

(** ** More platforms and closed forms *)

(** The one-byte string [c]. *)
Definition char (c : ascii) : string := String c EmptyString.

(** A lower-case hexadecimal digit. *)
Definition isHexDigit (c : ascii) : bool :=
  existsb (Ascii.eqb c) (list_ascii_of_string "0123456789abcdef").

(** [p] with the bytes that [rand.Read] delivers replaced. *)
Definition withRand (bytes : list ascii) (p : Platform) : Platform := {|
  Getenv := Getenv p;
  Hostname := Hostname p;
  ReadFile := ReadFile p;
  runtime_Compiler := runtime_Compiler p;
  runtime_Version := runtime_Version p;
  runtime_GOOS := runtime_GOOS p;
  runtime_GOARCH := runtime_GOARCH p;
  otel_Version := otel_Version p;
  rand_bytes := bytes;
  TrimSpace := TrimSpace p
|}.

(** [p] with the content of every file that [os.ReadFile] reads replaced by
    [data], read without error. *)
Definition withFiles (data : string) (p : Platform) : Platform := {|
  Getenv := Getenv p;
  Hostname := Hostname p;
  ReadFile := fun _ => (data, None);
  runtime_Compiler := runtime_Compiler p;
  runtime_Version := runtime_Version p;
  runtime_GOOS := runtime_GOOS p;
  runtime_GOARCH := runtime_GOARCH p;
  otel_Version := otel_Version p;
  rand_bytes := rand_bytes p;
  TrimSpace := TrimSpace p
|}.

(** A cgroup file whose first Docker line carries a full container ID and
    whose second one does not. *)
Definition cgroupHost : Platform :=
  withFiles
    ("12:pids:/docker/0123456789abcdef0123" ++ newline
       ++ "11:cpu:/docker/short")
    Demo.bare.

(** A cgroup file whose first Docker line names the marker twice: three
    bytes stand between the two markers. *)
Definition nestedCgroupHost : Platform :=
  withFiles
    ("0::/init.scope" ++ newline
       ++ "4:cpu:/docker/abc/docker/0123456789abcdef" ++ newline
       ++ "3:pids:/docker/0123456789abcdef")
    Demo.bare.


(** The attribute a resolved value [v] gives: none when [v] is empty. *)
Definition present (v : string) : option Value :=
  if nonempty v then Some (STRING v) else None.

(** The tracer provider that [setupTraceProvider] configures for the
    resource [res] and the configuration [cfg]. *)
Definition tracerProviderOf (res : list KeyValue) (cfg : Config)
  : sdktrace.TracerProvider :=
  {| sdktrace.WithResource := res;
     sdktrace.WithSpanProcessor :=
       {| sdktrace.bsp_exporter := otlpOptions (TraceEndpoint cfg);
          sdktrace.WithBatchTimeout := 5;
          sdktrace.WithExportTimeout := 30;
          sdktrace.WithMaxExportBatchSize := 512;
          sdktrace.WithMaxQueueSize := 2048 |};
     sdktrace.WithSampler := traceSampler cfg;
     sdktrace.WithRawSpanLimits :=
       {| sdktrace.AttributeValueLengthLimit := 4096;
          sdktrace.AttributeCountLimit := 128;
          sdktrace.EventCountLimit := 128;
          sdktrace.LinkCountLimit := 128;
          sdktrace.AttributePerEventCountLimit := 128;
          sdktrace.AttributePerLinkCountLimit := 128 |} |}.

(** The readers of the meter provider: the Prometheus exporter when it is
    enabled, then the periodic reader of the OTLP exporter. *)
Definition metricReadersOf (cfg : Config) : list sdkmetric.Reader :=
  ((if EnablePrometheus cfg
    then [sdkmetric.PrometheusExporter true true] else [])
   ++ [sdkmetric.PeriodicReader (otlpOptions (MetricsEndpoint cfg)) 30 30])%list.

(** The meter provider that [setupMetricsProvider] configures. *)
Definition meterProviderOf (res : list KeyValue) (cfg : Config)
  : sdkmetric.MeterProvider :=
  {| sdkmetric.options :=
       ([ sdkmetric.WithResource res;
          sdkmetric.WithView
            {| sdkmetric.InstrumentName := "http.server.request.duration";
               sdkmetric.Boundaries :=
                 [0.005; 0.01; 0.025; 0.05; 0.1; 0.25; 0.5; 1; 2.5; 5; 10]%float |} ]
        ++ map sdkmetric.WithReader (metricReadersOf cfg))%list |}.

(** The logger provider that [setupLoggingProvider] configures. *)
Definition loggerProviderOf (res : list KeyValue) (cfg : Config)
  : sdklog.LoggerProvider :=
  {| sdklog.WithResource := res;
     sdklog.WithProcessor :=
       {| sdklog.bp_exporter := otlpOptions (LogsEndpoint cfg);
          sdklog.WithExportInterval := 5;
          sdklog.WithExportTimeout := 30;
          sdklog.WithExportMaxBatchSize := 512;
          sdklog.WithMaxQueueSize := 2048 |} |}.

(** The handle a successful bootstrap returns for the resource [res] and
    the configuration [cfg]: the three providers and their [Shutdown]
    methods in the order they were built. *)
Definition handleOf (W : Type) (sdk : Lifecycle.SDK W)
    (res : list KeyValue) (cfg : Config) : Lifecycle.TelemetryProvider W :=
  {| Lifecycle.TracerProvider := Some (tracerProviderOf res cfg);
     Lifecycle.MeterProvider := Some (meterProviderOf res cfg);
     Lifecycle.LoggerProvider := Some (loggerProviderOf res cfg);
     Lifecycle.Resource := Some res;
     Lifecycle.Config_ := cfg;
     Lifecycle.shutdownFuncs :=
       [ {| Lifecycle.owner := Trace;
            Lifecycle.call :=
              Lifecycle.TracerProvider_Shutdown sdk (tracerProviderOf res cfg) |};
         {| Lifecycle.owner := Metric;
            Lifecycle.call :=
              Lifecycle.MeterProvider_Shutdown sdk (meterProviderOf res cfg) |};
         {| Lifecycle.owner := Log;
            Lifecycle.call :=
              Lifecycle.LoggerProvider_Shutdown sdk (loggerProviderOf res cfg) |} ]
  |}.

(** [c] with its [InsecureMode] field set to [b]. *)
Definition withInsecureMode (b : bool) (c : Config) : Config := {|
  ServiceName := ServiceName c;
  ServiceVersion := ServiceVersion c;
  ServiceNamespace := ServiceNamespace c;
  Environment := Environment c;
  TraceEndpoint := TraceEndpoint c;
  MetricsEndpoint := MetricsEndpoint c;
  LogsEndpoint := LogsEndpoint c;
  EnablePrometheus := EnablePrometheus c;
  SampleRate := SampleRate c;
  InsecureMode := b;
  ServiceInstanceID := ServiceInstanceID c;
  ServiceTeam := ServiceTeam c;
  ServiceOwner := ServiceOwner c;
  BuildTime := BuildTime c;
  GitCommit := GitCommit c;
  GitBranch := GitBranch c
|}.

(** The handle [tp] with its [Config] pointer replaced. *)
Definition withConfig (W : Type) (c : Config)
    (tp : Lifecycle.TelemetryProvider W) : Lifecycle.TelemetryProvider W :=
  {| Lifecycle.TracerProvider := Lifecycle.TracerProvider tp;
     Lifecycle.MeterProvider := Lifecycle.MeterProvider tp;
     Lifecycle.LoggerProvider := Lifecycle.LoggerProvider tp;
     Lifecycle.Resource := Lifecycle.Resource tp;
     Lifecycle.Config_ := c;
     Lifecycle.shutdownFuncs := Lifecycle.shutdownFuncs tp |}.

(** * Properties *)

(** ** Strings and attribute lists *)

Example Split_docker :
  Split "12:pids:/docker/0123456789abcdef" "/docker/"
  = ["12:pids:"; "0123456789abcdef"].
Proof. reflexivity. Qed.

Example Split_absent : Split "alpine" ":" = ["alpine"].
Proof. reflexivity. Qed.

Example Split_lines : Split ("a" ++ newline ++ newline ++ "b") newline = ["a"; EmptyString; "b"].
Proof. reflexivity. Qed.

Example Split_tag : Split "repo/app:1.2:x" ":" = ["repo/app"; "1.2"; "x"].
Proof. reflexivity. Qed.

Example Contains_docker : Contains "1:name=systemd:/docker/abc" "/docker/" = true.
Proof. reflexivity. Qed.

Example slice_short : slice_to "abc" 12 = Panic.
Proof. reflexivity. Qed.

Example generateUUID_zero :
  Resolve.generateUUID Demo.bare = "00000000-0000-0000-0000-000000000000".
Proof. reflexivity. Qed.

Lemma append_nil_r (s : string) : s ++ EmptyString = s.
Proof.
  induction s as [|c s IH]; simpl; congruence.
Qed.

Lemma append_assoc (a b c : string) : (a ++ b) ++ c = a ++ (b ++ c).
Proof.
  induction a as [|x a IH]; simpl; congruence.
Qed.

Lemma prefix_split (a b : string) :
  prefix a b = true -> exists rest, b = a ++ rest.
Proof.
  revert b. induction a as [|x a IH]; intros b H.
  - exists b. reflexivity.
  - destruct b as [|y b]; simpl in H; [discriminate|].
    destruct (ascii_dec x y) as [->|]; [|discriminate].
    destruct (IH b H) as [rest ->]. exists rest. reflexivity.
Qed.

Lemma split_go_nonempty (sep : string) (s : string) :
  forall skip cur, split_go sep skip cur s <> [].
Proof.
  induction s as [|c s IH]; intros skip cur; cbn [split_go];
    [discriminate|].
  destruct skip; [|apply IH].
  destruct (prefix sep (String c s)); [discriminate | apply IH].
Qed.

Lemma concat_cons (sep x : string) (xs : list string) :
  xs <> [] -> String.concat sep (x :: xs) = x ++ sep ++ String.concat sep xs.
Proof.
  destruct xs; [congruence | reflexivity].
Qed.



(** A string without the separator is returned as the only piece. *)
Lemma split_go_absent (sep : string) :
  forall s cur,
    Contains s sep = false -> split_go sep 0 cur s = [cur ++ s].
Proof.
  induction s as [|c s IH]; intros cur H.
  - simpl. rewrite append_nil_r. reflexivity.
  - cbn [Contains] in H. apply orb_false_iff in H as [Hp Hc].
    cbn [split_go]. rewrite Hp, (IH _ Hc), append_assoc. reflexivity.
Qed.

(** A string that contains the separator splits into at least two pieces,
    so [len(parts) > 1] holds for every cgroup line that passes the
    [strings.Contains] test. *)
Lemma split_go_present (sep : string) :
  sep <> EmptyString ->
  forall s cur,
    Contains s sep = true ->
    exists p0 p1 ps, split_go sep 0 cur s = p0 :: p1 :: ps.
Proof.
  intros Hsep s.
  induction s as [|c s IH]; intros cur H.
  - destruct sep; [congruence | discriminate].
  - cbn [Contains] in H. cbn [split_go].
    destruct (prefix sep (String c s)) eqn:Hp.
    + pose proof (split_go_nonempty sep s (String.length sep - 1) EmptyString)
        as Hne.
      destruct (split_go sep (String.length sep - 1) EmptyString s)
        as [|p1 ps]; [congruence|].
      exists cur, p1, ps. reflexivity.
    + simpl in H. apply IH. exact H.
Qed.

Lemma prefix_app (a b : string) : prefix a (a ++ b) = true.
Proof.
  induction a as [|x a IH]; simpl.
  - destruct b; reflexivity.
  - destruct (ascii_dec x x); [exact IH | congruence].
Qed.

Lemma prefix_refl (s : string) : prefix s s = true.
Proof.
  rewrite <- (append_nil_r s) at 2. apply prefix_app.
Qed.

Lemma prefix_app_r (sub a b : string) :
  prefix sub a = true -> prefix sub (a ++ b) = true.
Proof.
  intro H. apply prefix_split in H as [r ->].
  rewrite append_assoc. apply prefix_app.
Qed.

Lemma Contains_refl (s : string) : Contains s s = true.
Proof.
  destruct s; cbn [Contains]; rewrite prefix_refl; reflexivity.
Qed.

Lemma Contains_app_l (a b sub : string) :
  Contains b sub = true -> Contains (a ++ b) sub = true.
Proof.
  intro H. induction a as [|x a IH]; [exact H|].
  cbn [append Contains]. rewrite IH. apply orb_true_r.
Qed.

Lemma Contains_app_r (a b sub : string) :
  Contains a sub = true -> Contains (a ++ b) sub = true.
Proof.
  induction a as [|x a IH]; intro H.
  - cbn [Contains] in H. rewrite orb_false_r in H.
    destruct sub; [|discriminate H]. destruct b; reflexivity.
  - cbn [Contains] in H. apply orb_true_iff in H as [H | H].
    + pose proof (prefix_app_r sub (String x a) b H) as P.
      cbn [append] in P. cbn [append Contains]. rewrite P. reflexivity.
    + cbn [append Contains]. rewrite (IH H). apply orb_true_r.
Qed.

(** Splitting at the first occurrence of a separator. *)

Lemma string_length_append (a b : string) :
  String.length (a ++ b) = String.length a + String.length b.
Proof.
  induction a as [|c a IH]; simpl; [reflexivity | rewrite IH; reflexivity].
Qed.

(** Once a separator has been found, the bytes of it that remain are
    dropped. *)
Lemma split_go_skip (sep junk : string) :
  forall cur rest,
    split_go sep (String.length junk) cur (junk ++ rest)
    = split_go sep 0 cur rest.
Proof.
  induction junk as [|c junk IH]; intros cur rest; [reflexivity|].
  cbn [String.length append split_go]. apply IH.
Qed.

Lemma prefix_short (a : string) :
  forall x y,
    prefix a (x ++ y) = true -> String.length a <= String.length x ->
    prefix a x = true.
Proof.
  induction a as [|c a IH]; intros x y H Hlen; [destruct x; reflexivity|].
  destruct x as [|d x]; [simpl in Hlen; lia|].
  cbn [append prefix] in *.
  destruct (ascii_dec c d); [|discriminate H].
  apply (IH x y H). simpl in Hlen. lia.
Qed.

(** The separator [ini ++ l] first occurs in [p ++ sep ++ rest] right after
    [p] when no occurrence starts inside [p], that is when [p ++ ini] holds
    none: then [p] is the first piece. *)
Lemma split_go_first (ini : string) (l : ascii) (p : string) :
  forall cur rest,
    Contains (p ++ ini) (ini ++ String l EmptyString) = false ->
    split_go (ini ++ String l EmptyString) 0 cur
      (p ++ (ini ++ String l EmptyString) ++ rest)
    = (cur ++ p) :: split_go (ini ++ String l EmptyString) 0 EmptyString rest.
Proof.
  set (sep := ini ++ String l EmptyString).
  assert (Hsep : exists x sep', sep = String x sep').
  { unfold sep. destruct ini; simpl; eauto. }
  assert (Hlen : String.length sep = S (String.length ini)).
  { unfold sep. rewrite string_length_append. simpl. lia. }
  induction p as [|c p IH]; intros cur rest H.
  - cbn [append]. destruct Hsep as (x & sep' & E).
    pose proof (prefix_app sep rest) as P.
    rewrite E in *. cbn [append] in *. cbn [split_go]. rewrite P.
    rewrite append_nil_r. f_equal.
    replace (String.length (String x sep') - 1) with (String.length sep')
      by (simpl; lia).
    apply split_go_skip.
  - cbn [append Contains] in H. apply orb_false_iff in H as [Hp Hc].
    cbn [append split_go].
    destruct (prefix sep (String c (p ++ sep ++ rest))) eqn:P.
    + exfalso.
      assert (E : String c (p ++ sep ++ rest)
                  = String c (p ++ ini) ++ (String l EmptyString ++ rest)).
      { unfold sep. cbn [append]. rewrite !append_assoc. reflexivity. }
      rewrite E in P. apply prefix_short in P.
      * rewrite P in Hp. discriminate Hp.
      * rewrite Hlen. cbn [String.length]. rewrite string_length_append. lia.
    + rewrite (IH _ _ Hc), append_assoc. reflexivity.
Qed.

Lemma Split_first (ini : string) (l : ascii) (p rest : string) :
  Contains (p ++ ini) (ini ++ String l EmptyString) = false ->
  Split (p ++ (ini ++ String l EmptyString) ++ rest)
    (ini ++ String l EmptyString)
  = p :: Split rest (ini ++ String l EmptyString).
Proof.
  intro H. unfold Split. apply (split_go_first ini l p EmptyString rest H).
Qed.

Lemma Contains_app_false (a b sub : string) :
  Contains (a ++ b) sub = false -> Contains a sub = false.
Proof.
  intro H. destruct (Contains a sub) eqn:E; [|reflexivity].
  rewrite (Contains_app_r a b sub E) in H. discriminate H.
Qed.

(** The lines of a file: the text before the first line break is the
    first line. *)
Lemma Split_lines_prefix (pre : list string) (line : string)
    (post : list string) :
  Forall (fun l => Contains l newline = false) pre ->
  Contains line newline = false ->
  exists rest,
    Split (String.concat newline (pre ++ line :: post)) newline
    = (pre ++ line :: rest)%list.
Proof.
  intros Hpre Hline.
  assert (First : forall x xs,
             Contains x newline = false -> xs <> [] ->
             Split (String.concat newline (x :: xs)) newline
             = x :: Split (String.concat newline xs) newline).
  { intros x xs Hx Hxs. rewrite concat_cons by exact Hxs.
    apply (Split_first EmptyString "010"%char x).
    rewrite append_nil_r. exact Hx. }
  induction Hpre as [|x pre Hx _ IH].
  - cbn [app]. destruct post as [|q post].
    + exists []. cbn [String.concat]. unfold Split.
      rewrite (split_go_absent newline line EmptyString Hline). reflexivity.
    + eexists. apply First; [exact Hline | discriminate].
  - destruct IH as [rest IH]. exists rest.
    cbn [app]. rewrite First; [|exact Hx | destruct pre; discriminate].
    rewrite IH. reflexivity.
Qed.

Lemma substring_idem (n : nat) :
  forall s, substring 0 n (substring 0 n s) = substring 0 n s.
Proof.
  induction n as [|n IH]; intros [|c s]; simpl; try reflexivity.
  rewrite IH. reflexivity.
Qed.

Lemma nonempty_true (s : string) : nonempty s = true <-> s <> EmptyString.
Proof.
  destruct s; simpl; split; intro H; try congruence; try discriminate.
Qed.

Lemma nonempty_false (s : string) : nonempty s = false <-> s = EmptyString.
Proof.
  destruct s; simpl; split; intro H; try congruence; try discriminate.
Qed.

Lemma substring_length (n : nat) :
  forall s, n <= String.length s -> String.length (substring 0 n s) = n.
Proof.
  induction n as [|n IH]; intros [|c s] Hn; simpl in *;
    try lia; try reflexivity.
  rewrite IH by lia. reflexivity.
Qed.

Lemma slice_to_ok (s : string) (n : nat) :
  n <= String.length s -> slice_to s n = Ok (substring 0 n s).
Proof.
  intro H. unfold slice_to.
  destruct (Nat.leb_spec n (String.length s)); [reflexivity | lia].
Qed.

Lemma slice_to_panic (s : string) (n : nat) :
  String.length s < n -> slice_to s n = Panic.
Proof.
  intro H. unfold slice_to.
  destruct (Nat.leb_spec n (String.length s)); [lia | reflexivity].
Qed.

Lemma slice_to_inv (s t : string) (n : nat) :
  slice_to s n = Ok t -> n <= String.length s /\ t = substring 0 n s.
Proof.
  unfold slice_to.
  destruct (Nat.leb_spec n (String.length s)) as [Hle|Hlt]; intro E;
    [|discriminate].
  injection E as <-. split; [assumption | reflexivity].
Qed.

Lemma filterEmpty_In (kv : KeyValue) (attrs : list KeyValue) :
  In kv (Resolve.filterEmpty attrs)
  <-> In kv attrs /\ AsString (Val kv) <> EmptyString.
Proof.
  induction attrs as [|a rest IH]; simpl.
  - tauto.
  - destruct (nonempty (AsString (Val a))) eqn:E; simpl; rewrite IH.
    + apply nonempty_true in E. split.
      * intros [-> | [H1 H2]]; auto.
      * intros [[-> | H1] H2]; auto.
    + apply nonempty_false in E. split.
      * intros [H1 H2]; auto.
      * intros [[-> | H1] H2]; [contradiction | auto].
Qed.

Lemma attr_lookup_filterEmpty_cons (k : string) (kv : KeyValue)
    (attrs : list KeyValue) :
  attr_lookup k (Resolve.filterEmpty (kv :: attrs))
  = if nonempty (AsString (Val kv)) && String.eqb (Key kv) k
    then Some (Val kv)
    else attr_lookup k (Resolve.filterEmpty attrs).
Proof.
  simpl. destruct (nonempty (AsString (Val kv))); simpl; reflexivity.
Qed.

Lemma attr_lookup_filterEmpty_absent (k : string) (attrs : list KeyValue) :
  keyAbsent k attrs = true ->
  attr_lookup k (Resolve.filterEmpty attrs) = None.
Proof.
  induction attrs as [|a rest IH]; simpl; intro H; [reflexivity|].
  apply andb_prop in H as [Ha Hrest].
  destruct (nonempty (AsString (Val a))); simpl; auto.
  apply negb_true_iff in Ha. rewrite Ha. auto.
Qed.

(** The shape of the attribute list: the service identity first, and no
    other attribute under one of its keys. *)
Lemma resourceAttributes_inv (os : Platform) (cfg : Config)
    (attrs : list KeyValue) :
  Resolve.resourceAttributes os cfg = Ok attrs ->
  exists instanceID rest,
    Resolve.instanceIDOf os cfg = Ok instanceID
    /\ attrs = semconv.ServiceName (ServiceName cfg)
               :: semconv.ServiceVersion (ServiceVersion cfg)
               :: semconv.ServiceInstanceID instanceID
               :: attribute_String "service.namespace" (ServiceNamespace cfg)
               :: semconv.DeploymentEnvironmentName (Environment cfg)
               :: rest
    /\ keyAbsent "service.name" rest = true
    /\ keyAbsent "service.version" rest = true
    /\ keyAbsent "service.instance.id" rest = true
    /\ keyAbsent "deployment.environment.name" rest = true.
Proof.
  unfold Resolve.resourceAttributes, rbind.
  destruct (Resolve.instanceIDOf os cfg) as [iid|]; [|discriminate].
  destruct (Resolve.getContainerID os) as [cid|]; [|discriminate].
  destruct (Resolve.getContainerImageName os) as [img|]; [|discriminate].
  intro H. injection H as <-.
  eexists. eexists. split; [reflexivity|].
  split; [reflexivity|].
  repeat split; reflexivity.
Qed.

(** Every attribute of the list is built by [attribute.String] or one of
    the string-valued [semconv] constructors. *)
Lemma resourceAttributes_strings (os : Platform) (cfg : Config)
    (attrs : list KeyValue) :
  Resolve.resourceAttributes os cfg = Ok attrs ->
  Forall (fun kv => exists s, Val kv = STRING s) attrs.
Proof.
  unfold Resolve.resourceAttributes, rbind.
  destruct (Resolve.instanceIDOf os cfg) as [iid|]; [|discriminate].
  destruct (Resolve.getContainerID os) as [cid|]; [|discriminate].
  destruct (Resolve.getContainerImageName os) as [img|]; [|discriminate].
  intro H. injection H as <-.
  repeat (constructor; [eexists; reflexivity|]).
  constructor.
Qed.

Lemma validAttributes_inv (os : Platform) (cfg : Config)
    (valid : list KeyValue) :
  Resolve.validAttributes os cfg = Ok valid ->
  exists built,
    Resolve.resourceAttributes os cfg = Ok built
    /\ valid = Resolve.filterEmpty built.
Proof.
  unfold Resolve.validAttributes, rbind.
  destruct (Resolve.resourceAttributes os cfg) as [built|]; [|discriminate].
  intro H. injection H as <-. exists built. split; reflexivity.
Qed.

Lemma firstEnv_unset (os : Platform) (keys : list string) (dflt : string) :
  Forall (fun k => Getenv os k = EmptyString) keys ->
  Resolve.firstEnv os keys dflt = dflt.
Proof.
  induction 1 as [|k keys Hk _ IH]; simpl; [reflexivity|].
  rewrite Hk. simpl. exact IH.
Qed.

(** ** Resolution of the resource attributes *)

Lemma substring_nonempty (s : string) :
  12 <= String.length s -> nonempty (substring 0 12 s) = true.
Proof.
  intro H. apply nonempty_true. intro E.
  pose proof (substring_length 12 s H) as L. rewrite E in L. discriminate L.
Qed.

Lemma cgroupContainerID_length (os : Platform) (lines : list string)
    (cid : string) :
  Resolve.cgroupContainerID lines = Ok cid ->
  cid = EmptyString \/ String.length cid = 12.
Proof.
  induction lines as [|line rest IH]; simpl; intro H.
  - left. congruence.
  - destruct (Contains line "/docker/"); [|auto].
    destruct (Split line "/docker/") as [|p0 [|p1 ps]]; auto.
    apply slice_to_inv in H as [Hle ->].
    right. apply substring_length. exact Hle.
Qed.

Lemma attr_lookup_head (k v : string) (rest : list KeyValue) :
  attr_lookup k (Resolve.filterEmpty (attribute_String k v :: rest))
  = if nonempty v then Some (STRING v)
    else attr_lookup k (Resolve.filterEmpty rest).
Proof.
  rewrite attr_lookup_filterEmpty_cons. cbn [attribute_String Key Val AsString].
  rewrite String.eqb_refl, andb_true_r. reflexivity.
Qed.

Lemma attr_lookup_skip (k k' v : string) (rest : list KeyValue) :
  String.eqb k' k = false ->
  attr_lookup k (Resolve.filterEmpty (attribute_String k' v :: rest))
  = attr_lookup k (Resolve.filterEmpty rest).
Proof.
  intro H. rewrite attr_lookup_filterEmpty_cons.
  cbn [attribute_String Key Val AsString].
  rewrite H, andb_false_r. reflexivity.
Qed.

(** C3 (as amended).  A non-empty [Config.ServiceName] is the [service.name]
    attribute whatever [SERVICE_NAME] holds; a non-nil [Config] with an
    empty [ServiceName] yields no [service.name] attribute; [SERVICE_NAME]
    is read by [DefaultConfig] only, that is for a nil [Config], and then
    [service.name] is its value. *)
Theorem service_name_precedence (os : Platform) (config : option Config)
    (valid : list KeyValue) :
  Resolve.validAttributes os (Resolve.orDefault os config) = Ok valid ->
  (forall c, config = Some c -> ServiceName c <> EmptyString ->
     attr_lookup "service.name" valid = Some (STRING (ServiceName c)))
  /\ (forall c, config = Some c -> ServiceName c = EmptyString ->
        attr_lookup "service.name" valid = None)
  /\ (config = None -> Getenv os "SERVICE_NAME" <> EmptyString ->
        attr_lookup "service.name" valid
        = Some (STRING (Getenv os "SERVICE_NAME"))).
Proof.
  intro Hv.
  apply validAttributes_inv in Hv as (built & Hb & ->).
  apply resourceAttributes_inv in Hb
    as (iid & rest & _ & -> & Hname & _ & _ & _).
  unfold semconv.ServiceName. rewrite attr_lookup_head.
  repeat split.
  - intros c -> Hne. simpl Resolve.orDefault.
    apply nonempty_true in Hne. rewrite Hne. reflexivity.
  - intros c -> He. simpl Resolve.orDefault.
    rewrite He. simpl nonempty. cbv iota.
    unfold semconv.ServiceVersion, semconv.ServiceInstanceID,
      semconv.DeploymentEnvironmentName.
    rewrite !attr_lookup_skip by reflexivity.
    apply attr_lookup_filterEmpty_absent. exact Hname.
  - intros -> Hne. simpl Resolve.orDefault.
    apply nonempty_true in Hne.
    cbn [Resolve.DefaultConfig ServiceName].
    unfold Resolve.getServiceName. cbn [Resolve.firstEnv].
    rewrite Hne. rewrite Hne. reflexivity.
Qed.

Lemma service_name_precedence_witness :
  exists valid,
    Resolve.validAttributes Demo.checkoutEnv2 (Demo.named "checkout-explicit")
    = Ok valid
    /\ attr_lookup "service.name" valid = Some (STRING "checkout-explicit").
Proof.
  eexists. split; [reflexivity|].
  refine (proj1 (service_name_precedence Demo.checkoutEnv2
                   (Some (Demo.named "checkout-explicit")) _ _)
            _ eq_refl _).
  - reflexivity.
  - discriminate.
Defined.

(** C3 as stated fails: with a non-nil [Config] whose [ServiceName] is empty
    and [SERVICE_NAME=checkout] the attributes hold no [service.name] at
    all. *)
Lemma service_name_env_fallback_counterexample :
  Getenv Demo.checkoutEnv "SERVICE_NAME" = "checkout"
  /\ ServiceName Demo.zeroConfig = EmptyString
  /\ resolvedAttr Demo.checkoutEnv (Some Demo.zeroConfig) "service.name"
     = Ok None
  /\ resolvedAttr Demo.checkoutEnv (Some Demo.zeroConfig) "service.name"
     <> Ok (Some (STRING "checkout")).
Proof.
  repeat split; try reflexivity. discriminate.
Qed.

(** C6 (as amended).  Every attribute that [createResource] passes to
    [resource.New] is a string attribute with a non-empty value: the list
    passed is the list built from the configuration and the environment
    without its empty-valued entries.  The resource returned is the one
    [resource.New] gives for that list. *)
Theorem createResource_drops_empty (W : Type) (sdk : Lifecycle.SDK W)
    (os : Platform) (tp : Lifecycle.TelemetryProvider W)
    (st st' : Lifecycle.State W) (r : list KeyValue * option error) :
  Lifecycle.createResource sdk os tp st = Ok (r, st') ->
  exists built valid,
    Resolve.resourceAttributes os (Lifecycle.Config_ tp) = Ok built
    /\ Lifecycle.resource_New sdk valid (Lifecycle.world st)
       = (Lifecycle.world st', r)
    /\ Forall (fun kv => exists s, Val kv = STRING s /\ s <> EmptyString) valid
    /\ (forall kv, In kv valid
                   <-> In kv built /\ AsString (Val kv) <> EmptyString).
Proof.
  unfold Lifecycle.createResource, Lifecycle.bind, Lifecycle.lift,
    Lifecycle.sdk_call.
  destruct (Resolve.validAttributes os (Lifecycle.Config_ tp)) as [valid|] eqn:Hv;
    [|discriminate].
  destruct (Lifecycle.resource_New sdk valid (Lifecycle.world st))
    as [w' r'] eqn:Hr.
  intro H. injection H as <- <-. simpl.
  apply validAttributes_inv in Hv as (built & Hb & ->).
  pose proof (resourceAttributes_strings os _ built Hb) as Hstr.
  exists built, (Resolve.filterEmpty built).
  repeat split; auto.
  - apply Forall_forall. intros kv Hin.
    apply filterEmpty_In in Hin as [Hin Hne].
    rewrite Forall_forall in Hstr. destruct (Hstr kv Hin) as [v Hv].
    exists v. split; [exact Hv|]. rewrite Hv in Hne. exact Hne.
  - apply filterEmpty_In in H. tauto.
  - apply filterEmpty_In in H. tauto.
  - intros [H1 H2]. apply filterEmpty_In. tauto.
Qed.

Lemma createResource_drops_empty_witness :
  exists r st' built valid,
    Lifecycle.createResource Demo.sdk Demo.bare
      (Lifecycle.newProvider Demo.World Demo.bare None) Demo.healthy
    = Ok (r, st')
    /\ Resolve.resourceAttributes Demo.bare (Resolve.DefaultConfig Demo.bare)
       = Ok built
    /\ Lifecycle.resource_New Demo.sdk valid (Lifecycle.world Demo.healthy)
       = (Lifecycle.world st', r)
    /\ Forall (fun kv => exists s, Val kv = STRING s /\ s <> EmptyString) valid
    /\ (forall kv, In kv valid
                   <-> In kv built /\ AsString (Val kv) <> EmptyString).
Proof.
  eexists. eexists.
  assert (H : Lifecycle.createResource Demo.sdk Demo.bare
                (Lifecycle.newProvider Demo.World Demo.bare None) Demo.healthy
              = Ok (_, _)) by reflexivity.
  destruct (createResource_drops_empty _ _ _ _ _ _ _ H)
    as (built & valid & Hrest).
  exists built, valid. split; [exact H | exact Hrest].
Defined.

(** C6 as stated fails for the final resource: the filter acts on the list
    handed to [resource.WithAttributes] only.  With
    [OTEL_RESOURCE_ATTRIBUTES=service.team=] the team resolves to the empty
    string and is dropped from that list, and the resource that
    [createResource] returns holds [service.team] with the empty value all
    the same, supplied by [WithFromEnv]. *)
Lemma createResource_final_resource_counterexample :
  exists built valid res st',
    Resolve.resourceAttributes Demo.emptyTeamEnv
      (Resolve.DefaultConfig Demo.emptyTeamEnv) = Ok built
    /\ In (attribute_String "service.team" EmptyString) built
    /\ Resolve.validAttributes Demo.emptyTeamEnv
         (Resolve.DefaultConfig Demo.emptyTeamEnv) = Ok valid
    /\ attr_lookup "service.team" valid = None
    /\ Lifecycle.createResource (Demo.sdkFromEnv Demo.emptyTeamEnv)
         Demo.emptyTeamEnv
         (Lifecycle.newProvider Demo.World Demo.emptyTeamEnv None)
         Demo.healthy
       = Ok ((res, None), st')
    /\ In (attribute_String "service.team" EmptyString) res
    /\ attr_lookup "service.team" res = Some (STRING EmptyString).
Proof.
  eexists. eexists. eexists. eexists.
  split; [reflexivity|].
  split; [vm_compute; tauto|].
  split; [reflexivity|].
  split; [reflexivity|].
  split; [reflexivity|].
  split; [vm_compute; tauto | reflexivity].
Qed.

(** ** The instance ID *)




(** ** The container ID *)

Lemma cgroupContainerID_skip (pre lines : list string) :
  Forall (fun l => Contains l "/docker/" = false) pre ->
  Resolve.cgroupContainerID (pre ++ lines)%list
  = Resolve.cgroupContainerID lines.
Proof.
  induction 1 as [|l pre Hl _ IH]; [reflexivity|].
  cbn [app Resolve.cgroupContainerID]. rewrite Hl. exact IH.
Qed.

Lemma Split_at_marker (p rest : string) :
  Contains (p ++ "/docker") "/docker/" = false ->
  Split (p ++ "/docker/" ++ rest) "/docker/" = p :: Split rest "/docker/".
Proof.
  exact (Split_first "/docker" "/"%char p rest).
Qed.

(** On a line whose first marker follows [p0], the second piece of the
    split is what stands between that marker and the next one, or the end
    of the line. *)
Lemma Split_docker_line (p0 id tail : string) :
  Contains (p0 ++ "/docker") "/docker/" = false ->
  Contains (id ++ "/docker") "/docker/" = false ->
  tail = EmptyString \/ prefix "/docker/" tail = true ->
  exists ps,
    Split (p0 ++ "/docker/" ++ id ++ tail) "/docker/" = p0 :: id :: ps.
Proof.
  intros H0 Hid Htail.
  rewrite (Split_at_marker p0 (id ++ tail) H0).
  destruct Htail as [-> | Htail].
  - rewrite append_nil_r. unfold Split.
    rewrite (split_go_absent "/docker/" id EmptyString
               (Contains_app_false _ _ _ Hid)).
    exists []. reflexivity.
  - apply prefix_split in Htail as [more ->].
    rewrite (Split_at_marker id more Hid).
    eexists. reflexivity.
Qed.

Lemma Contains_marker (p0 rest : string) :
  Contains (p0 ++ "/docker/" ++ rest) "/docker/" = true.
Proof.
  apply Contains_app_l, Contains_app_r, Contains_refl.
Qed.

(** The value of [getContainerID] when it reads the cgroup file: the
    first line with the marker decides. *)
Lemma getContainerID_cgroup (os : Platform) (pre post : list string)
    (p0 id tail : string) :
  Getenv os "CONTAINER_ID" = EmptyString ->
  ReadFile os "/proc/self/cgroup"
  = (String.concat newline
       (pre ++ (p0 ++ "/docker/" ++ id ++ tail) :: post), None) ->
  Forall (fun l => Contains l newline = false
                   /\ Contains l "/docker/" = false) pre ->
  Contains (p0 ++ "/docker/" ++ id ++ tail) newline = false ->
  Contains (p0 ++ "/docker") "/docker/" = false ->
  Contains (id ++ "/docker") "/docker/" = false ->
  tail = EmptyString \/ prefix "/docker/" tail = true ->
  Resolve.getContainerID os = slice_to id 12.
Proof.
  intros Henv Hfile Hpre Hnl H0 Hid Htail.
  unfold Resolve.getContainerID. rewrite Henv, Hfile. cbn [nonempty].
  destruct (Split_lines_prefix pre (p0 ++ "/docker/" ++ id ++ tail) post)
    as [rest ->]; [|exact Hnl|].
  { eapply Forall_impl; [|exact Hpre]. intros a [Ha _]. exact Ha. }
  rewrite cgroupContainerID_skip.
  2:{ eapply Forall_impl; [|exact Hpre]. intros a [_ Ha]. exact Ha. }
  cbn [Resolve.cgroupContainerID]. rewrite Contains_marker.
  destruct (Split_docker_line p0 id tail H0 Hid Htail) as [ps ->].
  reflexivity.
Qed.


(** C10.  With [SERVICE_INSTANCE_ID] unset, [generateInstanceID] slices
    whatever non-empty container ID [getContainerID] returns: at least 12
    bytes give the first 12, fewer give a panic.  [CONTAINER_ID] is
    returned uncut, so a short value there is outside the precondition.
    Without [CONTAINER_ID], [getContainerID] cuts the ID of the first
    cgroup line holding [/docker/] itself, the bytes between that marker
    and the next one or the end of the line: the first 12 of at least 12,
    a panic for fewer; what it returns is then empty or 12 bytes long, and
    [generateInstanceID] is in bounds. *)
Theorem container_id_precondition (os : Platform) :
  Getenv os "SERVICE_INSTANCE_ID" = EmptyString ->
  (Resolve.getContainerID os = Panic -> Resolve.generateInstanceID os = Panic)
  /\ (forall cid,
         Resolve.getContainerID os = Ok cid -> cid <> EmptyString ->
         (12 <= String.length cid ->
          Resolve.generateInstanceID os = Ok (substring 0 12 cid)
          /\ String.length (substring 0 12 cid) = 12)
         /\ (String.length cid < 12 ->
             Resolve.generateInstanceID os = Panic))
  /\ (Getenv os "CONTAINER_ID" <> EmptyString ->
      Resolve.getContainerID os = Ok (Getenv os "CONTAINER_ID"))
  /\ (Getenv os "CONTAINER_ID" = EmptyString ->
      (forall pre post p0 id tail,
          ReadFile os "/proc/self/cgroup"
          = (String.concat newline
               (pre ++ (p0 ++ "/docker/" ++ id ++ tail) :: post), None) ->
          Forall (fun l => Contains l newline = false
                           /\ Contains l "/docker/" = false) pre ->
          Contains (p0 ++ "/docker/" ++ id ++ tail) newline = false ->
          Contains (p0 ++ "/docker") "/docker/" = false ->
          Contains (id ++ "/docker") "/docker/" = false ->
          tail = EmptyString \/ prefix "/docker/" tail = true ->
          (12 <= String.length id ->
           Resolve.getContainerID os = Ok (substring 0 12 id)
           /\ Resolve.generateInstanceID os = Ok (substring 0 12 id))
          /\ (String.length id < 12 ->
              Resolve.getContainerID os = Panic
              /\ Resolve.generateInstanceID os = Panic))
      /\ (forall cid,
             Resolve.getContainerID os = Ok cid ->
             (cid = EmptyString \/ String.length cid = 12)
             /\ exists iid, Resolve.generateInstanceID os = Ok iid)).
Proof.
  intro Hid.
  assert (P : Resolve.getContainerID os = Panic ->
              Resolve.generateInstanceID os = Panic).
  { intro Hc. unfold Resolve.generateInstanceID.
    rewrite Hid, Hc. reflexivity. }
  assert (G : forall cid,
             Resolve.getContainerID os = Ok cid -> cid <> EmptyString ->
             Resolve.generateInstanceID os = slice_to cid 12).
  { intros cid Hc Hne. unfold Resolve.generateInstanceID.
    rewrite Hid, Hc. cbn [nonempty rbind].
    apply nonempty_true in Hne. rewrite Hne. reflexivity. }
  split; [exact P|]. split; [|split; [|intro Henv; split]].
  - intros cid Hc Hne. split.
    + intro Hlen. split; [|apply substring_length; exact Hlen].
      rewrite (G cid Hc Hne). apply slice_to_ok. exact Hlen.
    + intro Hlt. rewrite (G cid Hc Hne). apply slice_to_panic. exact Hlt.
  - intro Hne. unfold Resolve.getContainerID.
    apply nonempty_true in Hne. rewrite Hne. reflexivity.
  - intros pre post p0 id tail Hfile Hpre Hnl H0 Hi Htail.
    pose proof (getContainerID_cgroup os pre post p0 id tail
                  Henv Hfile Hpre Hnl H0 Hi Htail) as Hc.
    split.
    + intro Hlen. rewrite (slice_to_ok id 12 Hlen) in Hc.
      split; [exact Hc|].
      rewrite (G _ Hc).
      * rewrite slice_to_ok, substring_idem; [reflexivity|].
        rewrite (substring_length 12 id Hlen). lia.
      * apply nonempty_true, substring_nonempty. exact Hlen.
    + intro Hlt. rewrite (slice_to_panic id 12 Hlt) in Hc.
      split; [exact Hc | exact (P Hc)].
  - intros cid Hc.
    assert (L : cid = EmptyString \/ String.length cid = 12).
    { unfold Resolve.getContainerID in Hc. rewrite Henv in Hc.
      cbn [nonempty] in Hc.
      destruct (ReadFile os "/proc/self/cgroup") as [data [e|]].
      - left. congruence.
      - exact (cgroupContainerID_length os _ cid Hc). }
    split; [exact L|].
    destruct L as [-> | L].
    + unfold Resolve.generateInstanceID. rewrite Hid, Hc.
      cbn [nonempty rbind].
      destruct (nonempty (Resolve.getK8sPodUID os)); [eexists; reflexivity|].
      destruct (Hostname os) as [h [e|]]; eexists; reflexivity.
    + rewrite (G cid Hc).
      * rewrite slice_to_ok by lia. eexists. reflexivity.
      * intros ->. discriminate L.
Qed.

Lemma container_id_precondition_witness :
  Resolve.generateInstanceID Demo.dockerEnv = Ok "0123456789ab"
  /\ Resolve.generateInstanceID Demo.shortIDEnv = Panic
  /\ Resolve.getContainerID cgroupHost = Ok "0123456789ab"
  /\ Resolve.generateInstanceID cgroupHost = Ok "0123456789ab"
  /\ Resolve.getContainerID nestedCgroupHost = Panic.
Proof.
  split; [|split; [|split; [|split]]].
  - refine (proj1 (proj1 (proj1 (proj2 (container_id_precondition
                                          Demo.dockerEnv eq_refl))
                            "0123456789abcdef" eq_refl _) _)).
    + discriminate.
    + simpl. lia.
  - refine (proj2 (proj1 (proj2 (container_id_precondition
                                   Demo.shortIDEnv eq_refl))
                     "web" eq_refl _) _).
    + discriminate.
    + simpl. lia.
  - refine (proj1 (proj1 (proj1 (proj2 (proj2 (proj2
              (container_id_precondition cgroupHost eq_refl))) eq_refl)
              [] ["11:cpu:/docker/short"] "12:pids:" "0123456789abcdef0123"
              EmptyString eq_refl (Forall_nil _) eq_refl eq_refl eq_refl
              (or_introl eq_refl)) _)).
    simpl. lia.
  - refine (proj2 (proj1 (proj1 (proj2 (proj2 (proj2
              (container_id_precondition cgroupHost eq_refl))) eq_refl)
              [] ["11:cpu:/docker/short"] "12:pids:" "0123456789abcdef0123"
              EmptyString eq_refl (Forall_nil _) eq_refl eq_refl eq_refl
              (or_introl eq_refl)) _)).
    simpl. lia.
  - refine (proj1 (proj2 (proj1 (proj2 (proj2 (proj2
              (container_id_precondition nestedCgroupHost eq_refl))) eq_refl)
              ["0::/init.scope"] ["3:pids:/docker/0123456789abcdef"]
              "4:cpu:" "abc" "/docker/0123456789abcdef"
              eq_refl _ eq_refl eq_refl eq_refl
              (or_intror eq_refl)) _)).
    + repeat constructor.
    + simpl. lia.
Defined.

(** ** The sampler *)

(** The provider that [setupTraceProvider] builds carries [traceSampler]. *)
Lemma setupTraceProvider_sampler (W : Type) (sdk : Lifecycle.SDK W)
    (tp tp' : Lifecycle.TelemetryProvider W) (st st' : Lifecycle.State W) :
  Lifecycle.setupTraceProvider sdk tp st = Ok ((tp', None), st') ->
  option_map sdktrace.WithSampler (Lifecycle.TracerProvider tp')
  = Some (traceSampler (Lifecycle.Config_ tp)).
Proof.
  unfold Lifecycle.setupTraceProvider, Lifecycle.bind, Lifecycle.sdk_call,
    Lifecycle.sdk_do, Lifecycle.log, Lifecycle.ret.
  destruct (Lifecycle.otlptracehttp_New sdk _ (Lifecycle.world st))
    as [w1 [e|]]; intro H; [discriminate|].
  injection H as <- <-. reflexivity.
Qed.

(** C7.  Whatever the configured ratio, the sampler of [setupTraceProvider]
    samples under a sampled parent (remote or local), drops under an
    unsampled remote parent, and takes the ratio-based decision under an
    unsampled local parent, as it does when there is no valid parent. *)
Theorem sampler_is_parent_based (cfg : Config)
    (ratio : float -> sdktrace.SamplingParameters -> bool)
    (remote : bool) (traceID : list ascii) :
  let parent valid isRemote sampled :=
    {| sdktrace.ParentContext :=
         {| sdktrace.IsValid := valid;
            sdktrace.IsRemote := isRemote;
            sdktrace.IsSampled := sampled |};
       sdktrace.TraceID := traceID |} in
  sdktrace.ShouldSample ratio (traceSampler cfg) (parent true remote true)
  = true
  /\ sdktrace.ShouldSample ratio (traceSampler cfg) (parent true true false)
     = false
  /\ sdktrace.ShouldSample ratio (traceSampler cfg) (parent true false false)
     = ratio (SampleRate cfg) (parent true false false)
  /\ (forall sampled,
         sdktrace.ShouldSample ratio (traceSampler cfg)
           (parent false remote sampled)
         = ratio (SampleRate cfg) (parent false remote sampled)).
Proof.
  cbv zeta. split; [|split; [|split]].
  - destruct remote; reflexivity.
  - reflexivity.
  - reflexivity.
  - intro sampled. reflexivity.
Qed.

(** ** Shutdown *)

Section ShutdownFacts.

Variable W : Type.

Local Open Scope list_scope.

Lemma firstn_snoc (A : Type) (l : list A) :
  forall i x, nth_error l i = Some x -> firstn (S i) l = firstn i l ++ [x].
Proof.
  induction l as [|a l IH]; intros [|i] x H; simpl in *; try discriminate.
  - congruence.
  - f_equal. apply IH. exact H.
Qed.

Lemma nth_error_in_range (A : Type) (l : list A) (i : nat) :
  i < List.length l -> exists x, nth_error l i = Some x.
Proof.
  intro H. destruct (nth_error l i) as [x|] eqn:E.
  - exists x. reflexivity.
  - apply nth_error_None in E. lia.
Qed.

Lemma runHooks_app (hs1 hs2 : list (Lifecycle.ShutdownFunc W)) (w : W) :
  runHooks (hs1 ++ hs2) w
  = let (w1, outs1) := runHooks hs1 w in
    let (w2, outs2) := runHooks hs2 w1 in
    (w2, outs1 ++ outs2).
Proof.
  revert w. induction hs1 as [|h hs1 IH]; intro w; simpl.
  - destruct (runHooks hs2 w). reflexivity.
  - destruct (Lifecycle.call h w) as [w1 err].
    rewrite IH. destruct (runHooks hs1 w1) as [w2 outs1].
    destruct (runHooks hs2 w2). reflexivity.
Qed.

(** Every function of the list is called, whatever the earlier ones
    returned. *)
Lemma runHooks_owners (hs : list (Lifecycle.ShutdownFunc W)) (w : W) :
  map fst (snd (runHooks hs w)) = map (@Lifecycle.owner W) hs.
Proof.
  revert w. induction hs as [|h hs IH]; intro w; simpl; [reflexivity|].
  destruct (Lifecycle.call h w) as [w1 err].
  specialize (IH w1). destruct (runHooks hs w1) as [w2 outs].
  simpl in *. congruence.
Qed.

Lemma failures_In (outs : list (Signal * option error)) (e : error) :
  In e (failures outs) <-> exists s, In (s, Some e) outs.
Proof.
  induction outs as [|[s [e'|]] outs IH]; simpl.
  - split; [tauto | intros [s []]].
  - rewrite IH. split.
    + intros [-> | [s' H]]; [exists s; auto | exists s'; auto].
    + intros [s' [H | H]]; [left; congruence | right; exists s'; exact H].
  - rewrite IH. split.
    + intros [s' H]. exists s'. auto.
    + intros [s' [H | H]]; [discriminate | exists s'; exact H].
Qed.

Lemma failures_nil (outs : list (Signal * option error)) :
  failures outs = [] <-> Forall (fun o => snd o = None) outs.
Proof.
  induction outs as [|[s [e|]] outs IH]; simpl.
  - split; auto.
  - split; [discriminate | intro H; inversion H; discriminate].
  - rewrite IH. split.
    + intro H. constructor; auto.
    + intro H. inversion H. assumption.
Qed.

Lemma failures_app (o1 o2 : list (Signal * option error)) :
  failures (o1 ++ o2) = failures o1 ++ failures o2.
Proof.
  induction o1 as [|[s [e|]] o1 IH]; simpl; congruence.
Qed.

Lemma hooksInvoked_app (c1 c2 : list Call) :
  hooksInvoked (c1 ++ c2) = hooksInvoked c1 ++ hooksInvoked c2.
Proof.
  induction c1 as [|[s|s r] c1 IH]; simpl; congruence.
Qed.

Lemma hooksInvoked_invocations (outs : list (Signal * option error)) :
  hooksInvoked (invocations outs) = map fst outs.
Proof.
  induction outs as [|[s r] outs IH]; simpl; congruence.
Qed.

(** The loop entered at [k] calls the functions at the indices
    [k-1, ..., 0], in that order, and appends the errors they return. *)
Lemma shutdownLoop_run (funcs : list (Lifecycle.ShutdownFunc W)) :
  forall (k : nat) (errors : list error) (st : Lifecycle.State W),
    k <= List.length funcs ->
    Lifecycle.shutdownLoop funcs k errors st
    = let (w', outs) :=
        runHooks (rev (firstn k funcs)) (Lifecycle.world st) in
      Ok (errors ++ failures outs,
          {| Lifecycle.world := w';
             Lifecycle.calls := Lifecycle.calls st ++ invocations outs |}).
Proof.
  induction k as [|i IH]; intros errors [w calls] Hk.
  - simpl. rewrite !app_nil_r. reflexivity.
  - destruct (nth_error_in_range _ funcs i) as [f Hf]; [lia|].
    rewrite (firstn_snoc _ funcs i f Hf), rev_unit.
    cbn [Lifecycle.shutdownLoop runHooks].
    unfold Lifecycle.bind at 1. unfold Lifecycle.lift, index.
    rewrite Hf.
    unfold Lifecycle.bind at 1.
    unfold Lifecycle.invoke, Lifecycle.bind, Lifecycle.sdk_call,
      Lifecycle.log, Lifecycle.ret.
    cbn [Lifecycle.world Lifecycle.calls].
    destruct (Lifecycle.call f w) as [w1 err].
    rewrite IH by lia. cbn [Lifecycle.world Lifecycle.calls].
    destruct (runHooks (rev (firstn i funcs)) w1) as [w2 outs].
    unfold invocations. cbn [map fst snd].
    rewrite <- !app_assoc. cbn [app].
    destruct err as [e|]; cbn [failures]; rewrite <- ?app_assoc;
      reflexivity.
Qed.

(** [Shutdown] in closed form. *)
Lemma Shutdown_run (tp : Lifecycle.TelemetryProvider W) (st : Lifecycle.State W) :
  Lifecycle.Shutdown tp st
  = let (w', outs) :=
      runHooks (rev (Lifecycle.shutdownFuncs tp)) (Lifecycle.world st) in
    Ok (combined (failures outs),
        {| Lifecycle.world := w';
           Lifecycle.calls := Lifecycle.calls st ++ invocations outs |}).
Proof.
  unfold Lifecycle.Shutdown, Lifecycle.bind.
  rewrite shutdownLoop_run by lia.
  rewrite firstn_all.
  destruct (runHooks (rev (Lifecycle.shutdownFuncs tp)) (Lifecycle.world st))
    as [w' outs].
  cbn [app]. destruct (failures outs); reflexivity.
Qed.

End ShutdownFacts.

(** C4.  [Shutdown] calls every registered function once, last registered
    first, each on the world its predecessor left and whatever the earlier
    ones returned; it returns [nil] when none of them failed, and otherwise
    one error whose text lists the errors of exactly the functions that
    failed, in call order. *)
Theorem Shutdown_collects_every_failure (W : Type)
    (tp : Lifecycle.TelemetryProvider W) (st : Lifecycle.State W) :
  exists w' outs,
    runHooks (rev (Lifecycle.shutdownFuncs tp)) (Lifecycle.world st)
    = (w', outs)
    /\ map fst outs = rev (map (@Lifecycle.owner W) (Lifecycle.shutdownFuncs tp))
    /\ (forall e, In e (failures outs) <-> exists s, In (s, Some e) outs)
    /\ Lifecycle.Shutdown tp st
       = Ok (match failures outs with
             | [] => None
             | _ :: _ =>
                 Some ("failed to shutdown telemetry providers: "
                         ++ fmt_errors (failures outs))
             end,
             {| Lifecycle.world := w';
                Lifecycle.calls :=
                  (Lifecycle.calls st ++ invocations outs)%list |})
    /\ (failures outs = [] <-> Forall (fun o => snd o = None) outs).
Proof.
  pose proof (Shutdown_run W tp st) as Hrun.
  pose proof (runHooks_owners W (rev (Lifecycle.shutdownFuncs tp))
                (Lifecycle.world st)) as Hown.
  destruct (runHooks (rev (Lifecycle.shutdownFuncs tp)) (Lifecycle.world st))
    as [w' outs].
  exists w', outs. simpl in Hown. rewrite map_rev in Hown.
  repeat split; try assumption.
  - apply failures_In.
  - apply failures_In.
  - apply failures_nil.
  - apply failures_nil.
Qed.

(** When only the metric provider fails to shut down, the three functions
    are still called and the error names that failure alone. *)
Example Shutdown_metric_failure_only :
  exists tp st0 st1,
    Demo.boot Demo.metricShutdownFails = Ok (inl tp, st0)
    /\ Lifecycle.Shutdown tp st0
       = Ok (Some "failed to shutdown telemetry providers: [reader is shutdown]",
             st1)
    /\ hooksInvoked (Lifecycle.calls st1) = [Log; Metric; Trace].
Proof.
  do 3 eexists.
  split; [vm_compute; reflexivity|].
  split; [vm_compute; reflexivity|].
  reflexivity.
Qed.

(** C1 (as amended).  [Shutdown] keeps no record of having run: a second
    call goes through the same list again, calls every registered function
    once more in the same order, on the world the first call left, and
    returns the combination of what they return this time. *)
Theorem Shutdown_twice_repeats (W : Type)
    (tp : Lifecycle.TelemetryProvider W) (st : Lifecycle.State W) :
  exists e1 st1 e2 st2,
    Lifecycle.Shutdown tp st = Ok (e1, st1)
    /\ Lifecycle.Shutdown tp st1 = Ok (e2, st2)
    /\ hooksInvoked (Lifecycle.calls st1)
       = (hooksInvoked (Lifecycle.calls st)
            ++ rev (map (@Lifecycle.owner W) (Lifecycle.shutdownFuncs tp)))%list
    /\ hooksInvoked (Lifecycle.calls st2)
       = (hooksInvoked (Lifecycle.calls st1)
            ++ rev (map (@Lifecycle.owner W) (Lifecycle.shutdownFuncs tp)))%list
    /\ e2 = combined
              (failures
                 (snd (runHooks (rev (Lifecycle.shutdownFuncs tp))
                         (Lifecycle.world st1)))).
Proof.
  assert (Step : forall s : Lifecycle.State W,
             exists e s',
               Lifecycle.Shutdown tp s = Ok (e, s')
               /\ hooksInvoked (Lifecycle.calls s')
                  = (hooksInvoked (Lifecycle.calls s)
                       ++ rev (map (@Lifecycle.owner W)
                                 (Lifecycle.shutdownFuncs tp)))%list
               /\ e = combined
                        (failures
                           (snd (runHooks (rev (Lifecycle.shutdownFuncs tp))
                                   (Lifecycle.world s))))).
  { intro s. rewrite Shutdown_run.
    pose proof (runHooks_owners W (rev (Lifecycle.shutdownFuncs tp))
                  (Lifecycle.world s)) as Hown.
    destruct (runHooks (rev (Lifecycle.shutdownFuncs tp)) (Lifecycle.world s))
      as [w' outs].
    eexists. eexists. split; [reflexivity|].
    cbn [Lifecycle.calls snd] in *. split; [|reflexivity].
    rewrite hooksInvoked_app, hooksInvoked_invocations, Hown, map_rev.
    reflexivity. }
  destruct (Step st) as (e1 & st1 & H1 & L1 & _).
  destruct (Step st1) as (e2 & st2 & H2 & L2 & E2).
  exists e1, st1, e2, st2. auto.
Qed.

(** ** Bootstrap *)

Section BootstrapFacts.

Variable W : Type.
Variable sdk : Lifecycle.SDK W.
Variable os : Platform.

Local Open Scope list_scope.

Ltac run_setup :=
  unfold Lifecycle.bind, Lifecycle.sdk_call, Lifecycle.sdk_do,
    Lifecycle.log, Lifecycle.ret;
  cbn [Lifecycle.world Lifecycle.calls].

Ltac finish_setup H :=
  injection H as <- <- <-; unfold setup_outcome;
  cbn [Lifecycle.appendShutdown Lifecycle.shutdownFuncs Lifecycle.Config_
       Lifecycle.setTracerProvider Lifecycle.setMeterProvider
       Lifecycle.setLoggerProvider Lifecycle.calls Lifecycle.owner];
  rewrite ?map_app; auto.

Lemma setupTraceProvider_inv tp st tp' err st' :
  Lifecycle.setupTraceProvider sdk tp st = Ok ((tp', err), st') ->
  setup_outcome Trace tp st tp' err st'.
Proof.
  unfold Lifecycle.setupTraceProvider. run_setup.
  destruct (Lifecycle.otlptracehttp_New sdk _ (Lifecycle.world st))
    as [w1 [e|]]; intro H; finish_setup H.
Qed.

Lemma setupMetricsWith_inv tp readers st tp' err st' :
  Lifecycle.setupMetricsWith sdk tp readers st = Ok ((tp', err), st') ->
  setup_outcome Metric tp st tp' err st'.
Proof.
  unfold Lifecycle.setupMetricsWith. run_setup.
  destruct (Lifecycle.otlpmetrichttp_New sdk _ (Lifecycle.world st))
    as [w1 [e|]]; intro H; finish_setup H.
Qed.

Lemma setupMetricsProvider_inv tp st tp' err st' :
  Lifecycle.setupMetricsProvider sdk tp st = Ok ((tp', err), st') ->
  setup_outcome Metric tp st tp' err st'.
Proof.
  unfold Lifecycle.setupMetricsProvider.
  destruct (EnablePrometheus (Lifecycle.Config_ tp));
    [|apply setupMetricsWith_inv].
  unfold Lifecycle.bind at 1. unfold Lifecycle.sdk_call.
  destruct (Lifecycle.prometheus_New sdk (Lifecycle.world st))
    as [w1 [e|]].
  - unfold Lifecycle.ret. intro H. finish_setup H.
  - intro H. apply setupMetricsWith_inv in H. exact H.
Qed.

Lemma setupLoggingProvider_inv tp st tp' err st' :
  Lifecycle.setupLoggingProvider sdk tp st = Ok ((tp', err), st') ->
  setup_outcome Log tp st tp' err st'.
Proof.
  unfold Lifecycle.setupLoggingProvider. run_setup.
  destruct (Lifecycle.otlploghttp_New sdk _ (Lifecycle.world st))
    as [w1 [e|]]; intro H; finish_setup H.
Qed.

Lemma createResource_calls tp st r st' :
  Lifecycle.createResource sdk os tp st = Ok (r, st') ->
  Lifecycle.calls st' = Lifecycle.calls st.
Proof.
  unfold Lifecycle.createResource, Lifecycle.bind, Lifecycle.lift,
    Lifecycle.sdk_call.
  destruct (Resolve.validAttributes os (Lifecycle.Config_ tp)) as [valid|];
    [|discriminate].
  destruct (Lifecycle.resource_New sdk valid (Lifecycle.world st)).
  intro H. injection H as <- <-. reflexivity.
Qed.

(** A successful bootstrap registered the three shutdown functions in the
    order trace, metric, log, and called none of them. *)
Lemma NewTelemetryProvider_ok config st tp st' :
  Lifecycle.NewTelemetryProvider sdk os config st = Ok (inl tp, st') ->
  map (@Lifecycle.owner W) (Lifecycle.shutdownFuncs tp)
  = [Trace; Metric; Log]
  /\ Lifecycle.calls st'
     = Lifecycle.calls st ++ [Started Trace; Started Metric; Started Log]
  /\ Lifecycle.Config_ tp = Resolve.orDefault os config.
Proof.
  unfold Lifecycle.NewTelemetryProvider.
  unfold Lifecycle.bind at 1.
  destruct (Lifecycle.createResource sdk os _ st)
    as [[[res [e|]] st1]|] eqn:Hc; try discriminate.
  apply createResource_calls in Hc.
  unfold Lifecycle.bind at 1.
  destruct (Lifecycle.setupTraceProvider sdk _ st1)
    as [[[tp1 [e|]] st2]|] eqn:Ht; try discriminate.
  apply setupTraceProvider_inv in Ht as (Ht1 & Ht2 & Ht3).
  unfold Lifecycle.bind at 1.
  destruct (Lifecycle.setupMetricsProvider sdk tp1 st2)
    as [[[tp2 [e|]] st3]|] eqn:Hm; try discriminate.
  apply setupMetricsProvider_inv in Hm as (Hm1 & Hm2 & Hm3).
  unfold Lifecycle.bind at 1.
  destruct (Lifecycle.setupLoggingProvider sdk tp2 st3)
    as [[[tp3 [e|]] st4]|] eqn:Hl; try discriminate.
  apply setupLoggingProvider_inv in Hl as (Hl1 & Hl2 & Hl3).
  unfold Lifecycle.bind, Lifecycle.sdk_do, Lifecycle.ret.
  intro H. injection H as <- <-.
  cbn [Lifecycle.calls].
  rewrite Hl1, Hm1, Ht1, Hl2, Hm2, Ht2, Hc, Hl3, Hm3, Ht3.
  cbn [Lifecycle.setResource Lifecycle.newProvider Lifecycle.shutdownFuncs
       Lifecycle.Config_ map app].
  rewrite <- !app_assoc. auto.
Qed.

End BootstrapFacts.



(** C1 as stated fails: after a bootstrap in which nothing ever
    fails, the second [Shutdown] calls the three shutdown functions again. *)
Lemma Shutdown_twice_counterexample :
  exists tp st0 st1 st2,
    Demo.boot Demo.healthy = Ok (inl tp, st0)
    /\ Lifecycle.Shutdown tp st0 = Ok (None, st1)
    /\ Lifecycle.Shutdown tp st1 = Ok (None, st2)
    /\ hooksInvoked (Lifecycle.calls st1) = [Log; Metric; Trace]
    /\ hooksInvoked (Lifecycle.calls st2)
       = [Log; Metric; Trace; Log; Metric; Trace]
    /\ hooksInvoked (Lifecycle.calls st2) <> hooksInvoked (Lifecycle.calls st1).
Proof.
  do 4 eexists.
  split; [vm_compute; reflexivity|].
  split; [vm_compute; reflexivity|].
  split; [vm_compute; reflexivity|].
  split; [reflexivity|].
  split; [reflexivity|].
  discriminate.
Qed.

(** C2 (as amended).  When the trace pipeline was built and the metric
    pipeline cannot be, [NewTelemetryProvider] returns the wrapped error and
    no provider; it has registered the trace provider's shutdown function
    on the provider it drops and has called no shutdown function, so the
    log of the run only gains the start of the trace pipeline. *)
Theorem metric_failure_returns_without_cleanup (W : Type)
    (sdk : Lifecycle.SDK W) (os : Platform) (config : option Config)
    (st st1 st2 st3 : Lifecycle.State W) (res : list KeyValue)
    (tp1 tp2 : Lifecycle.TelemetryProvider W) (e : error) :
  Lifecycle.createResource sdk os (Lifecycle.newProvider W os config) st
  = Ok ((res, None), st1) ->
  Lifecycle.setupTraceProvider sdk
    (Lifecycle.setResource (Lifecycle.newProvider W os config) res) st1
  = Ok ((tp1, None), st2) ->
  Lifecycle.setupMetricsProvider sdk tp1 st2 = Ok ((tp2, Some e), st3) ->
  Lifecycle.NewTelemetryProvider sdk os config st
  = Ok (inr ("failed to setup metrics provider: " ++ e), st3)
  /\ map (@Lifecycle.owner W) (Lifecycle.shutdownFuncs tp1) = [Trace]
  /\ Lifecycle.calls st3 = (Lifecycle.calls st ++ [Started Trace])%list
  /\ hooksInvoked (Lifecycle.calls st3) = hooksInvoked (Lifecycle.calls st)
  /\ hookCount Trace (Lifecycle.calls st3)
     = hookCount Trace (Lifecycle.calls st).
Proof.
  intros Hc Ht Hm.
  assert (Hboot : Lifecycle.NewTelemetryProvider sdk os config st
                  = Ok (inr ("failed to setup metrics provider: " ++ e), st3)).
  { unfold Lifecycle.NewTelemetryProvider.
    unfold Lifecycle.bind at 1. rewrite Hc.
    unfold Lifecycle.bind at 1. rewrite Ht.
    unfold Lifecycle.bind at 1. rewrite Hm.
    reflexivity. }
  apply createResource_calls in Hc.
  apply setupTraceProvider_inv in Ht as (Ht1 & Ht2 & _).
  apply setupMetricsProvider_inv in Hm as (_ & Hm2).
  assert (Hcalls : Lifecycle.calls st3
                   = (Lifecycle.calls st ++ [Started Trace])%list)
    by congruence.
  repeat split.
  - exact Hboot.
  - rewrite Ht1. reflexivity.
  - exact Hcalls.
  - rewrite Hcalls, hooksInvoked_app. simpl. apply app_nil_r.
  - rewrite Hcalls. unfold hookCount. rewrite filter_app. simpl.
    rewrite app_nil_r. reflexivity.
Qed.

Lemma metric_failure_returns_without_cleanup_witness :
  exists err st3,
    Demo.boot Demo.metricsDown = Ok (inr err, st3)
    /\ Lifecycle.calls st3 = [Started Trace]
    /\ hookCount Trace (Lifecycle.calls st3) = 0.
Proof.
  pose (p0 := Lifecycle.newProvider Demo.World Demo.bare None).
  destruct (Lifecycle.createResource Demo.sdk Demo.bare p0 Demo.metricsDown)
    as [[[res [e0|]] st1]|] eqn:Hc;
    [vm_compute in Hc; discriminate Hc | | vm_compute in Hc; discriminate Hc].
  destruct (Lifecycle.setupTraceProvider Demo.sdk
              (Lifecycle.setResource p0 res) st1)
    as [[[tp1 [e1|]] st2]|] eqn:Ht;
    [vm_compute in Ht; discriminate Ht | | vm_compute in Ht; discriminate Ht].
  assert (Hw : Lifecycle.world st2 = Lifecycle.world Demo.metricsDown).
  { vm_compute in Hc. injection Hc as _ <-.
    vm_compute in Ht. injection Ht as _ <-. reflexivity. }
  assert (Hp : EnablePrometheus (Lifecycle.Config_ tp1) = true).
  { vm_compute in Hc. injection Hc as <- <-.
    vm_compute in Ht. injection Ht as <- _. reflexivity. }
  destruct (Lifecycle.setupMetricsProvider Demo.sdk tp1 st2)
    as [[[tp2 [e2|]] st3]|] eqn:Hm.
  - destruct (metric_failure_returns_without_cleanup _ _ _ _ _ _ _ _ _ _ _ _
                Hc Ht Hm) as (Hboot & _ & Hcalls & _ & Hcount).
    eexists. exists st3.
    split; [exact Hboot|]. split; [exact Hcalls | exact Hcount].
  - exfalso. revert Hm.
    unfold Lifecycle.setupMetricsProvider. rewrite Hp.
    unfold Lifecycle.bind, Lifecycle.sdk_call, Lifecycle.setupMetricsWith.
    rewrite Hw. simpl. discriminate.
  - exfalso. revert Hm.
    unfold Lifecycle.setupMetricsProvider. rewrite Hp.
    unfold Lifecycle.bind, Lifecycle.sdk_call, Lifecycle.setupMetricsWith.
    rewrite Hw. simpl. discriminate.
Defined.

(** C2 as stated fails: the metric exporter cannot be built, the
    bootstrap returns its error, the trace pipeline was started and its
    shutdown function was never called. *)
Lemma metric_failure_cleanup_counterexample :
  exists st3,
    Demo.boot Demo.metricsDown
    = Ok (inr ("failed to setup metrics provider: "
                 ++ "failed to create OTLP metrics exporter: "
                 ++ "invalid endpoint"), st3)
    /\ In (Started Trace) (Lifecycle.calls st3)
    /\ hookCount Trace (Lifecycle.calls st3) = 0
    /\ hookCount Trace (Lifecycle.calls st3) <> 1.
Proof.
  eexists.
  split; [vm_compute; reflexivity|].
  split; [left; reflexivity|].
  split; [reflexivity | discriminate].
Qed.

(** ** Defaults of the configuration *)

(** C9 (as amended).  A nil [Config] is replaced by [DefaultConfig()], whose
    environment is ["development"] and whose version is ["dev"] when the
    environment variables do not supply them, and these are the attributes
    of the resource; a non-nil [Config] is used as it is. *)
Theorem nil_config_defaults (os : Platform) (valid : list KeyValue) :
  Forall (fun k => Getenv os k = EmptyString)
    ["ENVIRONMENT"; "DEPLOYMENT_ENVIRONMENT"; "OTEL_DEPLOYMENT_ENVIRONMENT"] ->
  Forall (fun k => Getenv os k = EmptyString)
    ["SERVICE_VERSION"; "OTEL_SERVICE_VERSION"] ->
  Resolve.validAttributes os (Resolve.orDefault os None) = Ok valid ->
  Resolve.orDefault os None = Resolve.DefaultConfig os
  /\ Environment (Resolve.orDefault os None) = "development"
  /\ ServiceVersion (Resolve.orDefault os None) = "dev"
  /\ attr_lookup "deployment.environment.name" valid
     = Some (STRING "development")
  /\ attr_lookup "service.version" valid = Some (STRING "dev")
  /\ (forall c, Resolve.orDefault os (Some c) = c)
  /\ (forall (W : Type) (sdk : Lifecycle.SDK W) config st tp st',
        Lifecycle.NewTelemetryProvider sdk os config st = Ok (inl tp, st') ->
        Lifecycle.Config_ tp = Resolve.orDefault os config).
Proof.
  intros Henv Hver Hv.
  assert (E : Environment (Resolve.DefaultConfig os) = "development")
    by (apply firstEnv_unset; exact Henv).
  assert (V : ServiceVersion (Resolve.DefaultConfig os) = "dev")
    by (apply firstEnv_unset; exact Hver).
  apply validAttributes_inv in Hv as (built & Hb & ->).
  apply resourceAttributes_inv in Hb as (iid & rest & _ & -> & _).
  cbn [Resolve.orDefault] in *.
  unfold semconv.ServiceName, semconv.ServiceVersion,
    semconv.ServiceInstanceID, semconv.DeploymentEnvironmentName.
  repeat split; try assumption.
  - rewrite !attr_lookup_skip by reflexivity.
    rewrite attr_lookup_head, E. reflexivity.
  - rewrite attr_lookup_skip by reflexivity.
    rewrite attr_lookup_head, V. reflexivity.
  - intros W sdk config st tp st' Hboot.
    apply NewTelemetryProvider_ok in Hboot. tauto.
Qed.

Lemma nil_config_defaults_witness :
  exists valid,
    Resolve.validAttributes Demo.bare (Resolve.orDefault Demo.bare None)
    = Ok valid
    /\ attr_lookup "deployment.environment.name" valid
       = Some (STRING "development")
    /\ attr_lookup "service.version" valid = Some (STRING "dev").
Proof.
  eexists. split; [reflexivity|].
  assert (H := nil_config_defaults Demo.bare _
                 ltac:(repeat constructor) ltac:(repeat constructor)
                 eq_refl).
  split; [exact (proj1 (proj2 (proj2 (proj2 H))))
         | exact (proj1 (proj2 (proj2 (proj2 (proj2 H)))))].
Defined.

(** C9 as stated fails for the zero value [Config{}] passed by
    pointer: it is not [nil], so no default replaces its empty fields and
    the resource has neither an environment nor a version attribute. *)
Lemma zero_config_counterexample :
  Resolve.orDefault Demo.bare (Some Demo.zeroConfig) = Demo.zeroConfig
  /\ resolvedAttr Demo.bare (Some Demo.zeroConfig)
       "deployment.environment.name" = Ok None
  /\ resolvedAttr Demo.bare (Some Demo.zeroConfig) "service.version" = Ok None
  /\ resolvedAttr Demo.bare (Some Demo.zeroConfig)
       "deployment.environment.name" <> Ok (Some (STRING "development"))
  /\ resolvedAttr Demo.bare (Some Demo.zeroConfig) "service.version"
     <> Ok (Some (STRING "dev")).
Proof.
  repeat split; try reflexivity; discriminate.
Qed.

(** * Further properties *)

(** ** Splitting at a one-byte separator *)

Lemma prefix_char (c x : ascii) (s : string) :
  prefix (char c) (String x s) = Ascii.eqb c x.
Proof.
  unfold char. simpl. destruct (ascii_dec c x) as [->|Hne].
  - rewrite Ascii.eqb_refl. destruct s; reflexivity.
  - symmetry. apply Ascii.eqb_neq. exact Hne.
Qed.

Lemma Contains_char_cons (c x : ascii) (s : string) :
  Contains (String x s) (char c) = Ascii.eqb c x || Contains s (char c).
Proof.
  cbn [Contains]. rewrite prefix_char. reflexivity.
Qed.

Lemma Contains_char_app (c : ascii) (a b : string) :
  Contains (a ++ b) (char c) = Contains a (char c) || Contains b (char c).
Proof.
  induction a as [|x a IH].
  - simpl. destruct b; reflexivity.
  - cbn [append]. rewrite !Contains_char_cons, IH, orb_assoc. reflexivity.
Qed.

(** The first piece ends at the first separator. *)
Lemma split_char_head (c : ascii) (a : string) :
  Contains a (char c) = false ->
  forall cur r,
    split_go (char c) 0 cur (a ++ String c r)
    = (cur ++ a) :: split_go (char c) 0 EmptyString r.
Proof.
  induction a as [|x a IH]; intros Ha cur r.
  - cbn [append split_go]. rewrite prefix_char, Ascii.eqb_refl.
    rewrite append_nil_r. reflexivity.
  - rewrite Contains_char_cons in Ha. apply orb_false_iff in Ha as [Hx Ha].
    cbn [append split_go]. rewrite prefix_char, Hx.
    rewrite (IH Ha), append_assoc. reflexivity.
Qed.

(** A string that holds [c] is cut at its first [c]. *)
Lemma first_char_decomp (c : ascii) (s : string) :
  Contains s (char c) = true ->
  exists a r, s = a ++ String c r /\ Contains a (char c) = false.
Proof.
  induction s as [|x s IH]; intro H.
  - discriminate H.
  - rewrite Contains_char_cons in H.
    destruct (Ascii.eqb c x) eqn:E.
    + apply Ascii.eqb_eq in E. subst x.
      exists EmptyString, s. split; reflexivity.
    + destruct (IH H) as (a & r & -> & Ha).
      exists (String x a), r. split; [reflexivity|].
      rewrite Contains_char_cons, E. exact Ha.
Qed.

(** ** Container image name and tag *)

(** The image reference [getContainerImageName] reads. *)
Lemma nonempty_firstNonEmpty (a b : string) :
  firstNonEmpty [a; b] EmptyString
  = if nonempty a then a else if nonempty b then b else EmptyString.
Proof. reflexivity. Qed.

(** X1.  [getContainerImageName] never fails on its unguarded index [0]: it
    returns the part of the image reference ([CONTAINER_IMAGE], else
    [IMAGE_NAME]) before its first colon.  The name holds no colon, and the
    reference is the name alone or the name, a colon and more text; a
    reference without colon is returned whole, and then
    [getContainerImageTag] is [IMAGE_TAG]. *)
Theorem image_name_is_colon_free_prefix (os : Platform) :
  let image :=
    firstNonEmpty [Getenv os "CONTAINER_IMAGE"; Getenv os "IMAGE_NAME"]
      EmptyString in
  exists name,
    Resolve.getContainerImageName os = Ok name
    /\ Contains name ":" = false
    /\ (image = name \/ exists rest, image = name ++ ":" ++ rest)
    /\ prefix name image = true
    /\ (Contains image ":" = false -> name = image)
    /\ (Contains (Getenv os "CONTAINER_IMAGE") ":" = false ->
        Resolve.getContainerImageTag os = Getenv os "IMAGE_TAG").
Proof.
  cbv zeta. rewrite nonempty_firstNonEmpty.
  assert (First : forall s,
             exists name,
               index (Split s ":") 0 = Ok name
               /\ Contains name ":" = false
               /\ (s = name \/ exists rest, s = name ++ ":" ++ rest)
               /\ prefix name s = true
               /\ (Contains s ":" = false -> name = s)).
  { intro s. unfold Split. destruct (Contains s ":") eqn:E.
    - destruct (first_char_decomp ":"%char s E) as (a & r & -> & Ha).
      exists a. change ":" with (char ":"%char).
      rewrite (split_char_head ":"%char a Ha).
      repeat split; auto using prefix_app.
      + right. exists r. reflexivity.
      + discriminate.
    - exists s. rewrite (split_go_absent ":" s EmptyString E).
      repeat split; auto using prefix_refl. }
  assert (Tag : Contains (Getenv os "CONTAINER_IMAGE") ":" = false ->
                Resolve.getContainerImageTag os = Getenv os "IMAGE_TAG").
  { intro H. unfold Resolve.getContainerImageTag, Split.
    rewrite (split_go_absent ":" _ EmptyString H).
    cbn [Resolve.firstEnv].
    destruct (nonempty (Getenv os "CONTAINER_IMAGE"));
      destruct (nonempty (Getenv os "IMAGE_TAG")) eqn:E; try reflexivity;
      apply nonempty_false in E; congruence. }
  unfold Resolve.getContainerImageName.
  destruct (nonempty (Getenv os "CONTAINER_IMAGE")).
  - destruct (First (Getenv os "CONTAINER_IMAGE"))
      as (n & H1 & H2 & H3 & H4 & H5).
    exists n. auto 6.
  - destruct (nonempty (Getenv os "IMAGE_NAME")).
    + destruct (First (Getenv os "IMAGE_NAME"))
        as (n & H1 & H2 & H3 & H4 & H5).
      exists n. auto 6.
    + exists EmptyString. auto 6.
Qed.

(** X2.  For [CONTAINER_IMAGE] of the form [name:tag] or [name:tag:more]
    (no colon in [name] and [tag]) the name and the tag are [name] and
    [tag]: the pieces before the first and between the first and the second
    colon.  A registry port is therefore taken for the tag. *)
Theorem image_name_and_tag (os : Platform) (name tag tail : string) :
  Getenv os "CONTAINER_IMAGE" = name ++ ":" ++ tag ++ tail ->
  Contains name ":" = false ->
  Contains tag ":" = false ->
  tail = EmptyString \/ prefix ":" tail = true ->
  Resolve.getContainerImageName os = Ok name
  /\ Resolve.getContainerImageTag os = tag.
Proof.
  intros Himg Hname Htag Htail.
  assert (Hne : nonempty (Getenv os "CONTAINER_IMAGE") = true).
  { rewrite Himg. destruct name; reflexivity. }
  assert (Hsplit : exists ps,
             Split (Getenv os "CONTAINER_IMAGE") ":" = name :: tag :: ps).
  { rewrite Himg. unfold Split.
    change (":" ++ tag ++ tail) with (String ":"%char (tag ++ tail)).
    rewrite (split_char_head ":"%char name Hname). cbn [append].
    unfold char.
    destruct Htail as [-> | Htail].
    - rewrite append_nil_r.
      rewrite (split_go_absent ":" tag EmptyString Htag).
      exists []. reflexivity.
    - apply prefix_split in Htail as [r ->].
      change (":" ++ r) with (String ":"%char r).
      change ":" with (char ":"%char) at 1.
      rewrite (split_char_head ":"%char tag Htag). cbn [append].
      eexists. reflexivity. }
  destruct Hsplit as [ps Hsplit].
  unfold Resolve.getContainerImageName, Resolve.getContainerImageTag.
  rewrite Hne, Hsplit. split; reflexivity.
Qed.

Lemma image_name_and_tag_witness :
  Resolve.getContainerImageName
    (Demo.withEnv [("CONTAINER_IMAGE", "localhost:5000/app:1.2")] Demo.bare)
  = Ok "localhost"
  /\ Resolve.getContainerImageTag
       (Demo.withEnv [("CONTAINER_IMAGE", "localhost:5000/app:1.2")] Demo.bare)
     = "5000/app".
Proof.
  apply (image_name_and_tag
           (Demo.withEnv [("CONTAINER_IMAGE", "localhost:5000/app:1.2")]
              Demo.bare)
           "localhost" "5000/app" ":1.2");
    [reflexivity | reflexivity | reflexivity | right; reflexivity].
Defined.

(** ** The random identifier *)

Lemma hex_digit_is_hex (n : nat) : isHexDigit (hex_digit n) = true.
Proof.
  do 16 (destruct n as [|n]; [reflexivity|]).
  unfold hex_digit. simpl. destruct n; reflexivity.
Qed.

Lemma hex_byte_shape (b : ascii) :
  exists h l,
    hex_byte b = String h (String l EmptyString)
    /\ isHexDigit h = true /\ isHexDigit l = true.
Proof.
  unfold hex_byte. eexists. eexists.
  split; [reflexivity|]. split; apply hex_digit_is_hex.
Qed.

Lemma hex_digit_inj (m n : nat) :
  m < 16 -> n < 16 -> hex_digit m = hex_digit n -> m = n.
Proof.
  intros Hm Hn.
  do 16 (destruct m as [|m]; [
    do 16 (destruct n as [|n]; [first [reflexivity | discriminate]|]); lia |]).
  lia.
Qed.

Lemma hex_byte_inj (a b : ascii) (s t : string) :
  hex_byte a ++ s = hex_byte b ++ t -> a = b /\ s = t.
Proof.
  unfold hex_byte. cbv zeta.
  pose proof (nat_ascii_bounded a) as Ba.
  pose proof (nat_ascii_bounded b) as Bb.
  assert (Da : nat_of_ascii a / 16 < 16)
    by (apply Nat.Div0.div_lt_upper_bound; lia).
  assert (Db : nat_of_ascii b / 16 < 16)
    by (apply Nat.Div0.div_lt_upper_bound; lia).
  assert (Ma : nat_of_ascii a mod 16 < 16) by (apply Nat.mod_upper_bound; lia).
  assert (Mb : nat_of_ascii b mod 16 < 16) by (apply Nat.mod_upper_bound; lia).
  pose proof (Nat.div_mod_eq (nat_of_ascii a) 16) as Ea.
  pose proof (Nat.div_mod_eq (nat_of_ascii b) 16) as Eb.
  set (ha := nat_of_ascii a / 16) in *.
  set (hb := nat_of_ascii b / 16) in *.
  set (la := nat_of_ascii a mod 16) in *.
  set (lb := nat_of_ascii b mod 16) in *.
  clearbody ha hb la lb.
  cbn [append]. intro H. injection H as Hhi Hlo Hst.
  apply hex_digit_inj in Hhi; [|assumption|assumption].
  apply hex_digit_inj in Hlo; [|assumption|assumption].
  split; [|exact Hst].
  rewrite <- (ascii_nat_embedding a), <- (ascii_nat_embedding b).
  f_equal. lia.
Qed.

Lemma hex_inj (l1 : list ascii) :
  forall l2 s1 s2,
    List.length l1 = List.length l2 ->
    hex l1 ++ s1 = hex l2 ++ s2 -> l1 = l2 /\ s1 = s2.
Proof.
  induction l1 as [|a l1 IH]; intros [|b l2] s1 s2 Hlen H;
    try discriminate Hlen.
  - split; [reflexivity | exact H].
  - cbn [hex] in H. rewrite !append_assoc in H.
    apply hex_byte_inj in H as [-> H].
    injection Hlen as Hlen.
    destruct (IH l2 s1 s2 Hlen H) as [-> ->]. split; reflexivity.
Qed.

Lemma hex_inj_nil (l1 l2 : list ascii) :
  List.length l1 = List.length l2 -> hex l1 = hex l2 -> l1 = l2.
Proof.
  intros Hlen H.
  apply (hex_inj l1 l2 EmptyString EmptyString Hlen).
  rewrite !append_nil_r. exact H.
Qed.

Lemma dash_inj (s t : string) : "-" ++ s = "-" ++ t -> s = t.
Proof.
  cbn [append]. intro H. injection H as H. exact H.
Qed.

Lemma rand_buffer_length (os : Platform) :
  List.length (firstn 16 (rand_bytes os ++ repeat Ascii.zero 16)) = 16.
Proof.
  rewrite length_firstn, length_app, repeat_length. lia.
Qed.

Ltac sixteen b H :=
  do 16 (destruct b as [|? b]; [discriminate H|]);
  destruct b; [|discriminate H].

(** X3.  Whatever [rand.Read] delivers, [generateUUID] returns 36 bytes in
    the 8-4-4-4-12 layout: a hyphen at the offsets 8, 13, 18 and 23 and a
    lower-case hexadecimal digit everywhere else. *)
Theorem generateUUID_layout (os : Platform) :
  String.length (Resolve.generateUUID os) = 36
  /\ forall i c,
       String.get i (Resolve.generateUUID os) = Some c ->
       if existsb (Nat.eqb i) [8; 13; 18; 23]
       then c = "-"%char
       else isHexDigit c = true.
Proof.
  unfold Resolve.generateUUID.
  pose proof (rand_buffer_length os) as Hlen.
  set (b := firstn 16 (rand_bytes os ++ repeat Ascii.zero 16)) in *.
  clearbody b. sixteen b Hlen. clear Hlen.
  cbn [sub firstn skipn Nat.sub hex].
  repeat match goal with
         | |- context [hex_byte ?x] =>
             let h := fresh "h" in
             let l := fresh "l" in
             let Hh := fresh "Hh" in
             let Hl := fresh "Hl" in
             destruct (hex_byte_shape x) as (h & l & -> & Hh & Hl)
         end.
  cbn [append]. split; [reflexivity|].
  intros i c.
  do 36 (destruct i as [|i];
         [cbn; intro H; injection H as <-; first [reflexivity | assumption]|]).
  cbn. discriminate.
Qed.

(** X4.  When [rand.Read] delivers its 16 bytes, different bytes give
    different identifiers: the text determines the bytes. *)
Theorem generateUUID_injective (os1 os2 : Platform) :
  List.length (rand_bytes os1) = 16 ->
  List.length (rand_bytes os2) = 16 ->
  rand_bytes os1 <> rand_bytes os2 ->
  Resolve.generateUUID os1 <> Resolve.generateUUID os2.
Proof.
  intros H1 H2 Hne Heq. apply Hne. clear Hne.
  unfold Resolve.generateUUID in Heq.
  rewrite !firstn_app, H1, H2, !firstn_all2 in Heq by lia.
  cbn [Nat.sub firstn repeat] in Heq. rewrite !app_nil_r in Heq.
  destruct (rand_bytes os1) as [|? b1]; [discriminate H1|].
  destruct (rand_bytes os2) as [|? b2]; [discriminate H2|].
  do 15 (destruct b1 as [|? b1]; [discriminate H1|]).
  destruct b1; [|discriminate H1].
  do 15 (destruct b2 as [|? b2]; [discriminate H2|]).
  destruct b2; [|discriminate H2].
  cbn [sub firstn skipn Nat.sub] in Heq.
  apply hex_inj in Heq as [E1 Heq]; [|reflexivity].
  apply dash_inj in Heq.
  apply hex_inj in Heq as [E2 Heq]; [|reflexivity].
  apply dash_inj in Heq.
  apply hex_inj in Heq as [E3 Heq]; [|reflexivity].
  apply dash_inj in Heq.
  apply hex_inj in Heq as [E4 Heq]; [|reflexivity].
  apply dash_inj in Heq.
  apply hex_inj_nil in Heq; [|reflexivity].
  congruence.
Qed.

Lemma generateUUID_injective_witness :
  Resolve.generateUUID (withRand (repeat "a"%char 16) Demo.bare)
  <> Resolve.generateUUID (withRand (repeat "b"%char 16) Demo.bare).
Proof.
  apply generateUUID_injective; [reflexivity | reflexivity | discriminate].
Defined.

(** ** When the bootstrap panics *)

Lemma index0_Split (s sep : string) :
  exists p, index (Split s sep) 0 = Ok p.
Proof.
  unfold Split.
  pose proof (split_go_nonempty sep s 0 EmptyString) as H.
  destruct (split_go sep 0 EmptyString s) as [|p ps]; [congruence|].
  exists p. reflexivity.
Qed.

Lemma getContainerImageName_ok (os : Platform) :
  exists name, Resolve.getContainerImageName os = Ok name.
Proof.
  unfold Resolve.getContainerImageName.
  destruct (nonempty (Getenv os "CONTAINER_IMAGE")); [apply index0_Split|].
  destruct (nonempty (Getenv os "IMAGE_NAME")); [apply index0_Split|].
  exists EmptyString. reflexivity.
Qed.

Lemma slice_to_panic_iff (s : string) (n : nat) :
  slice_to s n = Panic <-> String.length s < n.
Proof.
  unfold slice_to. destruct (Nat.leb_spec n (String.length s)) as [Hle|Hlt];
    split; intro E; try discriminate; try reflexivity; lia.
Qed.

Lemma generateInstanceID_panic (os : Platform) :
  Resolve.generateInstanceID os = Panic
  <-> Getenv os "SERVICE_INSTANCE_ID" = EmptyString
      /\ (Resolve.getContainerID os = Panic
          \/ exists cid,
               Resolve.getContainerID os = Ok cid
               /\ cid <> EmptyString /\ String.length cid < 12).
Proof.
  unfold Resolve.generateInstanceID.
  destruct (nonempty (Getenv os "SERVICE_INSTANCE_ID")) eqn:Eid.
  - split; [discriminate|]. intros [H _].
    apply nonempty_true in Eid. contradiction.
  - apply nonempty_false in Eid.
    destruct (Resolve.getContainerID os) as [cid|]; cbn [rbind].
    + destruct (nonempty cid) eqn:Ec.
      * rewrite slice_to_panic_iff. apply nonempty_true in Ec. split.
        -- intro H. split; [exact Eid|]. right. exists cid. auto.
        -- intros [_ [H | (c & Hc & _ & Hlt)]]; [discriminate|].
           injection Hc as <-. exact Hlt.
      * apply nonempty_false in Ec. split.
        -- destruct (nonempty (Resolve.getK8sPodUID os)); [discriminate|].
           destruct (Hostname os) as [h [e|]]; discriminate.
        -- intros [_ [H | (c & Hc & Hne & _)]]; [discriminate|].
           injection Hc as <-. contradiction.
    + split; auto.
Qed.

Lemma resourceAttributes_panic (os : Platform) (cfg : Config) :
  Resolve.resourceAttributes os cfg = Panic
  <-> Resolve.getContainerID os = Panic
      \/ (ServiceInstanceID cfg = EmptyString
          /\ Getenv os "SERVICE_INSTANCE_ID" = EmptyString
          /\ exists cid,
               Resolve.getContainerID os = Ok cid
               /\ cid <> EmptyString /\ String.length cid < 12).
Proof.
  unfold Resolve.resourceAttributes, Resolve.instanceIDOf.
  destruct (getContainerImageName_ok os) as [img ->].
  pose proof (generateInstanceID_panic os) as G.
  destruct (nonempty (ServiceInstanceID cfg)) eqn:Ecfg; cbn [rbind].
  - apply nonempty_true in Ecfg.
    destruct (Resolve.getContainerID os) as [cid|]; cbn [rbind].
    + split; [discriminate|]. intros [H | [H _]]; [discriminate | contradiction].
    + split; auto.
  - apply nonempty_false in Ecfg.
    destruct (Resolve.generateInstanceID os) as [iid|]; cbn [rbind].
    + destruct (Resolve.getContainerID os) as [cid|]; cbn [rbind].
      * split; [discriminate|].
        intros [H | (_ & Hid & Hex)]; [discriminate|].
        assert (P : @Ok string iid = Panic) by (apply G; auto).
        discriminate P.
      * split; auto.
    + destruct (proj1 G eq_refl) as [Hid [H | H]]; split; auto.
Qed.

Section BootstrapTotal.

Variable W : Type.
Variable sdk : Lifecycle.SDK W.
Variable os : Platform.

Ltac run_sdk :=
  unfold Lifecycle.bind, Lifecycle.sdk_call, Lifecycle.sdk_do,
    Lifecycle.log, Lifecycle.ret;
  cbn [Lifecycle.world Lifecycle.calls].

Lemma setupTraceProvider_returns tp st :
  exists r st', Lifecycle.setupTraceProvider sdk tp st = Ok (r, st').
Proof.
  unfold Lifecycle.setupTraceProvider. run_sdk.
  destruct (Lifecycle.otlptracehttp_New sdk _ (Lifecycle.world st))
    as [w1 [e|]]; eexists; eexists; reflexivity.
Qed.

Lemma setupMetricsWith_returns tp readers st :
  exists r st', Lifecycle.setupMetricsWith sdk tp readers st = Ok (r, st').
Proof.
  unfold Lifecycle.setupMetricsWith. run_sdk.
  destruct (Lifecycle.otlpmetrichttp_New sdk _ (Lifecycle.world st))
    as [w1 [e|]]; eexists; eexists; reflexivity.
Qed.

Lemma setupMetricsProvider_returns tp st :
  exists r st', Lifecycle.setupMetricsProvider sdk tp st = Ok (r, st').
Proof.
  unfold Lifecycle.setupMetricsProvider.
  destruct (EnablePrometheus (Lifecycle.Config_ tp));
    [|apply setupMetricsWith_returns].
  unfold Lifecycle.bind at 1. unfold Lifecycle.sdk_call.
  destruct (Lifecycle.prometheus_New sdk (Lifecycle.world st)) as [w1 [e|]].
  - eexists. eexists. reflexivity.
  - apply setupMetricsWith_returns.
Qed.

Lemma setupLoggingProvider_returns tp st :
  exists r st', Lifecycle.setupLoggingProvider sdk tp st = Ok (r, st').
Proof.
  unfold Lifecycle.setupLoggingProvider. run_sdk.
  destruct (Lifecycle.otlploghttp_New sdk _ (Lifecycle.world st))
    as [w1 [e|]]; eexists; eexists; reflexivity.
Qed.

Lemma createResource_panic tp st :
  Lifecycle.createResource sdk os tp st = Panic
  <-> Resolve.resourceAttributes os (Lifecycle.Config_ tp) = Panic.
Proof.
  unfold Lifecycle.createResource, Lifecycle.bind, Lifecycle.lift,
    Lifecycle.sdk_call, Resolve.validAttributes.
  destruct (Resolve.resourceAttributes os (Lifecycle.Config_ tp)) as [a|];
    cbn [rbind].
  - destruct (Lifecycle.resource_New sdk _ (Lifecycle.world st)).
    split; discriminate.
  - split; reflexivity.
Qed.

Lemma NewTelemetryProvider_panic config st :
  Lifecycle.NewTelemetryProvider sdk os config st = Panic
  <-> Resolve.resourceAttributes os (Resolve.orDefault os config) = Panic.
Proof.
  rewrite <- (createResource_panic (Lifecycle.newProvider W os config) st).
  unfold Lifecycle.NewTelemetryProvider.
  unfold Lifecycle.bind at 1.
  destruct (Lifecycle.createResource sdk os _ st)
    as [[[res [e|]] st1]|]; [split; discriminate | | split; reflexivity].
  unfold Lifecycle.bind at 1.
  destruct (setupTraceProvider_returns
              (Lifecycle.setResource (Lifecycle.newProvider W os config) res)
              st1) as ([tp1 [e|]] & st2 & ->); [split; discriminate|].
  unfold Lifecycle.bind at 1.
  destruct (setupMetricsProvider_returns tp1 st2)
    as ([tp2 [e|]] & st3 & ->); [split; discriminate|].
  unfold Lifecycle.bind at 1.
  destruct (setupLoggingProvider_returns tp2 st3)
    as ([tp3 [e|]] & st4 & ->); split; discriminate.
Qed.

End BootstrapTotal.

(** X5.  [NewTelemetryProvider] panics in exactly two situations, both in
    the container ID handling of [createResource]: [getContainerID] panics
    (a short Docker line in the cgroup file), or no instance ID is given by
    the [Config] or by [SERVICE_INSTANCE_ID] and the container ID is not
    empty but shorter than 12 bytes.  Nothing else in the bootstrap
    panics. *)
Theorem bootstrap_panics_iff (W : Type) (sdk : Lifecycle.SDK W)
    (os : Platform) (config : option Config) (st : Lifecycle.State W) :
  Lifecycle.NewTelemetryProvider sdk os config st = Panic
  <-> Resolve.getContainerID os = Panic
      \/ (ServiceInstanceID (Resolve.orDefault os config) = EmptyString
          /\ Getenv os "SERVICE_INSTANCE_ID" = EmptyString
          /\ exists cid,
               Resolve.getContainerID os = Ok cid
               /\ cid <> EmptyString /\ String.length cid < 12).
Proof.
  rewrite NewTelemetryProvider_panic. apply resourceAttributes_panic.
Qed.

(** ** The container ID read from the cgroup file *)



(** ** The attribute list as a map *)

Lemma attr_lookup_none (k : string) (l : list KeyValue) :
  attr_lookup k l = None <-> ~ In k (map Key l).
Proof.
  induction l as [|a l IH]; simpl; [tauto|].
  destruct (String.eqb_spec (Key a) k) as [E|E].
  - split; [discriminate | intro H; exfalso; apply H; auto].
  - rewrite IH. split; [intros H [H1|H1]; auto | tauto].
Qed.

Lemma attr_lookup_In (l : list KeyValue) :
  NoDup (map Key l) ->
  forall kv, In kv l -> attr_lookup (Key kv) l = Some (Val kv).
Proof.
  induction l as [|a l IH]; simpl; intros Hnd kv Hin; [contradiction|].
  inversion Hnd as [|x xs Hni Hnd']; subst.
  destruct Hin as [-> | Hin].
  - rewrite String.eqb_refl. reflexivity.
  - destruct (String.eqb_spec (Key a) (Key kv)) as [E|E].
    + exfalso. apply Hni. rewrite E. apply in_map. exact Hin.
    + apply IH; assumption.
Qed.

Lemma filterEmpty_keys_incl (l : list KeyValue) (k : string) :
  In k (map Key (Resolve.filterEmpty l)) -> In k (map Key l).
Proof.
  intro H. apply in_map_iff in H as (kv & <- & Hin).
  apply filterEmpty_In in Hin as [Hin _]. apply in_map. exact Hin.
Qed.

Lemma filterEmpty_NoDup (l : list KeyValue) :
  NoDup (map Key l) -> NoDup (map Key (Resolve.filterEmpty l)).
Proof.
  induction l as [|a l IH]; simpl; intro H; [constructor|].
  inversion H as [|x xs Hni Hnd]; subst.
  destruct (nonempty (AsString (Val a))); simpl; auto.
  constructor; auto. intro Hin. apply Hni.
  apply filterEmpty_keys_incl. exact Hin.
Qed.

Lemma filterEmpty_length (l : list KeyValue) :
  List.length (Resolve.filterEmpty l) <= List.length l.
Proof.
  induction l as [|a l IH]; simpl; [lia|].
  destruct (nonempty (AsString (Val a))); simpl; lia.
Qed.

(** The value under [k] after the filter, for a list with distinct keys. *)
Lemma attr_lookup_filterEmpty_In (l : list KeyValue) (k v : string) :
  NoDup (map Key l) ->
  In (attribute_String k v) l ->
  attr_lookup k (Resolve.filterEmpty l) = present v.
Proof.
  intros Hnd Hin. unfold present.
  destruct (nonempty v) eqn:E.
  - apply (attr_lookup_In _ (filterEmpty_NoDup l Hnd) (attribute_String k v)).
    apply filterEmpty_In. split; [exact Hin|].
    apply nonempty_true. exact E.
  - apply attr_lookup_none. intro Hk.
    apply in_map_iff in Hk as (kv & Hkey & Hkv).
    apply filterEmpty_In in Hkv as [Hkv Hne].
    assert (Hval : Some (Val kv) = Some (STRING v)).
    { rewrite <- (attr_lookup_In l Hnd kv Hkv), Hkey.
      apply (attr_lookup_In l Hnd (attribute_String k v) Hin). }
    injection Hval as Hval. rewrite Hval in Hne. simpl in Hne.
    apply nonempty_false in E. contradiction.
Qed.

(** The slice literal of [createResource], with its three fallible parts
    named. *)
Lemma resourceAttributes_list (os : Platform) (cfg : Config)
    (built : list KeyValue) :
  Resolve.resourceAttributes os cfg = Ok built ->
  exists instanceID containerID imageName,
    Resolve.instanceIDOf os cfg = Ok instanceID
    /\ Resolve.getContainerID os = Ok containerID
    /\ Resolve.getContainerImageName os = Ok imageName
    /\ Resolve.resourceAttributes os cfg
       = Ok [ semconv.ServiceName (ServiceName cfg);
              semconv.ServiceVersion (ServiceVersion cfg);
              semconv.ServiceInstanceID instanceID;
              attribute_String "service.namespace" (ServiceNamespace cfg);
              semconv.DeploymentEnvironmentName (Environment cfg);
              semconv.TelemetrySDKName "opentelemetry";
              attribute_String "telemetry.sdk.language" "go";
              semconv.TelemetrySDKVersion (otel_Version os);
              attribute_String "service.build.time"
                (Resolve.orElse (BuildTime cfg) (Resolve.getBuildTime os));
              attribute_String "service.build.commit"
                (Resolve.orElse (GitCommit cfg) (Resolve.getGitCommit os));
              attribute_String "service.build.branch"
                (Resolve.orElse (GitBranch cfg) (Resolve.getGitBranch os));
              attribute_String "process.runtime.name" (runtime_Compiler os);
              attribute_String "process.runtime.version" (runtime_Version os);
              attribute_String "process.runtime.description"
                (Resolve.getRuntimeDescription os);
              attribute_String "container.id" containerID;
              attribute_String "container.name" (Resolve.getContainerName os);
              attribute_String "container.image.name" imageName;
              attribute_String "container.image.tag"
                (Resolve.getContainerImageTag os);
              attribute_String "k8s.pod.name" (Resolve.getK8sPodName os);
              attribute_String "k8s.pod.uid" (Resolve.getK8sPodUID os);
              attribute_String "k8s.namespace.name" (Resolve.getK8sNamespace os);
              attribute_String "k8s.node.name" (Resolve.getK8sNodeName os);
              attribute_String "k8s.deployment.name"
                (Resolve.getK8sDeployment os);
              attribute_String "cloud.provider" (Resolve.getCloudProvider os);
              attribute_String "cloud.platform" (Resolve.getCloudPlatform os);
              attribute_String "cloud.region" (Resolve.getCloudRegion os);
              attribute_String "cloud.availability_zone"
                (Resolve.getCloudAZ os);
              attribute_String "cloud.account.id"
                (Resolve.getCloudAccountID os);
              attribute_String "service.team"
                (Resolve.orElse (ServiceTeam cfg) (Resolve.getServiceTeam os));
              attribute_String "service.owner"
                (Resolve.orElse (ServiceOwner cfg)
                   (Resolve.getServiceOwner os)) ].
Proof.
  unfold Resolve.resourceAttributes, rbind.
  destruct (Resolve.instanceIDOf os cfg) as [iid|]; [|discriminate].
  destruct (Resolve.getContainerID os) as [cid|]; [|discriminate].
  destruct (Resolve.getContainerImageName os) as [img|]; [|discriminate].
  intros _. exists iid, cid, img. repeat split; reflexivity.
Qed.

Lemma resourceAttributes_NoDup (os : Platform) (cfg : Config)
    (built : list KeyValue) :
  Resolve.resourceAttributes os cfg = Ok built ->
  List.length built = 30 /\ NoDup (map Key built).
Proof.
  intro H.
  destruct (resourceAttributes_list os cfg built H)
    as (iid & cid & img & _ & _ & _ & E).
  rewrite H in E. injection E as ->.
  split; [reflexivity|].
  cbn [map Key attribute_String semconv.ServiceName semconv.ServiceVersion
       semconv.ServiceInstanceID semconv.DeploymentEnvironmentName
       semconv.TelemetrySDKName semconv.TelemetrySDKVersion].
  repeat (constructor;
          [cbn [In]; intro Hin;
           repeat (destruct Hin as [Hin | Hin]; [discriminate Hin|]);
           exact Hin|]).
  constructor.
Qed.

(** X7.  The attributes that [createResource] passes to [resource.New] have
    pairwise distinct keys, at most 30 of them, so every attribute passed
    is found under its key; and of the 30 attributes built, one is passed
    exactly when its value is not empty. *)
Theorem createResource_attributes_form_a_map (os : Platform) (cfg : Config)
    (built valid : list KeyValue) :
  Resolve.resourceAttributes os cfg = Ok built ->
  Resolve.validAttributes os cfg = Ok valid ->
  NoDup (map Key valid)
  /\ List.length valid <= 30
  /\ (forall kv, In kv valid -> attr_lookup (Key kv) valid = Some (Val kv))
  /\ (forall k v, In (attribute_String k v) built ->
                  attr_lookup k valid = present v).
Proof.
  intros Hb Hv.
  apply validAttributes_inv in Hv as (built' & Hb' & ->).
  rewrite Hb in Hb'. injection Hb' as <-.
  destruct (resourceAttributes_NoDup os cfg built Hb) as [Hlen Hnd].
  pose proof (filterEmpty_NoDup built Hnd) as Hnd'.
  repeat split.
  - exact Hnd'.
  - rewrite <- Hlen. apply filterEmpty_length.
  - apply attr_lookup_In. exact Hnd'.
  - intros k v Hin. apply attr_lookup_filterEmpty_In; assumption.
Qed.

Lemma createResource_attributes_form_a_map_witness :
  exists built valid,
    Resolve.resourceAttributes Demo.checkoutEnv Demo.zeroConfig = Ok built
    /\ Resolve.validAttributes Demo.checkoutEnv Demo.zeroConfig = Ok valid
    /\ NoDup (map Key valid)
    /\ List.length valid <= 30.
Proof.
  eexists. eexists.
  assert (Hb : Resolve.resourceAttributes Demo.checkoutEnv Demo.zeroConfig
               = Ok _) by reflexivity.
  assert (Hv : Resolve.validAttributes Demo.checkoutEnv Demo.zeroConfig
               = Ok _) by reflexivity.
  destruct (createResource_attributes_form_a_map _ _ _ _ Hb Hv)
    as (H1 & H2 & _).
  split; [exact Hb|]. split; [exact Hv|]. split; [exact H1 | exact H2].
Defined.

(** ** Precedence of the sources of an attribute *)

Lemma firstEnv_firstNonEmpty (os : Platform) (keys : list string)
    (dflt : string) :
  Resolve.firstEnv os keys dflt = firstNonEmpty (map (Getenv os) keys) dflt.
Proof.
  induction keys as [|k keys IH]; simpl; [reflexivity|].
  rewrite IH. reflexivity.
Qed.

Lemma firstNonEmpty_nonempty (l : list string) (d : string) :
  nonempty d = true -> nonempty (firstNonEmpty l d) = true.
Proof.
  intro H. induction l as [|x l IH]; simpl; [exact H|].
  destruct (nonempty x) eqn:E; [exact E | exact IH].
Qed.

Lemma present_nonempty (v : string) :
  nonempty v = true -> present v = Some (STRING v).
Proof.
  intro H. unfold present. rewrite H. reflexivity.
Qed.

Ltac in_list := repeat first [left; reflexivity | right].

(** X8.  For the build and ownership attributes an explicit non-empty
    [Config] field wins, an empty one falls back to the environment
    variables in their fixed order, and the attribute is left out when all
    of them are empty. *)
Theorem build_and_owner_precedence (os : Platform) (cfg : Config)
    (valid : list KeyValue) :
  Resolve.validAttributes os cfg = Ok valid ->
  attr_lookup "service.build.time" valid
  = present (firstNonEmpty
               [BuildTime cfg; Getenv os "BUILD_TIME";
                Getenv os "SOURCE_DATE_EPOCH"] EmptyString)
  /\ attr_lookup "service.build.commit" valid
     = present (firstNonEmpty
                  [GitCommit cfg; Getenv os "GIT_COMMIT";
                   Getenv os "BUILD_COMMIT"; Getenv os "VCS_REF"] EmptyString)
  /\ attr_lookup "service.build.branch" valid
     = present (firstNonEmpty
                  [GitBranch cfg; Getenv os "GIT_BRANCH";
                   Getenv os "BUILD_BRANCH"] EmptyString)
  /\ attr_lookup "service.team" valid
     = present (firstNonEmpty
                  [ServiceTeam cfg; Getenv os "SERVICE_TEAM";
                   Getenv os "TEAM"] EmptyString)
  /\ attr_lookup "service.owner" valid
     = present (firstNonEmpty
                  [ServiceOwner cfg; Getenv os "SERVICE_OWNER";
                   Getenv os "OWNER"] EmptyString).
Proof.
  intro Hv.
  apply validAttributes_inv in Hv as (built & Hb & ->).
  destruct (resourceAttributes_NoDup os cfg built Hb) as [_ Hnd].
  destruct (resourceAttributes_list os cfg built Hb)
    as (iid & cid & img & _ & _ & _ & E).
  rewrite Hb in E. injection E as E.
  repeat split;
    (apply attr_lookup_filterEmpty_In; [exact Hnd|]; rewrite E; in_list).
Qed.

Lemma build_and_owner_precedence_witness :
  exists valid,
    Resolve.validAttributes
      (Demo.withEnv [("TEAM", "platform")] Demo.bare) Demo.zeroConfig
    = Ok valid
    /\ attr_lookup "service.team" valid = Some (STRING "platform").
Proof.
  eexists.
  assert (Hv : Resolve.validAttributes
                 (Demo.withEnv [("TEAM", "platform")] Demo.bare)
                 Demo.zeroConfig = Ok _) by reflexivity.
  split; [exact Hv|].
  exact (proj1 (proj2 (proj2 (proj2
           (build_and_owner_precedence _ _ _ Hv))))).
Defined.

(** X9.  With a nil [Config] the service name, version and environment are
    never missing: each is the first non-empty of its environment
    variables, in their fixed order, and a built-in default after them;
    the namespace has no default and is left out when both of its
    variables are empty. *)
Theorem nil_config_identity (os : Platform) (valid : list KeyValue) :
  Resolve.validAttributes os (Resolve.orDefault os None) = Ok valid ->
  attr_lookup "service.name" valid
  = Some (STRING (firstNonEmpty
                    [Getenv os "SERVICE_NAME"; Getenv os "OTEL_SERVICE_NAME"]
                    "otel-lgtm-api"))
  /\ attr_lookup "service.version" valid
     = Some (STRING (firstNonEmpty
                       [Getenv os "SERVICE_VERSION";
                        Getenv os "OTEL_SERVICE_VERSION"] "dev"))
  /\ attr_lookup "deployment.environment.name" valid
     = Some (STRING (firstNonEmpty
                       [Getenv os "ENVIRONMENT";
                        Getenv os "DEPLOYMENT_ENVIRONMENT";
                        Getenv os "OTEL_DEPLOYMENT_ENVIRONMENT"]
                       "development"))
  /\ attr_lookup "service.namespace" valid
     = present (firstNonEmpty
                  [Getenv os "SERVICE_NAMESPACE";
                   Getenv os "OTEL_SERVICE_NAMESPACE"] EmptyString).
Proof.
  intro Hv. cbn [Resolve.orDefault] in Hv.
  apply validAttributes_inv in Hv as (built & Hb & ->).
  destruct (resourceAttributes_NoDup os _ built Hb) as [_ Hnd].
  destruct (resourceAttributes_list os _ built Hb)
    as (iid & cid & img & _ & _ & _ & E).
  rewrite Hb in E. injection E as E.
  repeat split.
  - rewrite <- present_nonempty
      by (apply firstNonEmpty_nonempty; reflexivity).
    apply attr_lookup_filterEmpty_In; [exact Hnd|]. rewrite E. in_list.
  - rewrite <- present_nonempty
      by (apply firstNonEmpty_nonempty; reflexivity).
    apply attr_lookup_filterEmpty_In; [exact Hnd|]. rewrite E. in_list.
  - rewrite <- present_nonempty
      by (apply firstNonEmpty_nonempty; reflexivity).
    apply attr_lookup_filterEmpty_In; [exact Hnd|]. rewrite E. in_list.
  - apply attr_lookup_filterEmpty_In; [exact Hnd|]. rewrite E. in_list.
Qed.

Lemma nil_config_identity_witness :
  exists valid,
    Resolve.validAttributes
      (Demo.withEnv [("OTEL_SERVICE_NAME", "cart")] Demo.bare)
      (Resolve.orDefault
         (Demo.withEnv [("OTEL_SERVICE_NAME", "cart")] Demo.bare) None)
    = Ok valid
    /\ attr_lookup "service.name" valid = Some (STRING "cart").
Proof.
  eexists.
  assert (Hv : Resolve.validAttributes
                 (Demo.withEnv [("OTEL_SERVICE_NAME", "cart")] Demo.bare)
                 (Resolve.orDefault
                    (Demo.withEnv [("OTEL_SERVICE_NAME", "cart")] Demo.bare)
                    None) = Ok _) by reflexivity.
  split; [exact Hv|].
  exact (proj1 (nil_config_identity _ _ Hv)).
Defined.

(** ** An empty instance ID *)

Lemma generateUUID_nonempty (os : Platform) :
  nonempty (Resolve.generateUUID os) = true.
Proof.
  unfold Resolve.generateUUID. cbv zeta.
  destruct (hex _); reflexivity.
Qed.

(** X10.  The instance ID that [createResource] resolves is empty, and the
    [service.instance.id] attribute therefore left out, in one situation
    only: nothing is configured, there is no container ID and no pod UID,
    and [os.Hostname] returns an empty name without an error. *)
Theorem instance_id_empty_iff (os : Platform) (cfg : Config) :
  Resolve.instanceIDOf os cfg = Ok EmptyString
  <-> ServiceInstanceID cfg = EmptyString
      /\ Getenv os "SERVICE_INSTANCE_ID" = EmptyString
      /\ Resolve.getContainerID os = Ok EmptyString
      /\ Resolve.getK8sPodUID os = EmptyString
      /\ Hostname os = (EmptyString, None).
Proof.
  unfold Resolve.instanceIDOf, Resolve.generateInstanceID. split.
  - destruct (nonempty (ServiceInstanceID cfg)) eqn:E1.
    { intro H. injection H as H. rewrite H in E1. discriminate. }
    destruct (nonempty (Getenv os "SERVICE_INSTANCE_ID")) eqn:E2.
    { intro H. injection H as H. rewrite H in E2. discriminate. }
    apply nonempty_false in E1, E2.
    destruct (Resolve.getContainerID os) as [cid|]; [|discriminate].
    cbn [rbind]. destruct (nonempty cid) eqn:E3.
    { intro H. apply slice_to_inv in H as [Hle Hs].
      pose proof (substring_length 12 cid Hle) as L.
      rewrite <- Hs in L. discriminate L. }
    apply nonempty_false in E3. subst cid.
    destruct (nonempty (Resolve.getK8sPodUID os)) eqn:E4.
    { intro H. injection H as H. rewrite H in E4. discriminate. }
    apply nonempty_false in E4.
    destruct (Hostname os) as [h [e|]].
    + intro H. injection H as H.
      pose proof (generateUUID_nonempty os) as N. rewrite H in N.
      discriminate.
    + intro H. injection H as ->. auto.
  - intros (-> & -> & -> & -> & ->). reflexivity.
Qed.

(** ** The handle a bootstrap returns *)

Section BootstrapShape.

Variable W : Type.
Variable sdk : Lifecycle.SDK W.
Variable os : Platform.

Local Open Scope list_scope.

Local Notation "'mkState' w c" :=
  {| Lifecycle.world := w; Lifecycle.calls := c |}
  (at level 10, w at level 9, c at level 9).

Lemma createResource_eq tp st :
  Lifecycle.createResource sdk os tp st
  = match Resolve.validAttributes os (Lifecycle.Config_ tp) with
    | Ok valid =>
        let (w, r) :=
          Lifecycle.resource_New sdk valid (Lifecycle.world st) in
        Ok (r, mkState w (Lifecycle.calls st))
    | Panic => Panic
    end.
Proof.
  unfold Lifecycle.createResource, Lifecycle.bind, Lifecycle.lift,
    Lifecycle.sdk_call.
  destruct (Resolve.validAttributes os (Lifecycle.Config_ tp)); reflexivity.
Qed.

Lemma setupTraceProvider_eq tp st :
  Lifecycle.setupTraceProvider sdk tp st
  = let cfg := Lifecycle.Config_ tp in
    let p := tracerProviderOf (Lifecycle.resourceOf tp) cfg in
    let (w, err) :=
      Lifecycle.otlptracehttp_New sdk (otlpOptions (TraceEndpoint cfg))
        (Lifecycle.world st) in
    match err with
    | Some e =>
        Ok ((tp, Some ("failed to create trace exporter: " ++ e)%string),
            mkState w (Lifecycle.calls st))
    | None =>
        Ok ((Lifecycle.appendShutdown (Lifecycle.setTracerProvider tp p)
               {| Lifecycle.owner := Trace;
                  Lifecycle.call := Lifecycle.TracerProvider_Shutdown sdk p |},
             None),
            mkState
              (Lifecycle.otel_SetTracerProvider sdk p
                 (Lifecycle.NewTracerProvider sdk p w))
              (Lifecycle.calls st ++ [Started Trace]))
    end.
Proof.
  unfold Lifecycle.setupTraceProvider, Lifecycle.bind, Lifecycle.sdk_call,
    Lifecycle.sdk_do, Lifecycle.log, Lifecycle.ret.
  cbv zeta.
  destruct (Lifecycle.otlptracehttp_New sdk _ (Lifecycle.world st))
    as [w [e|]]; reflexivity.
Qed.

Lemma setupMetricsProvider_eq tp st :
  Lifecycle.setupMetricsProvider sdk tp st
  = let cfg := Lifecycle.Config_ tp in
    let p := meterProviderOf (Lifecycle.resourceOf tp) cfg in
    let (w0, perr) :=
      if EnablePrometheus cfg
      then Lifecycle.prometheus_New sdk (Lifecycle.world st)
      else (Lifecycle.world st, None) in
    match perr with
    | Some e =>
        Ok ((tp, Some ("failed to create prometheus exporter: " ++ e)%string),
            mkState w0 (Lifecycle.calls st))
    | None =>
        let (w, err) :=
          Lifecycle.otlpmetrichttp_New sdk
            (otlpOptions (MetricsEndpoint cfg)) w0 in
        match err with
        | Some e =>
            Ok ((tp, Some ("failed to create OTLP metrics exporter: "
                             ++ e)%string),
                mkState w (Lifecycle.calls st))
        | None =>
            Ok ((Lifecycle.appendShutdown (Lifecycle.setMeterProvider tp p)
                   {| Lifecycle.owner := Metric;
                      Lifecycle.call :=
                        Lifecycle.MeterProvider_Shutdown sdk p |},
                 None),
                mkState
                  (Lifecycle.otel_SetMeterProvider sdk p
                     (Lifecycle.NewMeterProvider sdk p w))
                  (Lifecycle.calls st ++ [Started Metric]))
        end
    end.
Proof.
  unfold Lifecycle.setupMetricsProvider, meterProviderOf, metricReadersOf.
  cbv zeta.
  destruct (EnablePrometheus (Lifecycle.Config_ tp)).
  - unfold Lifecycle.bind at 1. unfold Lifecycle.sdk_call.
    destruct (Lifecycle.prometheus_New sdk (Lifecycle.world st))
      as [w0 [e|]]; [reflexivity|].
    unfold Lifecycle.setupMetricsWith, Lifecycle.bind, Lifecycle.sdk_call,
      Lifecycle.sdk_do, Lifecycle.log, Lifecycle.ret.
    cbn [Lifecycle.world Lifecycle.calls].
    destruct (Lifecycle.otlpmetrichttp_New sdk _ w0) as [w [e|]];
      reflexivity.
  - unfold Lifecycle.setupMetricsWith, Lifecycle.bind, Lifecycle.sdk_call,
      Lifecycle.sdk_do, Lifecycle.log, Lifecycle.ret.
    destruct (Lifecycle.otlpmetrichttp_New sdk _ (Lifecycle.world st))
      as [w [e|]]; reflexivity.
Qed.

Lemma setupLoggingProvider_eq tp st :
  Lifecycle.setupLoggingProvider sdk tp st
  = let cfg := Lifecycle.Config_ tp in
    let p := loggerProviderOf (Lifecycle.resourceOf tp) cfg in
    let (w, err) :=
      Lifecycle.otlploghttp_New sdk (otlpOptions (LogsEndpoint cfg))
        (Lifecycle.world st) in
    match err with
    | Some e =>
        Ok ((tp, Some ("failed to create log exporter: " ++ e)%string),
            mkState w (Lifecycle.calls st))
    | None =>
        Ok ((Lifecycle.appendShutdown (Lifecycle.setLoggerProvider tp p)
               {| Lifecycle.owner := Log;
                  Lifecycle.call := Lifecycle.LoggerProvider_Shutdown sdk p |},
             None),
            mkState
              (Lifecycle.global_SetLoggerProvider sdk p
                 (Lifecycle.NewLoggerProvider sdk p w))
              (Lifecycle.calls st ++ [Started Log]))
    end.
Proof.
  unfold Lifecycle.setupLoggingProvider, Lifecycle.bind, Lifecycle.sdk_call,
    Lifecycle.sdk_do, Lifecycle.log, Lifecycle.ret.
  cbv zeta.
  destruct (Lifecycle.otlploghttp_New sdk _ (Lifecycle.world st))
    as [w [e|]]; reflexivity.
Qed.

Ltac norm_state H :=
  cbv beta iota zeta
      delta [Lifecycle.setResource Lifecycle.appendShutdown
             Lifecycle.setTracerProvider Lifecycle.setMeterProvider
             Lifecycle.setLoggerProvider Lifecycle.newProvider
             Lifecycle.Config_ Lifecycle.Resource Lifecycle.resourceOf
             Lifecycle.TracerProvider Lifecycle.MeterProvider
             Lifecycle.LoggerProvider Lifecycle.shutdownFuncs] in H;
  cbn [Lifecycle.world Lifecycle.calls] in H.

(** The four steps of a bootstrap, as what each did to the world. *)
Lemma NewTelemetryProvider_steps (config : option Config)
    (st : Lifecycle.State W) :
  forall out st',
    Lifecycle.NewTelemetryProvider sdk os config st = Ok (out, st') ->
    let cfg := Resolve.orDefault os config in
    exists valid w1 res e1,
      Resolve.validAttributes os cfg = Ok valid
      /\ Lifecycle.resource_New sdk valid (Lifecycle.world st)
         = (w1, (res, e1))
      /\ match e1 with
         | Some e =>
             out = inr ("failed to create resource: " ++ e)%string
             /\ Lifecycle.calls st' = Lifecycle.calls st
         | None =>
             exists w2 e2,
               Lifecycle.otlptracehttp_New sdk
                 (otlpOptions (TraceEndpoint cfg)) w1 = (w2, e2)
               /\ match e2 with
                  | Some e =>
                      out = inr ("failed to setup trace provider: "
                                   ++ "failed to create trace exporter: "
                                   ++ e)%string
                      /\ Lifecycle.calls st' = Lifecycle.calls st
                  | None =>
                      exists e3,
                        (out = inr ("failed to setup metrics provider: "
                                      ++ "failed to create prometheus exporter: "
                                      ++ e3)%string
                         /\ EnablePrometheus cfg = true
                         /\ Lifecycle.calls st'
                            = Lifecycle.calls st ++ [Started Trace])
                        \/ (out = inr ("failed to setup metrics provider: "
                                         ++ "failed to create OTLP metrics exporter: "
                                         ++ e3)%string
                            /\ Lifecycle.calls st'
                               = Lifecycle.calls st ++ [Started Trace])
                        \/ (out = inr ("failed to setup logging provider: "
                                         ++ "failed to create log exporter: "
                                         ++ e3)%string
                            /\ Lifecycle.calls st'
                               = Lifecycle.calls st
                                   ++ [Started Trace; Started Metric])
                        \/ (out = inl (handleOf W sdk res cfg)
                            /\ Lifecycle.calls st'
                               = Lifecycle.calls st
                                   ++ [Started Trace; Started Metric;
                                       Started Log])
                  end
         end.
Proof.
  intros out st' H. cbv zeta.
  unfold Lifecycle.NewTelemetryProvider in H.
  unfold Lifecycle.bind at 1 in H. rewrite createResource_eq in H.
  norm_state H.
  destruct (Resolve.validAttributes os (Resolve.orDefault os config))
    as [valid|]; [|discriminate H].
  destruct (Lifecycle.resource_New sdk valid (Lifecycle.world st))
    as [w1 [res e1]] eqn:Hres.
  exists valid, w1, res, e1. split; [reflexivity|]. split; [first [exact Hres | reflexivity]|].
  destruct e1 as [e|].
  { unfold Lifecycle.ret in H. injection H as <- <-. auto. }
  unfold Lifecycle.bind at 1 in H. rewrite setupTraceProvider_eq in H.
  norm_state H.
  destruct (Lifecycle.otlptracehttp_New sdk _ w1) as [w2 e2] eqn:Ht.
  exists w2, e2. split; [first [exact Ht | reflexivity]|].
  destruct e2 as [e|].
  { unfold Lifecycle.ret in H. injection H as <- <-. auto. }
  unfold Lifecycle.bind at 1 in H. rewrite setupMetricsProvider_eq in H.
  norm_state H.
  destruct (EnablePrometheus (Resolve.orDefault os config)) eqn:Eprom.
  - destruct (Lifecycle.prometheus_New sdk _) as [w3 [e|]].
    { unfold Lifecycle.ret in H. injection H as <- <-.
      exists e. left. auto. }
    destruct (Lifecycle.otlpmetrichttp_New sdk _ w3) as [w4 [e|]].
    { unfold Lifecycle.ret in H. injection H as <- <-.
      exists e. right. left. auto. }
    unfold Lifecycle.bind at 1 in H. rewrite setupLoggingProvider_eq in H.
    norm_state H.
    destruct (Lifecycle.otlploghttp_New sdk _ _) as [w5 [e|]].
    { unfold Lifecycle.ret in H. injection H as <- <-.
      exists e. right. right. left.
      cbn [Lifecycle.calls]. rewrite <- !app_assoc. auto. }
    unfold Lifecycle.bind, Lifecycle.sdk_do, Lifecycle.ret in H.
    injection H as <- <-. exists EmptyString. right. right. right.
    cbn [Lifecycle.calls]. rewrite <- !app_assoc. split; reflexivity.
  - destruct (Lifecycle.otlpmetrichttp_New sdk _ _) as [w4 [e|]].
    { unfold Lifecycle.ret in H. injection H as <- <-.
      exists e. right. left. auto. }
    unfold Lifecycle.bind at 1 in H. rewrite setupLoggingProvider_eq in H.
    norm_state H.
    destruct (Lifecycle.otlploghttp_New sdk _ _) as [w5 [e|]].
    { unfold Lifecycle.ret in H. injection H as <- <-.
      exists e. right. right. left.
      cbn [Lifecycle.calls]. rewrite <- !app_assoc. auto. }
    unfold Lifecycle.bind, Lifecycle.sdk_do, Lifecycle.ret in H.
    injection H as <- <-. exists EmptyString. right. right. right.
    cbn [Lifecycle.calls]. rewrite <- !app_assoc. split; reflexivity.
Qed.

(** A bootstrap that returns an error, call by call: the constructor that
    failed, the world it was called on, and the state it left. *)
Lemma NewTelemetryProvider_failure (config : option Config)
    (st st' : Lifecycle.State W) (err : error) :
  Lifecycle.NewTelemetryProvider sdk os config st = Ok (inr err, st') ->
  let cfg := Resolve.orDefault os config in
  exists valid w1 res e1,
    Resolve.validAttributes os cfg = Ok valid
    /\ Lifecycle.resource_New sdk valid (Lifecycle.world st) = (w1, (res, e1))
    /\ match e1 with
       | Some e =>
           err = ("failed to create resource: " ++ e)%string
           /\ st' = mkState w1 (Lifecycle.calls st)
       | None =>
           exists w2 e2,
             Lifecycle.otlptracehttp_New sdk
               (otlpOptions (TraceEndpoint cfg)) w1 = (w2, e2)
             /\ match e2 with
                | Some e =>
                    err = ("failed to setup trace provider: "
                             ++ "failed to create trace exporter: " ++ e)%string
                    /\ st' = mkState w2 (Lifecycle.calls st)
                | None =>
                    let pt := tracerProviderOf res cfg in
                    let w2' :=
                      Lifecycle.otel_SetTracerProvider sdk pt
                        (Lifecycle.NewTracerProvider sdk pt w2) in
                    exists w3 e3,
                      (if EnablePrometheus cfg
                       then Lifecycle.prometheus_New sdk w2'
                       else (w2', None)) = (w3, e3)
                      /\ match e3 with
                         | Some e =>
                             EnablePrometheus cfg = true
                             /\ err = ("failed to setup metrics provider: "
                                         ++ "failed to create prometheus exporter: "
                                         ++ e)%string
                             /\ st' = mkState w3
                                        (Lifecycle.calls st ++ [Started Trace])
                         | None =>
                             exists w4 e4,
                               Lifecycle.otlpmetrichttp_New sdk
                                 (otlpOptions (MetricsEndpoint cfg)) w3
                               = (w4, e4)
                               /\ match e4 with
                                  | Some e =>
                                      err = ("failed to setup metrics provider: "
                                               ++ "failed to create OTLP metrics exporter: "
                                               ++ e)%string
                                      /\ st' = mkState w4
                                                 (Lifecycle.calls st
                                                    ++ [Started Trace])
                                  | None =>
                                      let pm := meterProviderOf res cfg in
                                      let w4' :=
                                        Lifecycle.otel_SetMeterProvider sdk pm
                                          (Lifecycle.NewMeterProvider sdk pm w4) in
                                      exists w5 e,
                                        Lifecycle.otlploghttp_New sdk
                                          (otlpOptions (LogsEndpoint cfg)) w4'
                                        = (w5, Some e)
                                        /\ err = ("failed to setup logging provider: "
                                                    ++ "failed to create log exporter: "
                                                    ++ e)%string
                                        /\ st' = mkState w5
                                                   (Lifecycle.calls st
                                                      ++ [Started Trace;
                                                          Started Metric])
                                  end
                         end
                end
       end.
Proof.
  intro H. cbv zeta.
  unfold Lifecycle.NewTelemetryProvider in H.
  unfold Lifecycle.bind at 1 in H. rewrite createResource_eq in H.
  norm_state H.
  destruct (Resolve.validAttributes os (Resolve.orDefault os config))
    as [valid|]; [|discriminate H].
  destruct (Lifecycle.resource_New sdk valid (Lifecycle.world st))
    as [w1 [res e1]] eqn:Hres.
  exists valid, w1, res, e1.
  split; [reflexivity|]. split; [first [exact Hres | reflexivity]|].
  destruct e1 as [e|].
  { unfold Lifecycle.ret in H. injection H as <- <-. auto. }
  unfold Lifecycle.bind at 1 in H. rewrite setupTraceProvider_eq in H.
  norm_state H.
  destruct (Lifecycle.otlptracehttp_New sdk _ w1) as [w2 e2] eqn:Ht.
  exists w2, e2. split; [first [exact Ht | reflexivity]|].
  destruct e2 as [e|].
  { unfold Lifecycle.ret in H. injection H as <- <-. auto. }
  unfold Lifecycle.bind at 1 in H. rewrite setupMetricsProvider_eq in H.
  norm_state H.
  match type of H with
  | context [if ?b then Lifecycle.prometheus_New sdk ?w else ?d] =>
      destruct (if b then Lifecycle.prometheus_New sdk w else d)
        as [w3 e3] eqn:Hp
  end.
  exists w3, e3. split; [first [exact Hp | reflexivity]|].
  destruct e3 as [e|].
  { unfold Lifecycle.ret in H. injection H as <- <-.
    split; [|auto].
    destruct (EnablePrometheus (Resolve.orDefault os config));
      [reflexivity | discriminate Hp]. }
  destruct (Lifecycle.otlpmetrichttp_New sdk _ w3) as [w4 e4] eqn:Hm.
  exists w4, e4. split; [first [exact Hm | reflexivity]|].
  destruct e4 as [e|].
  { unfold Lifecycle.ret in H. injection H as <- <-. auto. }
  unfold Lifecycle.bind at 1 in H. rewrite setupLoggingProvider_eq in H.
  norm_state H.
  destruct (Lifecycle.otlploghttp_New sdk _ _) as [w5 [e|]] eqn:Hl.
  - unfold Lifecycle.ret in H. injection H as <- <-.
    exists w5, e. split; [first [exact Hl | reflexivity]|]. split; [reflexivity|].
    rewrite <- app_assoc. reflexivity.
  - unfold Lifecycle.bind, Lifecycle.sdk_do, Lifecycle.ret in H.
    discriminate H.
Qed.

End BootstrapShape.

(** X11.  A successful bootstrap returns a handle that is determined by the
    effective configuration and the one resource that [resource.New]
    returned for the filtered attributes: the three providers are set and
    all carry that resource, the meter provider has the Prometheus reader
    (when enabled) before the periodic OTLP reader, and [shutdownFuncs]
    holds the [Shutdown] methods of these three providers in the order
    trace, metric, log. *)
Theorem bootstrap_returns_configured_handle (W : Type)
    (sdk : Lifecycle.SDK W) (os : Platform) (config : option Config)
    (st st' : Lifecycle.State W) (tp : Lifecycle.TelemetryProvider W) :
  Lifecycle.NewTelemetryProvider sdk os config st = Ok (inl tp, st') ->
  exists valid w res,
    Resolve.validAttributes os (Resolve.orDefault os config) = Ok valid
    /\ Lifecycle.resource_New sdk valid (Lifecycle.world st)
       = (w, (res, None))
    /\ tp = handleOf W sdk res (Resolve.orDefault os config)
    /\ Lifecycle.calls st'
       = (Lifecycle.calls st
            ++ [Started Trace; Started Metric; Started Log])%list.
Proof.
  intro H. apply NewTelemetryProvider_steps in H. cbv zeta in H.
  destruct H as (valid & w1 & res & e1 & Hv & Hr & H).
  destruct e1 as [e|]; [destruct H as [H _]; discriminate H|].
  destruct H as (w2 & e2 & _ & H).
  destruct e2 as [e|]; [destruct H as [H _]; discriminate H|].
  destruct H as (e3 & [(H & _) | [(H & _) | [(H & _) | (H & Hcalls)]]]);
    try discriminate H.
  injection H as ->. exists valid, w1, res. auto.
Qed.

Lemma bootstrap_returns_configured_handle_witness :
  exists tp st' valid w res,
    Demo.boot Demo.healthy = Ok (inl tp, st')
    /\ Resolve.validAttributes Demo.bare (Resolve.orDefault Demo.bare None)
       = Ok valid
    /\ Lifecycle.resource_New Demo.sdk valid (Lifecycle.world Demo.healthy)
       = (w, (res, None))
    /\ tp = handleOf Demo.World Demo.sdk res (Resolve.orDefault Demo.bare None)
    /\ Lifecycle.calls st' = [Started Trace; Started Metric; Started Log].
Proof.
  destruct (Demo.boot Demo.healthy) as [[[tp|err] st0]|] eqn:H.
  - destruct (bootstrap_returns_configured_handle _ _ _ _ _ _ _ H)
      as (valid & w & res & H1 & H2 & H3 & H4).
    exists tp, st0, valid, w, res. auto.
  - vm_compute in H. discriminate H.
  - vm_compute in H. discriminate H.
Defined.

(** X12.  A bootstrap that returns an error has called no shutdown
    function, and the error tells how far it got.  The constructors are
    called in the order resource, trace exporter, Prometheus exporter (when
    enabled), OTLP metrics exporter, log exporter, each on the world the
    steps before it left; the first one that returns an error ends the
    bootstrap, the message is that error under the fixed prefixes of its
    stage, and the state returned is the one that constructor left: the
    trace pipeline (and the metric pipeline, for a log failure) has been
    started and stays as it is. *)
Theorem bootstrap_failure_stages (W : Type) (sdk : Lifecycle.SDK W)
    (os : Platform) (config : option Config)
    (st st' : Lifecycle.State W) (err : error) :
  Lifecycle.NewTelemetryProvider sdk os config st = Ok (inr err, st') ->
  let cfg := Resolve.orDefault os config in
  let state := fun w c => {| Lifecycle.world := w; Lifecycle.calls := c |} in
  hooksInvoked (Lifecycle.calls st') = hooksInvoked (Lifecycle.calls st)
  /\ exists valid w1 res e1,
       Resolve.validAttributes os cfg = Ok valid
       /\ Lifecycle.resource_New sdk valid (Lifecycle.world st)
          = (w1, (res, e1))
       /\ match e1 with
          | Some e =>
              err = "failed to create resource: " ++ e
              /\ st' = state w1 (Lifecycle.calls st)
          | None =>
          exists w2 e2,
            Lifecycle.otlptracehttp_New sdk
              (otlpOptions (TraceEndpoint cfg)) w1 = (w2, e2)
            /\ match e2 with
               | Some e =>
                   err = "failed to setup trace provider: "
                           ++ "failed to create trace exporter: " ++ e
                   /\ st' = state w2 (Lifecycle.calls st)
               | None =>
               let pt := tracerProviderOf res cfg in
               let w2' :=
                 Lifecycle.otel_SetTracerProvider sdk pt
                   (Lifecycle.NewTracerProvider sdk pt w2) in
               exists w3 e3,
                 (if EnablePrometheus cfg
                  then Lifecycle.prometheus_New sdk w2'
                  else (w2', None)) = (w3, e3)
                 /\ match e3 with
                    | Some e =>
                        EnablePrometheus cfg = true
                        /\ err = "failed to setup metrics provider: "
                                   ++ "failed to create prometheus exporter: "
                                   ++ e
                        /\ st' = state w3
                                   (Lifecycle.calls st ++ [Started Trace])%list
                    | None =>
                    exists w4 e4,
                      Lifecycle.otlpmetrichttp_New sdk
                        (otlpOptions (MetricsEndpoint cfg)) w3 = (w4, e4)
                      /\ match e4 with
                         | Some e =>
                             err = "failed to setup metrics provider: "
                                     ++ "failed to create OTLP metrics exporter: "
                                     ++ e
                             /\ st' = state w4
                                        (Lifecycle.calls st
                                           ++ [Started Trace])%list
                         | None =>
                         let pm := meterProviderOf res cfg in
                         let w4' :=
                           Lifecycle.otel_SetMeterProvider sdk pm
                             (Lifecycle.NewMeterProvider sdk pm w4) in
                         exists w5 e,
                           Lifecycle.otlploghttp_New sdk
                             (otlpOptions (LogsEndpoint cfg)) w4'
                           = (w5, Some e)
                           /\ err = "failed to setup logging provider: "
                                      ++ "failed to create log exporter: " ++ e
                           /\ st' = state w5
                                      (Lifecycle.calls st
                                         ++ [Started Trace; Started Metric])%list
                         end
                    end
               end
          end.
Proof.
  intro H. cbv zeta.
  pose proof (NewTelemetryProvider_failure W sdk os config st st' err H) as F.
  cbv zeta in F. split; [|exact F].
  assert (Hooks : forall started,
             hooksInvoked (Lifecycle.calls st ++ map Started started)
             = hooksInvoked (Lifecycle.calls st)).
  { intro started. rewrite hooksInvoked_app.
    induction started as [|s l IH]; simpl in *; [apply app_nil_r | exact IH]. }
  destruct F as (valid & w1 & res & e1 & _ & _ & F).
  destruct e1 as [e|]; [destruct F as [_ ->]; reflexivity|].
  destruct F as (w2 & e2 & _ & F).
  destruct e2 as [e|]; [destruct F as [_ ->]; reflexivity|].
  destruct F as (w3 & e3 & _ & F).
  destruct e3 as [e|]; [destruct F as (_ & _ & ->); apply (Hooks [Trace])|].
  destruct F as (w4 & e4 & _ & F).
  destruct e4 as [e|]; [destruct F as (_ & ->); apply (Hooks [Trace])|].
  destruct F as (w5 & e & _ & _ & ->). apply (Hooks [Trace; Metric]).
Qed.

Lemma bootstrap_failure_stages_witness :
  exists st',
    Demo.boot Demo.metricsDown
    = Ok (inr ("failed to setup metrics provider: "
                 ++ "failed to create OTLP metrics exporter: "
                 ++ "invalid endpoint"), st')
    /\ hooksInvoked (Lifecycle.calls st') = [].
Proof.
  exists {| Lifecycle.world := Lifecycle.world Demo.metricsDown;
            Lifecycle.calls := [Started Trace] |}.
  assert (H : Demo.boot Demo.metricsDown
              = Ok (inr ("failed to setup metrics provider: "
                           ++ "failed to create OTLP metrics exporter: "
                           ++ "invalid endpoint"),
                    {| Lifecycle.world := Lifecycle.world Demo.metricsDown;
                       Lifecycle.calls := [Started Trace] |}))
    by reflexivity.
  split; [exact H|].
  exact (proj1 (bootstrap_failure_stages _ _ _ _ _ _ _ H)).
Defined.

(** X14.  On the handle of a successful bootstrap, [Shutdown] shuts down
    the providers stored in its three fields: the logger provider first,
    the meter provider on the world that left, the tracer provider last;
    the errors they return are combined in that order. *)
Theorem Shutdown_closes_the_three_providers (W : Type)
    (sdk : Lifecycle.SDK W) (os : Platform) (config : option Config)
    (st st0 : Lifecycle.State W) (tp : Lifecycle.TelemetryProvider W) :
  Lifecycle.NewTelemetryProvider sdk os config st = Ok (inl tp, st0) ->
  exists pt pm pl,
    Lifecycle.TracerProvider tp = Some pt
    /\ Lifecycle.MeterProvider tp = Some pm
    /\ Lifecycle.LoggerProvider tp = Some pl
    /\ forall st1 : Lifecycle.State W,
         Lifecycle.Shutdown tp st1
         = let (w1, el) :=
             Lifecycle.LoggerProvider_Shutdown sdk pl (Lifecycle.world st1) in
           let (w2, em) := Lifecycle.MeterProvider_Shutdown sdk pm w1 in
           let (w3, et) := Lifecycle.TracerProvider_Shutdown sdk pt w2 in
           Ok (combined (failures [(Log, el); (Metric, em); (Trace, et)]),
               {| Lifecycle.world := w3;
                  Lifecycle.calls :=
                    (Lifecycle.calls st1
                       ++ [HookInvoked Log el; HookInvoked Metric em;
                           HookInvoked Trace et])%list |}).
Proof.
  intro H. apply NewTelemetryProvider_steps in H. cbv zeta in H.
  destruct H as (valid & w1 & res & e1 & Hv & Hr & H).
  destruct e1 as [e|]; [destruct H as [H _]; discriminate H|].
  destruct H as (w2 & e2 & _ & H).
  destruct e2 as [e|]; [destruct H as [H _]; discriminate H|].
  destruct H as (e3 & [(H & _) | [(H & _) | [(H & _) | (H & Hcalls)]]]);
    try discriminate H.
  injection H as ->.
  eexists. eexists. eexists.
  split; [reflexivity|]. split; [reflexivity|]. split; [reflexivity|].
  intro st1. rewrite Shutdown_run.
  cbn [handleOf Lifecycle.shutdownFuncs rev app runHooks Lifecycle.call
       Lifecycle.owner].
  destruct (Lifecycle.LoggerProvider_Shutdown sdk _ (Lifecycle.world st1))
    as [x1 el].
  destruct (Lifecycle.MeterProvider_Shutdown sdk _ x1) as [x2 em].
  destruct (Lifecycle.TracerProvider_Shutdown sdk _ x2) as [x3 et].
  reflexivity.
Qed.

Lemma Shutdown_closes_the_three_providers_witness :
  exists tp st0 e st1,
    Demo.boot Demo.metricShutdownFails = Ok (inl tp, st0)
    /\ Lifecycle.Shutdown tp st0 = Ok (e, st1)
    /\ e = Some "failed to shutdown telemetry providers: [reader is shutdown]".
Proof.
  destruct (Demo.boot Demo.metricShutdownFails) as [[[tp|err] st0]|] eqn:H.
  - destruct (Shutdown_closes_the_three_providers _ _ _ _ _ _ _ H)
      as (pt & pm & pl & _ & _ & _ & Hshut).
    assert (Hw : Lifecycle.world st0
                 = Lifecycle.world Demo.metricShutdownFails).
    { vm_compute in H. injection H as _ <-. reflexivity. }
    exists tp, st0. eexists. eexists.
    split; [reflexivity|].
    rewrite (Hshut st0), Hw. split; reflexivity.
  - vm_compute in H. discriminate H.
  - vm_compute in H. discriminate H.
Defined.

(** ** What the bootstrap does not read *)

(** X13.  [Config.InsecureMode] is never read: a bootstrap with the flag
    set one way or the other makes the same SDK calls, fails with the same
    error or returns the same providers and shutdown functions; only the
    [Config] kept in the handle differs. *)
Theorem InsecureMode_is_ignored (W : Type) (sdk : Lifecycle.SDK W)
    (os : Platform) (c : Config) (b : bool) (st : Lifecycle.State W) :
  Lifecycle.NewTelemetryProvider sdk os (Some (withInsecureMode b c)) st
  = match Lifecycle.NewTelemetryProvider sdk os (Some c) st with
    | Ok (inl tp, st') => Ok (inl (withConfig W (withInsecureMode b c) tp), st')
    | other => other
    end.
Proof.
  unfold Lifecycle.NewTelemetryProvider, Lifecycle.newProvider.
  cbn [Resolve.orDefault].
  unfold Lifecycle.bind at 1. 
  match goal with
  | |- _ = match Lifecycle.bind ?m ?k ?s with _ => _ end =>
      change (Lifecycle.bind m k s)
        with (match m s with Ok (a, s') => k a s' | Panic => Panic end)
  end.
  rewrite !createResource_eq. cbn [Lifecycle.Config_].
  change (Resolve.validAttributes os (withInsecureMode b c))
    with (Resolve.validAttributes os c).
  destruct (Resolve.validAttributes os c) as [valid|]; [|reflexivity].
  destruct (Lifecycle.resource_New sdk valid (Lifecycle.world st))
    as [w1 [res [e|]]]; [reflexivity|].
  unfold Lifecycle.bind at 1.
  match goal with
  | |- _ = match Lifecycle.bind ?m ?k ?s with _ => _ end =>
      change (Lifecycle.bind m k s)
        with (match m s with Ok (a, s') => k a s' | Panic => Panic end)
  end.
  rewrite !setupTraceProvider_eq.
  cbv beta iota zeta
      delta [Lifecycle.setResource Lifecycle.Config_ Lifecycle.Resource
             Lifecycle.resourceOf].
  cbn [Lifecycle.world Lifecycle.calls].
  change (TraceEndpoint (withInsecureMode b c)) with (TraceEndpoint c).
  change (tracerProviderOf res (withInsecureMode b c))
    with (tracerProviderOf res c).
  destruct (Lifecycle.otlptracehttp_New sdk _ w1) as [w2 [e|]];
    [reflexivity|].
  unfold Lifecycle.bind at 1.
  match goal with
  | |- _ = match Lifecycle.bind ?m ?k ?s with _ => _ end =>
      change (Lifecycle.bind m k s)
        with (match m s with Ok (a, s') => k a s' | Panic => Panic end)
  end.
  rewrite !setupMetricsProvider_eq.
  cbv beta iota zeta
      delta [Lifecycle.appendShutdown Lifecycle.setTracerProvider
             Lifecycle.Config_ Lifecycle.Resource Lifecycle.resourceOf
             Lifecycle.TracerProvider Lifecycle.MeterProvider
             Lifecycle.LoggerProvider Lifecycle.shutdownFuncs].
  cbn [Lifecycle.world Lifecycle.calls].
  change (EnablePrometheus (withInsecureMode b c)) with (EnablePrometheus c).
  change (MetricsEndpoint (withInsecureMode b c)) with (MetricsEndpoint c).
  change (meterProviderOf res (withInsecureMode b c))
    with (meterProviderOf res c).
  destruct (if EnablePrometheus c
            then Lifecycle.prometheus_New sdk _
            else _) as [w3 [e|]]; [reflexivity|].
  destruct (Lifecycle.otlpmetrichttp_New sdk _ w3) as [w4 [e|]];
    [reflexivity|].
  unfold Lifecycle.bind at 1.
  match goal with
  | |- _ = match Lifecycle.bind ?m ?k ?s with _ => _ end =>
      change (Lifecycle.bind m k s)
        with (match m s with Ok (a, s') => k a s' | Panic => Panic end)
  end.
  rewrite !setupLoggingProvider_eq.
  cbv beta iota zeta
      delta [Lifecycle.appendShutdown Lifecycle.setMeterProvider
             Lifecycle.Config_ Lifecycle.Resource Lifecycle.resourceOf
             Lifecycle.TracerProvider Lifecycle.MeterProvider
             Lifecycle.LoggerProvider Lifecycle.shutdownFuncs].
  cbn [Lifecycle.world Lifecycle.calls].
  change (LogsEndpoint (withInsecureMode b c)) with (LogsEndpoint c).
  change (loggerProviderOf res (withInsecureMode b c))
    with (loggerProviderOf res c).
  destruct (Lifecycle.otlploghttp_New sdk _ _) as [w5 [e|]];
    [reflexivity|].
  reflexivity.
Qed.

(** ** The convenience constructors *)

Lemma SetupWithDefaults_is_nil_config (W : Type) (sdk : Lifecycle.SDK W)
    (os : Platform) :
  Lifecycle.SetupWithDefaults sdk os = Lifecycle.NewTelemetryProvider sdk os None.
Proof. reflexivity. Qed.



(** ** Cloud detection *)

(** X16.  An explicit [CLOUD_PROVIDER] wins; without it the provider is
    detected in the order AWS, GCP, Azure from the region, project and
    subscription variables.  The provider is therefore empty, and the
    [cloud.provider] attribute left out, exactly when all six variables
    are empty. *)
Theorem cloud_provider_detection (os : Platform) :
  (Getenv os "CLOUD_PROVIDER" <> EmptyString ->
   Resolve.getCloudProvider os = Getenv os "CLOUD_PROVIDER")
  /\ (Getenv os "CLOUD_PROVIDER" = EmptyString ->
      Resolve.getCloudProvider os
      = if nonempty (Getenv os "AWS_REGION")
           || nonempty (Getenv os "AWS_DEFAULT_REGION") then "aws"
        else if nonempty (Getenv os "GOOGLE_CLOUD_PROJECT")
                || nonempty (Getenv os "GCP_PROJECT") then "gcp"
        else if nonempty (Getenv os "AZURE_SUBSCRIPTION_ID") then "azure"
        else EmptyString)
  /\ (Resolve.getCloudProvider os = EmptyString
      <-> Forall (fun k => Getenv os k = EmptyString)
            ["CLOUD_PROVIDER"; "AWS_REGION"; "AWS_DEFAULT_REGION";
             "GOOGLE_CLOUD_PROJECT"; "GCP_PROJECT"; "AZURE_SUBSCRIPTION_ID"])
  /\ (Resolve.getCloudRegion os <> EmptyString ->
      Getenv os "CLOUD_REGION" = EmptyString ->
      Getenv os "GOOGLE_CLOUD_REGION" = EmptyString ->
      Resolve.getCloudProvider os <> EmptyString).
Proof.
  unfold Resolve.getCloudProvider, Resolve.getCloudRegion.
  cbn [Resolve.firstEnv].
  destruct (nonempty (Getenv os "CLOUD_PROVIDER")) eqn:E0;
  destruct (nonempty (Getenv os "AWS_REGION")) eqn:E1;
  destruct (nonempty (Getenv os "AWS_DEFAULT_REGION")) eqn:E2;
  destruct (nonempty (Getenv os "GOOGLE_CLOUD_PROJECT")) eqn:E3;
  destruct (nonempty (Getenv os "GCP_PROJECT")) eqn:E4;
  destruct (nonempty (Getenv os "AZURE_SUBSCRIPTION_ID")) eqn:E5;
  cbn [orb];
  rewrite ?nonempty_true, ?nonempty_false in *;
  (split; [intro; try reflexivity; try contradiction |
   split; [intro; try reflexivity; try contradiction |
   split; [split;
           [intro H; try discriminate H; try contradiction;
            repeat constructor; assumption
           | intro H;
             repeat (match goal with
                     | F : Forall _ (_ :: _) |- _ =>
                         inversion F; clear F; subst
                     end);
             try reflexivity; try contradiction]
          | intros Hr Hc Hg; rewrite ?Hc, ?Hg in *; cbn [nonempty] in *;
            try discriminate; try assumption;
            try (intro; contradiction)]]]).
Qed.

(** ** The text of the shutdown error *)

Lemma Contains_concat (sep e : string) (errors : list string) :
  In e errors -> Contains (String.concat sep errors) e = true.
Proof.
  induction errors as [|x l IH]; [contradiction|].
  intros [-> | Hin].
  - destruct l as [|y l]; [apply Contains_refl|].
    cbn [String.concat]. apply Contains_app_r, Contains_refl.
  - destruct l as [|y l]; [contradiction|].
    change (String.concat sep (x :: y :: l))
      with (x ++ sep ++ String.concat sep (y :: l)).
    apply Contains_app_l, Contains_app_l, IH, Hin.
Qed.

(** X17.  The error that [Shutdown] returns contains the message of every
    shutdown function that failed, and [Shutdown] returns an error as soon
    as one of them did. *)
Theorem Shutdown_error_names_every_failure (W : Type)
    (tp : Lifecycle.TelemetryProvider W) (st st' : Lifecycle.State W)
    (r : option error) (s : Signal) (msg : error) :
  Lifecycle.Shutdown tp st = Ok (r, st') ->
  In (s, Some msg)
     (snd (runHooks (rev (Lifecycle.shutdownFuncs tp)) (Lifecycle.world st))) ->
  In (HookInvoked s (Some msg)) (Lifecycle.calls st')
  /\ exists e, r = Some e /\ Contains e msg = true.
Proof.
  rewrite Shutdown_run.
  destruct (runHooks (rev (Lifecycle.shutdownFuncs tp)) (Lifecycle.world st))
    as [w' outs].
  cbn [snd]. intros H Hin. injection H as <- <-.
  split.
  - cbn [Lifecycle.calls]. apply in_or_app. right.
    unfold invocations.
    apply (in_map (fun o => HookInvoked (fst o) (snd o)) outs (s, Some msg)).
    exact Hin.
  - assert (Hf : In msg (failures outs))
      by (apply failures_In; exists s; exact Hin).
    unfold combined. destruct (failures outs) as [|x l] eqn:E;
      [contradiction|].
    eexists. split; [reflexivity|].
    apply Contains_app_l. unfold fmt_errors.
    apply Contains_app_l, Contains_app_r, Contains_concat. exact Hf.
Qed.

Lemma Shutdown_error_names_every_failure_witness :
  exists tp st0 r st1,
    Demo.boot Demo.metricShutdownFails = Ok (inl tp, st0)
    /\ Lifecycle.Shutdown tp st0 = Ok (r, st1)
    /\ exists e, r = Some e /\ Contains e "reader is shutdown" = true.
Proof.
  destruct (Demo.boot Demo.metricShutdownFails) as [[[tp|err] st0]|] eqn:H;
    [| vm_compute in H; discriminate H | vm_compute in H; discriminate H].
  destruct (Lifecycle.Shutdown tp st0) as [[r st1]|] eqn:Hs.
  - exists tp, st0, r, st1. split; [reflexivity|]. split; [exact Hs|].
    refine (proj2 (Shutdown_error_names_every_failure _ tp st0 st1 r Metric
                     "reader is shutdown" Hs _)).
    vm_compute in H. injection H as <- <-. vm_compute. tauto.
  - exfalso. rewrite Shutdown_run in Hs.
    destruct (runHooks _ _) in Hs. discriminate Hs.
Defined.

(** X18.  [k8s.pod.name] and [container.name] both fall back to [HOSTNAME].
    When no pod name variable is set, the pod name is the host name if that
    contains a hyphen and is empty otherwise; a pod name guessed this way
    always comes with a container name, and with the same one unless
    [CONTAINER_NAME] is set. *)
Theorem pod_name_guess_shares_container_name (os : Platform)
    (Hk : Getenv os "K8S_POD_NAME" = EmptyString)
    (Hp : Getenv os "POD_NAME" = EmptyString) :
  Resolve.getK8sPodName os
  = (if Contains (Getenv os "HOSTNAME") "-" then Getenv os "HOSTNAME"
     else EmptyString)
  /\ (Resolve.getK8sPodName os <> EmptyString ->
      Resolve.getContainerName os <> EmptyString
      /\ (Getenv os "CONTAINER_NAME" = EmptyString ->
          Resolve.getContainerName os = Resolve.getK8sPodName os)).
Proof.
  unfold Resolve.getK8sPodName, Resolve.getContainerName.
  cbn [Resolve.firstEnv]. rewrite Hk, Hp. cbn [nonempty].
  destruct (nonempty (Getenv os "HOSTNAME")) eqn:Eh; cbn [andb].
  - destruct (Contains (Getenv os "HOSTNAME") "-") eqn:Ec.
    + split; [reflexivity|]. intros _.
      destruct (nonempty (Getenv os "CONTAINER_NAME")) eqn:E.
      * split; [now apply nonempty_true|].
        intro H. rewrite H in E. discriminate E.
      * split; [now apply nonempty_true | reflexivity].
    + split; [reflexivity|]. intro H. now contradiction H.
  - apply nonempty_false in Eh. rewrite Eh. cbn [Contains].
    split; [reflexivity|]. intro H. now contradiction H.
Qed.

Lemma pod_name_guess_shares_container_name_witness :
  let os := Demo.withEnv [("HOSTNAME", "api-7f9c")] Demo.bare in
  Resolve.getK8sPodName os = "api-7f9c"
  /\ Resolve.getContainerName os = "api-7f9c".
Proof.
  intro os.
  destruct (pod_name_guess_shares_container_name os eq_refl eq_refl)
    as [H1 H2].
  split; [exact H1|].
  rewrite H1 in H2. apply H2; [discriminate | reflexivity].
Defined.

(** X19.  [cloud.account.id] and [cloud.provider] read the same project and
    subscription variables.  An account ID that comes from neither
    [CLOUD_ACCOUNT_ID] nor [AWS_ACCOUNT_ID] is the Google project or the
    Azure subscription, and a provider is then always reported; it is the
    matching one unless [CLOUD_PROVIDER], an AWS region or, for Azure, a
    Google project variable takes precedence. *)
Theorem cloud_account_comes_with_provider (os : Platform)
    (Hc : Getenv os "CLOUD_ACCOUNT_ID" = EmptyString)
    (Ha : Getenv os "AWS_ACCOUNT_ID" = EmptyString)
    (Hne : Resolve.getCloudAccountID os <> EmptyString) :
  Resolve.getCloudProvider os <> EmptyString
  /\ (Getenv os "CLOUD_PROVIDER" = EmptyString ->
      Getenv os "AWS_REGION" = EmptyString ->
      Getenv os "AWS_DEFAULT_REGION" = EmptyString ->
      (Getenv os "GOOGLE_CLOUD_PROJECT" <> EmptyString
       /\ Resolve.getCloudAccountID os = Getenv os "GOOGLE_CLOUD_PROJECT"
       /\ Resolve.getCloudProvider os = "gcp")
      \/ (Getenv os "GOOGLE_CLOUD_PROJECT" = EmptyString
          /\ Resolve.getCloudAccountID os = Getenv os "AZURE_SUBSCRIPTION_ID"
          /\ Resolve.getCloudProvider os
             = if nonempty (Getenv os "GCP_PROJECT") then "gcp"
               else "azure")).
Proof.
  revert Hne.
  unfold Resolve.getCloudProvider, Resolve.getCloudAccountID.
  cbn [Resolve.firstEnv]. rewrite Hc, Ha. cbn [nonempty].
  destruct (nonempty (Getenv os "GOOGLE_CLOUD_PROJECT")) eqn:E3.
  - intros _. split.
    + destruct (nonempty (Getenv os "CLOUD_PROVIDER")) eqn:E0;
        [now apply nonempty_true|].
      rewrite Bool.orb_true_l.
      destruct (_ || _); discriminate.
    + intros H0 H1 H2. rewrite H0, H1, H2. cbn [nonempty orb].
      left. split; [now apply nonempty_true | split; reflexivity].
  - destruct (nonempty (Getenv os "AZURE_SUBSCRIPTION_ID")) eqn:E5;
      [|intro H; now contradiction H].
    intros _. split.
    + destruct (nonempty (Getenv os "CLOUD_PROVIDER")) eqn:E0;
        [now apply nonempty_true|].
      destruct (_ || _); [discriminate|].
      destruct (_ || _); discriminate.
    + intros H0 H1 H2. rewrite H0, H1, H2. cbn [nonempty orb].
      right. split; [now apply nonempty_false | split; reflexivity].
Qed.

Lemma cloud_account_comes_with_provider_witness :
  let os := Demo.withEnv [("AWS_REGION", "eu-west-1");
                          ("AZURE_SUBSCRIPTION_ID", "sub-42")] Demo.bare in
  Resolve.getCloudAccountID os = "sub-42"
  /\ Resolve.getCloudProvider os = "aws"
  /\ Resolve.getCloudProvider os <> EmptyString.
Proof.
  intro os. split; [reflexivity | split; [reflexivity|]].
  apply (cloud_account_comes_with_provider os eq_refl eq_refl).
  discriminate.
Defined.
